(** * FraudGuard front end: a shallow embedding of the React components

    The development follows the TypeScript sources component by component:

    - [JS]: the fragment of JavaScript the components rely on (binary64
      numbers, truthiness, [||], string and array built-ins);
    - [Eff]: a state-and-exception monad for the [async] handlers with their
      [try]/[catch]/[finally] blocks, and the Fetch API;
    - [ResultCard], [PredictionForm], [App], [TransactionHistory],
      [AnalyticsDashboard]: the components themselves.

    Modelling choices:

    - numbers are binary64 data ([spec_float] with precision 53), so
      comparisons, [NaN], signed zeros and the rounding of [/] and [*] are
      those of the language; lengths and page indices are integers;
    - strings are sequences of characters; [toLowerCase] is computed on
      strings of ASCII characters, where it folds the letters A-Z, and is
      a parameter of the model on every other string, where it follows
      the Unicode case mappings;
    - each handler sees the state of the render it was created in and one
      event is handled per render;
    - what a handler receives from outside (the outcome of a [fetch], the
      draws of [Math.random()], the clock, number and date formatters) is
      an argument of its model.

    All definitions come first; the theorems about them follow. *)

From Stdlib Require Import ZArith List String Ascii Bool Lia.
From Stdlib Require Import Floats.SpecFloat DecimalString.
Import ListNotations.

Open Scope string_scope.
Open Scope list_scope.
Open Scope Z_scope.

(* ================================================================= *)
(** ** The JavaScript fragment *)

Module JS.

(** A JavaScript number is an IEEE-754 binary64 value. *)
Definition number := spec_float.

Definition prec : Z := 53.
Definition emax : Z := 1024.

Definition NaN : number := S754_nan.

(** An integer literal (exact below 2^53). *)
Definition of_Z (z : Z) : number := binary_normalize prec emax z 0 false.

Definition mul (x y : number) : number := SFmul prec emax x y.
Definition div (x y : number) : number := SFdiv prec emax x y.
Definition sub (x y : number) : number := SFsub prec emax x y.
Definition add (x y : number) : number := SFadd prec emax x y.

(** The decimal literal [m / 10^d], e.g. [lit 8 1] for [0.8]: the
    correctly rounded quotient of two exact integers is the binary64
    value nearest to the decimal, which is what the parser produces. *)
Definition lit (m : Z) (d : Z) : number := div (of_Z m) (of_Z (10 ^ d)).

(** [a < b], [a > b], [a <= b], [a === b], [a !== b] on numbers. *)
Definition lt (a b : number) : bool := SFltb a b.
Definition gt (a b : number) : bool := SFltb b a.
Definition le (a b : number) : bool := SFleb a b.
Definition strict_eq (a b : number) : bool := SFeqb a b.
Definition strict_neq (a b : number) : bool := negb (SFeqb a b).

(** ToBoolean on numbers: [0], [-0] and [NaN] are falsy. *)
Definition truthy (x : number) : bool :=
  match x with
  | S754_zero _ | S754_nan => false
  | _ => true
  end.

(** [a || b] on numbers. *)
Definition or (a b : number) : number := if truthy a then a else b.

(** ToBoolean on strings: only the empty string is falsy. *)
Definition truthy_string (s : string) : bool :=
  match s with
  | EmptyString => false
  | String _ _ => true
  end.

(** Signed mantissa of a finite number. *)
Definition signed (s : bool) (m : positive) : Z :=
  if s then Z.neg m else Z.pos m.

(** [floor (k * x + 1/2)] for a finite [x = (signed s m) * 2^e], computed
    exactly. *)
Definition round_half_up_scaled (k : Z) (s : bool) (m : positive) (e : Z) : Z :=
  if 0 <=? e then k * signed s m * 2 ^ e
  else (2 * k * signed s m + 2 ^ (- e)) / 2 ^ (1 - e).

(** [Math.round]: the nearest integer, ties towards +infinity. *)
Definition Math_round (x : number) : number :=
  match x with
  | S754_finite s m e =>
      if 0 <=? e then x
      else binary_normalize prec emax (round_half_up_scaled 1 s m e) 0 s
  | _ => x
  end.

(** Decimal digits of a natural number. *)
Definition digits (n : N) : string := NilZero.string_of_uint (N.to_uint n).

(** [s.slice(0, n)] on strings, for a literal [n >= 0]. *)
Fixpoint string_take (n : nat) (s : string) : string :=
  match n, s with
  | S n', String c s' => String c (string_take n' s')
  | _, _ => EmptyString
  end.

Fixpoint string_drop (n : nat) (s : string) : string :=
  match n, s with
  | S n', String _ s' => string_drop n' s'
  | _, _ => s
  end.

(** [Math.ceil]: the least integer not below the argument. *)
Definition Math_ceil (x : number) : number :=
  match x with
  | S754_finite s m e =>
      if 0 <=? e then x
      else binary_normalize prec emax (- ((- signed s m) / 2 ^ (- e))) 0 s
  | _ => x
  end.

(** [Object.is] on numbers: the same binary64 datum. *)
Definition same_value (a b : number) : bool :=
  match a, b with
  | S754_zero s1, S754_zero s2 => Bool.eqb s1 s2
  | S754_infinity s1, S754_infinity s2 => Bool.eqb s1 s2
  | S754_nan, S754_nan => true
  | S754_finite s1 m1 e1, S754_finite s2 m2 e2 =>
      Bool.eqb s1 s2 && Pos.eqb m1 m2 && Z.eqb e1 e2
  | _, _ => false
  end.

(** A well-formed binary64 datum: mantissa and exponent in canonical
    form. Every number a program can hold is one. *)
Definition valid (x : number) : bool := valid_binary prec emax x.

(** The exact value of a finite number times 2^1074, an integer for every
    valid number (the least exponent of binary64 is -1074). *)
Definition scaled (x : number) : option Z :=
  match x with
  | S754_zero _ => Some 0
  | S754_finite s m e => Some (signed s m * 2 ^ (e + 1074))
  | _ => None
  end.

(** *** Integer arithmetic

    Array lengths and page indices are integers far below 2^53, where
    [+], [-] and [*] on numbers are exact; the components' arithmetic on
    them is carried out in [Z]. [ceil_div a b] is [Math.ceil(a / b)]. *)
Definition ceil_div (a b : Z) : Z := - ((- a) / b).

(** *** Strings *)

(** The lower-case form of an ASCII character: the letters A-Z (codes 65
    to 90) map to a-z, every other character to itself. *)
Definition lower_ascii (c : ascii) : ascii :=
  let n := nat_of_ascii c in
  if ((65 <=? n) && (n <=? 90))%nat then ascii_of_nat (n + 32) else c.

Fixpoint fold_ascii (s : string) : string :=
  match s with
  | EmptyString => EmptyString
  | String c s' => String (lower_ascii c) (fold_ascii s')
  end.

(** Every character of the string is an ASCII character (code below
    128). *)
Fixpoint is_ascii (s : string) : bool :=
  match s with
  | EmptyString => true
  | String c s' => (nat_of_ascii c <? 128)%nat && is_ascii s'
  end.

Section ToLowerCase.

(** [String.prototype.toLowerCase] on a string that holds a character
    outside ASCII follows the Unicode case mappings, which fold every
    cased letter and depend on the context of a letter in places (the
    final sigma); this part of the built-in is left abstract. *)
Variable toLowerCase_unicode : string -> string.

(** [s.toLowerCase()]: on a string of ASCII characters the letters A-Z
    are folded and nothing else changes. *)
Definition toLowerCase (s : string) : string :=
  if is_ascii s then fold_ascii s else toLowerCase_unicode s.

End ToLowerCase.

(** [s.startsWith(p)] *)
Fixpoint startsWith (s p : string) {struct p} : bool :=
  match p, s with
  | EmptyString, _ => true
  | String a p', String b s' => Ascii.eqb a b && startsWith s' p'
  | String _ _, EmptyString => false
  end.

(** [s.includes(sub)]: [sub] occurs in [s] at some position. *)
Fixpoint includes (s sub : string) : bool :=
  startsWith s sub
  || match s with
     | EmptyString => false
     | String _ s' => includes s' sub
     end.

(** *** Arrays *)

(** [Array.prototype.slice(start, end)]: a negative index counts from
    the end, both are clamped to the array, an empty range gives []. *)
Definition slice {A : Type} (l : list A) (start end_ : Z) : list A :=
  let len := Z.of_nat (List.length l) in
  let k := if start <? 0 then Z.max (len + start) 0 else Z.min start len in
  let final := if end_ <? 0 then Z.max (len + end_) 0 else Z.min end_ len in
  List.firstn (Z.to_nat (final - k)) (List.skipn (Z.to_nat k) l).

(** *** Objects with number-valued properties

    An object is the list of its properties in the order in which
    [Object.keys] and [Object.values] list them: first the keys that are
    array indices, in ascending numeric order, then the other keys in
    the order of their creation. *)
Definition object := list (string * number).

Definition values (o : object) : list number := map snd o.
Definition keys (o : object) : list string := map fst o.

(** [o[key]]: the value of the property, [undefined] when absent. *)
Fixpoint get (o : object) (key : string) : option number :=
  match o with
  | [] => None
  | (k, v) :: o' => if String.eqb k key then Some v else get o' key
  end.

(** The number a key stands for when it is an array index: the decimal
    digits, without leading zeros, of an integer below 2^32 - 1. *)
Definition array_index (key : string) : option N :=
  match NilZero.uint_of_string key with
  | Some u =>
      let n := N.of_uint u in
      if String.eqb (digits n) key && (n <? 4294967295)%N then Some n else None
  | None => None
  end.

(** An existing property takes the new value and keeps its place. *)
Fixpoint replace (o : object) (key : string) (value : number) : object :=
  match o with
  | [] => []
  | (k, v) :: o' =>
      if String.eqb k key then (k, value) :: o'
      else (k, v) :: replace o' key value
  end.

(** A new property whose key is the array index [n] goes before the
    first property whose key is a greater index or no index at all. *)
Fixpoint insert_index (o : object) (n : N) (key : string) (value : number)
  : object :=
  match o with
  | [] => [(key, value)]
  | (k, v) :: o' =>
      match array_index k with
      | Some m =>
          if (m <? n)%N then (k, v) :: insert_index o' n key value
          else (key, value) :: o
      | None => (key, value) :: o
      end
  end.

(** [{ ...o, [key]: value }]: an existing property keeps its place and
    takes the new value; a new one goes last, unless its key is an array
    index, which is listed among the indices. *)
Definition set (o : object) (key : string) (value : number) : object :=
  match get o key with
  | Some _ => replace o key value
  | None =>
      match array_index key with
      | Some n => insert_index o n key value
      | None => o ++ [(key, value)]
      end
  end.

Section ToFixed.

(** [Number.prototype.toString] is left abstract: [toFixed] falls back
    on it only for magnitudes of at least 10^21. *)
Variable Number_toString : number -> string.

(** [x.toFixed(1)], after ECMA-262 21.1.3.3 with [fractionDigits = 1]:
    [n] is the integer nearest to [10 * x] (the larger one on a tie),
    printed with at least two digits and a point before the last. *)
Definition toFixed1 (x : number) : string :=
  match x with
  | S754_nan => "NaN"
  | S754_infinity false => "Infinity"
  | S754_infinity true => "-Infinity"
  | S754_zero _ => "0.0"
  | S754_finite s m e =>
      if le (of_Z (10 ^ 21)) (SFabs x) then Number_toString x
      else
        let n := Z.to_N (round_half_up_scaled 10 false m e) in
        let ds := digits n in
        let ds := if (String.length ds <=? 1)%nat then ("0" ++ ds)%string else ds in
        let k := String.length ds in
        ((if s then "-" else "")
           ++ string_take (k - 1) ds ++ "." ++ string_drop (k - 1) ds)%string
  end.

End ToFixed.

End JS.

(* ================================================================= *)
(** ** Effects of the asynchronous handlers *)

Module Eff.

(** What a handler can throw or a promise can reject with. *)
Inductive Exn :=
| TypeError (msg : string)     (* [fetch] rejects: the transport failed *)
| SyntaxError (msg : string)   (* [response.json()] rejects: the text is not JSON *)
| NullMember (name : string)   (* the TypeError of reading [null.name] *)
| Error (msg : string).        (* [throw new Error(msg)] *)

Inductive result (A : Type) :=
| Ok (a : A)
| Throw (e : Exn).
Arguments Ok {A} a.
Arguments Throw {A} e.

(** A computation over the component state [S]; state written before a
    throw is kept, as in JavaScript. *)
Definition M (S A : Type) : Type := S -> result A * S.

Definition ret {S A} (a : A) : M S A := fun s => (Ok a, s).

Definition bind {S A B} (m : M S A) (k : A -> M S B) : M S B :=
  fun s =>
    match m s with
    | (Ok a, s') => k a s'
    | (Throw e, s') => (Throw e, s')
    end.

Definition throw {S A} (e : Exn) : M S A := fun s => (Throw e, s).

Definition modify {S} (f : S -> S) : M S unit := fun s => (Ok tt, f s).

(** [try { body } catch (e) { handler e }] *)
Definition try_catch {S A} (body : M S A) (handler : Exn -> M S A) : M S A :=
  fun s =>
    match body s with
    | (Ok a, s') => (Ok a, s')
    | (Throw e, s') => handler e s'
    end.

(** [try { body } finally { fin }]: [fin] runs on every exit of [body]
    and the completion of [body] is kept unless [fin] throws itself. *)
Definition try_finally {S A} (body : M S A) (fin : M S unit) : M S A :=
  fun s =>
    match body s with
    | (r, s') =>
        match fin s' with
        | (Ok _, s'') => (r, s'')
        | (Throw e, s'') => (Throw e, s'')
        end
    end.

(** [if (c) { m }] with no [else]. *)
Definition when {S} (c : bool) (m : M S unit) : M S unit :=
  if c then m else ret tt.

(** The final state of a handler run to completion. *)
Definition exec {S A} (m : M S A) (s : S) : S := snd (m s).

(** *** The Fetch API *)

(** The body of a response as [response.json()] finds it: no JSON, on
    which the promise rejects with [e] (a [SyntaxError] with the engine's
    message when the text does not parse, a [TypeError] when the body
    cannot be read); the JSON text [null]; or a JSON value that a member
    can be read from, given by the members the caller reads. *)
Inductive Body (B : Type) :=
| NoJson (e : Exn)
| JsonNull
| JsonValue (b : B).
Arguments NoJson {B} e.
Arguments JsonNull {B}.
Arguments JsonValue {B} b.

Record Response (B : Type) := {
  status : Z;
  body : Body B
}.
Arguments status {B} r.
Arguments body {B} r.

(** The promise returned by [fetch]: rejected when the transport fails,
    resolved with a response otherwise, whatever its status. *)
Inductive FetchResult (B : Type) :=
| Rejected (e : Exn)
| Resolved (r : Response B).
Arguments Rejected {B} e.
Arguments Resolved {B} r.

(** [response.ok]: the status is in the range 200-299. *)
Definition ok {B} (r : Response B) : bool :=
  (200 <=? status r) && (status r <=? 299).

(** [await fetch(...)] *)
Definition await_fetch {S B} (f : FetchResult B) : M S (Response B) :=
  match f with
  | Rejected e => throw e
  | Resolved r => ret r
  end.

(** [await response.json()]: [None] is the value [null]. *)
Definition await_json {S B} (r : Response B) : M S (option B) :=
  match body r with
  | NoJson e => throw e
  | JsonNull => ret None
  | JsonValue b => ret (Some b)
  end.

(** [x.name], where [x] came from [response.json()]: reading a member
    of [null] throws. *)
Definition member {S B C} (x : option B) (name : string) (proj : B -> C) : M S C :=
  match x with
  | None => throw (NullMember name)
  | Some b => ret (proj b)
  end.

End Eff.

Declare Scope eff_scope.
Delimit Scope eff_scope with eff.
Notation "x <- m ;; k" := (Eff.bind m (fun x => k))
  (at level 61, m at next level, right associativity) : eff_scope.
Notation "m ;; k" := (Eff.bind m (fun _ => k))
  (at level 61, right associativity) : eff_scope.

(* ================================================================= *)
(** ** ResultCard.tsx *)

Module ResultCard.

(** The [prediction] prop. *)
Record Prediction := {
  fraud : bool;
  confidence : JS.number;
  message : string;
  transaction_id : option string;
  timestamp : option string
}.

Definition getConfidenceColor (confidence : JS.number) (isFraud : bool) : string :=
  if isFraud then
    if JS.gt confidence (JS.lit 8 1) then "from-red-500 to-rose-600"
    else if JS.gt confidence (JS.lit 5 1) then "from-orange-500 to-amber-600"
    else "from-yellow-500 to-amber-500"
  else
    if JS.lt confidence (JS.lit 2 1) then "from-emerald-500 to-green-600"
    else if JS.lt confidence (JS.lit 5 1) then "from-teal-500 to-emerald-500"
    else "from-blue-500 to-cyan-500".

(** The headline of the status banner. *)
Definition headline (p : Prediction) : string :=
  if fraud p then "Fraud Detected!" else "Transaction Safe".

(** The text of the [<code>] element of the "Transaction ID" row,
    [{prediction.transaction_id.slice(0, 16)}...]; the row is rendered
    only for a truthy id. *)
Definition transactionIdText (p : Prediction) : option string :=
  match transaction_id p with
  | Some id =>
      if JS.truthy_string id then Some (JS.string_take 16 id ++ "...")%string
      else None
  | None => None
  end.

(** The [copied] flag, the system clipboard, and the pending
    [setTimeout] callbacks (each resets [copied]) with their delays. *)
Record State := {
  copied : bool;
  clipboard : option string;
  timeouts : list Z
}.

Definition initial : State :=
  {| copied := false; clipboard := None; timeouts := [] |}.

Definition copyTransactionId (prediction : option Prediction) (s : State) : State :=
  match prediction with
  | Some p =>
      match transaction_id p with
      | Some id =>
          if JS.truthy_string id then
            {| copied := true;
               clipboard := Some id;
               timeouts := timeouts s ++ [2000] |}
          else s
      | None => s
      end
  | None => s
  end.

Definition getStatusBg (isFraud : bool) : string :=
  if isFraud then "bg-gradient-to-br from-red-500 via-rose-500 to-pink-600"
  else "bg-gradient-to-br from-emerald-500 via-green-500 to-teal-600".

(** The children of [AnimatePresence]: each of the three blocks is guarded
    by its own condition, [{cond && (...)}]. *)
Inductive Panel :=
| EmptyPanel                      (* "No Prediction Yet" *)
| LoadingPanel                    (* "Analyzing transaction..." *)
| ResultPanel (p : Prediction).

Definition panels (prediction : option Prediction) (isLoading : bool) : list Panel :=
  (match prediction with
   | None => if negb isLoading then [EmptyPanel] else []
   | Some _ => []
   end)
  ++ (if isLoading then [LoadingPanel] else [])
  ++ (match prediction with
      | Some p => if negb isLoading then [ResultPanel p] else []
      | None => []
      end).

End ResultCard.

(* ================================================================= *)
(** ** PredictionForm.tsx *)

Module PredictionForm.

Definition defaultValues : JS.object := [
  ("time", JS.of_Z 0);
  ("v1", JS.of_Z 0);
  ("v2", JS.of_Z 0);
  ("v3", JS.of_Z 0);
  ("v4", JS.of_Z 0);
  ("v5", JS.of_Z 0);
  ("v6", JS.of_Z 0);
  ("v7", JS.of_Z 0);
  ("v8", JS.of_Z 0);
  ("v9", JS.of_Z 0);
  ("v10", JS.of_Z 0);
  ("v11", JS.of_Z 0);
  ("v12", JS.of_Z 0);
  ("v13", JS.of_Z 0);
  ("v14", JS.of_Z 0);
  ("v15", JS.of_Z 0);
  ("v16", JS.of_Z 0);
  ("v17", JS.of_Z 0);
  ("v18", JS.of_Z 0);
  ("v19", JS.of_Z 0);
  ("v20", JS.of_Z 0);
  ("v21", JS.of_Z 0);
  ("v22", JS.of_Z 0);
  ("v23", JS.of_Z 0);
  ("v24", JS.of_Z 0);
  ("v25", JS.of_Z 0);
  ("v26", JS.of_Z 0);
  ("v27", JS.of_Z 0);
  ("v28", JS.of_Z 0);
  ("amount", JS.of_Z 100)
].

(** The component state held by the three [useState] hooks. *)
Record State := {
  formData : JS.object;
  showAdvanced : bool;
  fillProgress : JS.number
}.

Definition initial : State := {|
  formData := defaultValues;
  showAdvanced := false;
  fillProgress := JS.of_Z 0
|}.

(** [Object.values(o).filter(v => v !== 0).length] *)
Definition filled (o : JS.object) : nat :=
  List.length (List.filter (fun v => JS.strict_neq v (JS.of_Z 0)) (JS.values o)).

(** [(filled / 30) * 100] *)
Definition percent (filled : nat) : JS.number :=
  JS.mul (JS.div (JS.of_Z (Z.of_nat filled)) (JS.of_Z 30)) (JS.of_Z 100).

(** One event is handled per render, so the [formData] closed over by
    the handler is the state the updater function receives. *)
Definition handleChange (field : string) (value : JS.number) (s : State) : State :=
  {| formData := JS.set (formData s) field value;
     showAdvanced := showAdvanced s;
     fillProgress := percent (filled (JS.set (formData s) field value)) |}.

Definition handleReset (s : State) : State :=
  {| formData := defaultValues;
     showAdvanced := showAdvanced s;
     fillProgress := JS.of_Z 0 |}.

(** [Math_random n] is the value of the [n]-th call to [Math.random()]
    made by the handler, in evaluation order. *)
Definition fillRandomData (Math_random : nat -> JS.number) (s : State) : State :=
  let randomData : JS.object := [
    ("time", JS.mul (Math_random 0%nat) (JS.of_Z 172792));
    ("v1", JS.mul (JS.sub (Math_random 1%nat) (JS.lit 5 1)) (JS.of_Z 4));
    ("v2", JS.mul (JS.sub (Math_random 2%nat) (JS.lit 5 1)) (JS.of_Z 4));
    ("v3", JS.mul (JS.sub (Math_random 3%nat) (JS.lit 5 1)) (JS.of_Z 4));
    ("v4", JS.mul (JS.sub (Math_random 4%nat) (JS.lit 5 1)) (JS.of_Z 4));
    ("v5", JS.mul (JS.sub (Math_random 5%nat) (JS.lit 5 1)) (JS.of_Z 4));
    ("v6", JS.mul (JS.sub (Math_random 6%nat) (JS.lit 5 1)) (JS.of_Z 4));
    ("v7", JS.mul (JS.sub (Math_random 7%nat) (JS.lit 5 1)) (JS.of_Z 4));
    ("v8", JS.mul (JS.sub (Math_random 8%nat) (JS.lit 5 1)) (JS.of_Z 4));
    ("v9", JS.mul (JS.sub (Math_random 9%nat) (JS.lit 5 1)) (JS.of_Z 4));
    ("v10", JS.mul (JS.sub (Math_random 10%nat) (JS.lit 5 1)) (JS.of_Z 4));
    ("v11", JS.mul (JS.sub (Math_random 11%nat) (JS.lit 5 1)) (JS.of_Z 4));
    ("v12", JS.mul (JS.sub (Math_random 12%nat) (JS.lit 5 1)) (JS.of_Z 4));
    ("v13", JS.mul (JS.sub (Math_random 13%nat) (JS.lit 5 1)) (JS.of_Z 4));
    ("v14", JS.mul (JS.sub (Math_random 14%nat) (JS.lit 5 1)) (JS.of_Z 4));
    ("v15", JS.mul (JS.sub (Math_random 15%nat) (JS.lit 5 1)) (JS.of_Z 4));
    ("v16", JS.mul (JS.sub (Math_random 16%nat) (JS.lit 5 1)) (JS.of_Z 4));
    ("v17", JS.mul (JS.sub (Math_random 17%nat) (JS.lit 5 1)) (JS.of_Z 4));
    ("v18", JS.mul (JS.sub (Math_random 18%nat) (JS.lit 5 1)) (JS.of_Z 4));
    ("v19", JS.mul (JS.sub (Math_random 19%nat) (JS.lit 5 1)) (JS.of_Z 4));
    ("v20", JS.mul (JS.sub (Math_random 20%nat) (JS.lit 5 1)) (JS.of_Z 4));
    ("v21", JS.mul (JS.sub (Math_random 21%nat) (JS.lit 5 1)) (JS.of_Z 4));
    ("v22", JS.mul (JS.sub (Math_random 22%nat) (JS.lit 5 1)) (JS.of_Z 4));
    ("v23", JS.mul (JS.sub (Math_random 23%nat) (JS.lit 5 1)) (JS.of_Z 4));
    ("v24", JS.mul (JS.sub (Math_random 24%nat) (JS.lit 5 1)) (JS.of_Z 4));
    ("v25", JS.mul (JS.sub (Math_random 25%nat) (JS.lit 5 1)) (JS.of_Z 4));
    ("v26", JS.mul (JS.sub (Math_random 26%nat) (JS.lit 5 1)) (JS.of_Z 4));
    ("v27", JS.mul (JS.sub (Math_random 27%nat) (JS.lit 5 1)) (JS.of_Z 4));
    ("v28", JS.mul (JS.sub (Math_random 28%nat) (JS.lit 5 1)) (JS.of_Z 4));
    ("amount", JS.mul (Math_random 29%nat) (JS.of_Z 1000))
  ] in
  {| formData := randomData;
     showAdvanced := showAdvanced s;
     fillProgress := JS.of_Z 100 |}.

(** [handleSubmit]: the draft handed to [onSubmit]. *)
Definition handleSubmit (s : State) : JS.object := formData s.

(** The inputs the form renders: time, amount and
    [Array.from({ length: 28 }, (_, i) => i + 1)]. *)
Inductive Input :=
| TimeInput
| AmountInput
| VInput (num : nat).

Definition vNumbers : list nat := List.map (fun i => (i + 1)%nat) (List.seq 0 28).

Definition rendered (i : Input) : bool :=
  match i with
  | VInput num => List.existsb (Nat.eqb num) vNumbers
  | _ => true
  end.

(** The [id] of an input, which is also the field it edits. *)
Definition field_of (i : Input) : string :=
  match i with
  | TimeInput => "time"
  | AmountInput => "amount"
  | VInput num => ("v" ++ JS.digits (N.of_nat num))%string
  end.

(** What the user can do to the form. [Edit i raw] is an [onChange] of
    input [i] where [raw] is [parseFloat(e.target.value)]. *)
Inductive Event :=
| Edit (i : Input) (raw : JS.number)
| Reset
| Randomize (Math_random : nat -> JS.number)
| ToggleAdvanced.

Definition step (s : State) (ev : Event) : State :=
  match ev with
  | Edit i raw => handleChange (field_of i) (JS.or raw (JS.of_Z 0)) s
  | Reset => handleReset s
  | Randomize rnd => fillRandomData rnd s
  | ToggleAdvanced =>
      {| formData := formData s;
         showAdvanced := negb (showAdvanced s);
         fillProgress := fillProgress s |}
  end.

Definition run (evs : list Event) : State := List.fold_left step evs initial.

(** The label next to the bar: [Math.round(fillProgress)]. *)
Definition displayed (s : State) : JS.number := JS.Math_round (fillProgress s).

(** The [value] prop of an input: [formData.time], [formData.amount],
    [formData[`v${num}`]]. *)
Definition inputValue (s : State) (i : Input) : option JS.number :=
  JS.get (formData s) (field_of i).

End PredictionForm.

(* ================================================================= *)
(** ** App.tsx *)

Module App.

(** [stats] as held by [useState]. *)
Record Stats := {
  totalPredictions : JS.number;
  fraudCount : JS.number;
  safeCount : JS.number;
  fraudPercentage : JS.number
}.

(** The [data] member of the [/stats] payload; a missing member reads as
    [undefined]. *)
Record StatsData := {
  total_predictions : option JS.number;
  fraud_count : option JS.number;
  safe_count : option JS.number;
  fraud_percentage : option JS.number
}.

Record StatsJson := { data : option StatsData }.

(** [x || 0] where [x] may be [undefined]. *)
Definition or_zero (x : option JS.number) : JS.number :=
  match x with
  | Some n => JS.or n (JS.of_Z 0)
  | None => JS.of_Z 0
  end.

Inductive Toast :=
| ToastSuccess (msg : string)
| ToastError (msg : string).

Inductive ConsoleLine :=
| ConsoleLog (msg : string)
| ConsoleError (e : Eff.Exn).

(** The state of [AppContent] together with what it has emitted:
    [setLoadingCalls] records every argument passed to [setIsLoading]. *)
Record State := {
  prediction : option ResultCard.Prediction;
  isLoading : bool;
  stats : Stats;
  toasts : list Toast;
  console : list ConsoleLine;
  setLoadingCalls : list bool
}.

Definition initial : State := {|
  prediction := None;
  isLoading := false;
  stats := {| totalPredictions := JS.of_Z 0;
              fraudCount := JS.of_Z 0;
              safeCount := JS.of_Z 0;
              fraudPercentage := JS.of_Z 0 |};
  toasts := [];
  console := [];
  setLoadingCalls := []
|}.

(** The backend as seen from one handler invocation. *)
Record Backend := {
  post_predict : JS.object -> Eff.FetchResult ResultCard.Prediction;
  get_stats : Eff.FetchResult StatsJson
}.

Definition setPrediction (p : option ResultCard.Prediction) : Eff.M State unit :=
  Eff.modify (fun s =>
    {| prediction := p; isLoading := isLoading s; stats := stats s;
       toasts := toasts s; console := console s;
       setLoadingCalls := setLoadingCalls s |}).

Definition setIsLoading (b : bool) : Eff.M State unit :=
  Eff.modify (fun s =>
    {| prediction := prediction s; isLoading := b; stats := stats s;
       toasts := toasts s; console := console s;
       setLoadingCalls := setLoadingCalls s ++ [b] |}).

Definition setStats (st : Stats) : Eff.M State unit :=
  Eff.modify (fun s =>
    {| prediction := prediction s; isLoading := isLoading s; stats := st;
       toasts := toasts s; console := console s;
       setLoadingCalls := setLoadingCalls s |}).

Definition toast (t : Toast) : Eff.M State unit :=
  Eff.modify (fun s =>
    {| prediction := prediction s; isLoading := isLoading s; stats := stats s;
       toasts := toasts s ++ [t]; console := console s;
       setLoadingCalls := setLoadingCalls s |}).

Definition console_write (l : ConsoleLine) : Eff.M State unit :=
  Eff.modify (fun s =>
    {| prediction := prediction s; isLoading := isLoading s; stats := stats s;
       toasts := toasts s; console := console s ++ [l];
       setLoadingCalls := setLoadingCalls s |}).

Definition fetchStats (be : Backend) : Eff.M State unit :=
  Eff.try_catch
    (response <- Eff.await_fetch (get_stats be) ;;
     Eff.when (Eff.ok response)
       (payload <- Eff.await_json response ;;
        payload_data <- Eff.member payload "data" data ;;
        match payload_data with
        | Some d =>
            setStats {| totalPredictions := or_zero (total_predictions d);
                        fraudCount := or_zero (fraud_count d);
                        safeCount := or_zero (safe_count d);
                        fraudPercentage := or_zero (fraud_percentage d) |}
        | None => Eff.ret tt
        end))%eff
    (fun _ => console_write (ConsoleLog "Backend not connected, using mock stats")).

(** [fetchStats()] is called without [await]; its body only touches
    [stats] and the console, so running it in place of the call gives
    the same final state as any later completion. *)
Definition handlePrediction (be : Backend) (formData : JS.object) : Eff.M State unit :=
  (setIsLoading true ;;
   Eff.try_finally
     (Eff.try_catch
        (response <- Eff.await_fetch (post_predict be formData) ;;
         Eff.when (negb (Eff.ok response)) (Eff.throw (Eff.Error "Prediction failed")) ;;
         result <- Eff.await_json response ;;
         setPrediction result ;;
         toast (ToastSuccess "Prediction completed!") ;;
         fetchStats be)
        (fun error =>
           toast (ToastError "Failed to get prediction. Is the backend running?") ;;
           console_write (ConsoleError error)))
     (setIsLoading false))%eff.

(** [Math_random n] is the [n]-th call to [Math.random()] made while the
    object literal is evaluated. *)
Definition generateSafeTransaction (Math_random : nat -> JS.number) : JS.object := [
  ("time", JS.mul (Math_random 0%nat) (JS.of_Z 172792));
  ("v1", JS.mul (JS.sub (Math_random 1%nat) (JS.lit 5 1)) (JS.of_Z 2));
  ("v2", JS.mul (JS.sub (Math_random 2%nat) (JS.lit 5 1)) (JS.of_Z 2));
  ("v3", JS.mul (JS.sub (Math_random 3%nat) (JS.lit 5 1)) (JS.of_Z 2));
  ("v4", JS.mul (JS.sub (Math_random 4%nat) (JS.lit 5 1)) (JS.of_Z 2));
  ("v5", JS.mul (JS.sub (Math_random 5%nat) (JS.lit 5 1)) (JS.of_Z 2));
  ("v6", JS.mul (JS.sub (Math_random 6%nat) (JS.lit 5 1)) (JS.of_Z 2));
  ("v7", JS.mul (JS.sub (Math_random 7%nat) (JS.lit 5 1)) (JS.of_Z 2));
  ("v8", JS.mul (JS.sub (Math_random 8%nat) (JS.lit 5 1)) (JS.of_Z 2));
  ("v9", JS.mul (JS.sub (Math_random 9%nat) (JS.lit 5 1)) (JS.of_Z 2));
  ("v10", JS.mul (JS.sub (Math_random 10%nat) (JS.lit 5 1)) (JS.of_Z 2));
  ("v11", JS.mul (JS.sub (Math_random 11%nat) (JS.lit 5 1)) (JS.of_Z 2));
  ("v12", JS.mul (JS.sub (Math_random 12%nat) (JS.lit 5 1)) (JS.of_Z 2));
  ("v13", JS.mul (JS.sub (Math_random 13%nat) (JS.lit 5 1)) (JS.of_Z 2));
  ("v14", JS.mul (JS.sub (Math_random 14%nat) (JS.lit 5 1)) (JS.of_Z 2));
  ("v15", JS.mul (JS.sub (Math_random 15%nat) (JS.lit 5 1)) (JS.of_Z 2));
  ("v16", JS.mul (JS.sub (Math_random 16%nat) (JS.lit 5 1)) (JS.of_Z 2));
  ("v17", JS.mul (JS.sub (Math_random 17%nat) (JS.lit 5 1)) (JS.of_Z 2));
  ("v18", JS.mul (JS.sub (Math_random 18%nat) (JS.lit 5 1)) (JS.of_Z 2));
  ("v19", JS.mul (JS.sub (Math_random 19%nat) (JS.lit 5 1)) (JS.of_Z 2));
  ("v20", JS.mul (JS.sub (Math_random 20%nat) (JS.lit 5 1)) (JS.of_Z 2));
  ("v21", JS.mul (JS.sub (Math_random 21%nat) (JS.lit 5 1)) (JS.of_Z 2));
  ("v22", JS.mul (JS.sub (Math_random 22%nat) (JS.lit 5 1)) (JS.of_Z 2));
  ("v23", JS.mul (JS.sub (Math_random 23%nat) (JS.lit 5 1)) (JS.of_Z 2));
  ("v24", JS.mul (JS.sub (Math_random 24%nat) (JS.lit 5 1)) (JS.of_Z 2));
  ("v25", JS.mul (JS.sub (Math_random 25%nat) (JS.lit 5 1)) (JS.of_Z 2));
  ("v26", JS.mul (JS.sub (Math_random 26%nat) (JS.lit 5 1)) (JS.of_Z 2));
  ("v27", JS.mul (JS.sub (Math_random 27%nat) (JS.lit 5 1)) (JS.of_Z 2));
  ("v28", JS.mul (JS.sub (Math_random 28%nat) (JS.lit 5 1)) (JS.of_Z 2));
  ("amount", JS.add (JS.of_Z 20) (JS.mul (Math_random 29%nat) (JS.of_Z 200)))
].

Definition generateFraudulentTransaction (Math_random : nat -> JS.number) : JS.object := [
  ("time", JS.mul (Math_random 0%nat) (JS.of_Z 172792));
  ("v1", JS.add (JS.of_Z 2) (JS.mul (Math_random 1%nat) (JS.of_Z 3)));
  ("v2", JS.add (JS.of_Z (-2)) (JS.mul (Math_random 2%nat) (JS.of_Z 2)));
  ("v3", JS.add (JS.of_Z 2) (JS.mul (Math_random 3%nat) (JS.of_Z 3)));
  ("v4", JS.add (JS.of_Z 1) (JS.mul (Math_random 4%nat) (JS.of_Z 2)));
  ("v5", JS.add (JS.of_Z (-1)) (JS.mul (Math_random 5%nat) (JS.of_Z 2)));
  ("v6", JS.add (JS.of_Z 1) (JS.mul (Math_random 6%nat) (JS.of_Z 2)));
  ("v7", JS.add (JS.lit 5 1) (JS.mul (Math_random 7%nat) (JS.of_Z 2)));
  ("v8", JS.add (JS.lit (-5) 1) (JS.mul (Math_random 8%nat) (JS.of_Z 2)));
  ("v9", JS.add (JS.of_Z 1) (JS.mul (Math_random 9%nat) (JS.of_Z 2)));
  ("v10", JS.add (JS.lit 5 1) (JS.mul (Math_random 10%nat) (JS.of_Z 2)));
  ("v11", JS.add (JS.of_Z (-1)) (JS.mul (Math_random 11%nat) (JS.of_Z 2)));
  ("v12", JS.add (JS.lit (-15) 1) (JS.mul (Math_random 12%nat) (JS.of_Z 2)));
  ("v13", JS.add (JS.of_Z (-2)) (JS.mul (Math_random 13%nat) (JS.of_Z 2)));
  ("v14", JS.add (JS.of_Z (-1)) (JS.mul (Math_random 14%nat) (JS.of_Z 2)));
  ("v15", JS.add (JS.lit 15 1) (JS.mul (Math_random 15%nat) (JS.of_Z 2)));
  ("v16", JS.add (JS.of_Z (-1)) (JS.mul (Math_random 16%nat) (JS.of_Z 2)));
  ("v17", JS.add (JS.lit 5 1) (JS.mul (Math_random 17%nat) (JS.of_Z 2)));
  ("v18", JS.add (JS.lit 2 1) (JS.mul (Math_random 18%nat) (JS.of_Z 2)));
  ("v19", JS.add (JS.of_Z 1) (JS.mul (Math_random 19%nat) (JS.of_Z 2)));
  ("v20", JS.add (JS.lit 5 1) (JS.mul (Math_random 20%nat) (JS.of_Z 2)));
  ("v21", JS.add (JS.lit (-5) 1) (JS.mul (Math_random 21%nat) (JS.of_Z 2)));
  ("v22", JS.add (JS.lit 5 1) (JS.mul (Math_random 22%nat) (JS.of_Z 2)));
  ("v23", JS.add (JS.lit (-5) 1) (JS.mul (Math_random 23%nat) (JS.of_Z 2)));
  ("v24", JS.add (JS.lit 2 1) (JS.mul (Math_random 24%nat) (JS.of_Z 2)));
  ("v25", JS.add (JS.lit 5 1) (JS.mul (Math_random 25%nat) (JS.of_Z 2)));
  ("v26", JS.add (JS.lit (-5) 1) (JS.mul (Math_random 26%nat) (JS.of_Z 2)));
  ("v27", JS.add (JS.lit 5 1) (JS.mul (Math_random 27%nat) (JS.of_Z 2)));
  ("v28", JS.add (JS.lit (-2) 1) (JS.mul (Math_random 28%nat) (JS.of_Z 2)));
  ("amount", JS.add (JS.of_Z 500) (JS.mul (Math_random 29%nat) (JS.of_Z 2000)))
].

(** ['fraud' | 'safe'] *)
Inductive TestType := TestFraud | TestSafe.

Definition handleQuickTest (be : Backend) (Math_random : nat -> JS.number)
           (type : TestType) : Eff.M State unit :=
  (setIsLoading true ;;
   let testData :=
     match type with
     | TestFraud => generateFraudulentTransaction Math_random
     | TestSafe => generateSafeTransaction Math_random
     end in
   Eff.try_finally
     (Eff.try_catch
        (response <- Eff.await_fetch (post_predict be testData) ;;
         Eff.when (negb (Eff.ok response)) (Eff.throw (Eff.Error "Prediction failed")) ;;
         result <- Eff.await_json response ;;
         setPrediction result ;;
         toast (ToastSuccess
                  ((match type with
                    | TestFraud => "Fraudulent"
                    | TestSafe => "Safe"
                    end) ++ " transaction test completed!")%string) ;;
         fetchStats be)
        (fun _ =>
           toast (ToastError "Failed to get prediction. Is the backend running?")))
     (setIsLoading false))%eff.

(** What happens to [AppContent] over time: the mount effect calls
    [fetchStats], the form calls [onSubmit], a quick-test button is
    clicked. The buttons are disabled while [isLoading], so a handler has
    run to its end before the next one starts; each event comes with the
    backend as it is at that moment. *)
Inductive Event :=
| Mounted (be : Backend)
| Submitted (be : Backend) (formData : JS.object)
| QuickTestClicked (be : Backend) (Math_random : nat -> JS.number) (type : TestType).

Definition handle (ev : Event) : Eff.M State unit :=
  match ev with
  | Mounted be => fetchStats be
  | Submitted be formData => handlePrediction be formData
  | QuickTestClicked be rnd type => handleQuickTest be rnd type
  end.

Definition run (evs : list Event) : State :=
  List.fold_left (fun s ev => Eff.exec (handle ev) s) evs initial.

End App.

(* ================================================================= *)
(** ** TransactionHistory.tsx *)

Module TransactionHistory.

Record InputFeatures := {
  amount : option JS.number;
  time : option JS.number
}.

(** The interface declares [transaction_id] and [timestamp] as strings,
    but the component reads them defensively ([?.], truthiness) because
    the rows come unchecked from the backend; [None] is a missing
    member. *)
Record Transaction := {
  _id : string;
  transaction_id : option string;
  prediction : bool;
  confidence : JS.number;
  timestamp : option string;
  input_features : option InputFeatures
}.

(** ['all' | 'fraud' | 'safe'] *)
Inductive Filter := FilterAll | FilterFraud | FilterSafe.

Definition Filter_eqb (a b : Filter) : bool :=
  match a, b with
  | FilterAll, FilterAll | FilterFraud, FilterFraud | FilterSafe, FilterSafe => true
  | _, _ => false
  end.

Record State := {
  transactions : list Transaction;
  loading : bool;
  filter : Filter;
  searchQuery : string;
  currentPage : Z;
  console : list string
}.

Definition initial : State := {|
  transactions := [];
  loading := true;
  filter := FilterAll;
  searchQuery := "";
  currentPage := 1;
  console := []
|}.

Definition itemsPerPage : Z := 10.

(** *** Filter and search *)

Section Component.

(** [toLowerCase] on strings with characters outside ASCII, see
    [JS.toLowerCase]. *)
Variable toLowerCase_unicode : string -> string.

Definition matchesFilter (f : Filter) (tx : Transaction) : bool :=
  Filter_eqb f FilterAll
  || (Filter_eqb f FilterFraud && prediction tx)
  || (Filter_eqb f FilterSafe && negb (prediction tx)).

(** [tx.transaction_id?.toLowerCase().includes(...)] is [undefined],
    hence falsy, when the id is missing. *)
Definition matchesSearch (q : string) (tx : Transaction) : bool :=
  String.eqb q ""
  || match transaction_id tx with
     | Some id =>
         JS.includes (JS.toLowerCase toLowerCase_unicode id)
           (JS.toLowerCase toLowerCase_unicode q)
     | None => false
     end.

Definition filterTransactions (f : Filter) (q : string)
           (txs : list Transaction) : list Transaction :=
  List.filter (fun tx => matchesFilter f tx && matchesSearch q tx) txs.

Definition filteredTransactions (s : State) : list Transaction :=
  filterTransactions (filter s) (searchQuery s) (transactions s).

(** *** Pagination *)

(** [Math.ceil(items.length / itemsPerPage)] *)
Definition pageCount {A : Type} (items : list A) : Z :=
  JS.ceil_div (Z.of_nat (List.length items)) itemsPerPage.

(** [items.slice((page - 1) * itemsPerPage, page * itemsPerPage)] *)
Definition page {A : Type} (items : list A) (page : Z) : list A :=
  JS.slice items ((page - 1) * itemsPerPage) (page * itemsPerPage).

Definition totalPages (s : State) : Z := pageCount (filteredTransactions s).

Definition paginatedTransactions (s : State) : list Transaction :=
  page (filteredTransactions s) (currentPage s).

(** *** Cells *)

Definition getConfidenceColor (confidence : JS.number) (isFraud : bool) : string :=
  if isFraud then
    if JS.gt confidence (JS.lit 8 1) then "text-red-600 dark:text-red-400"
    else if JS.gt confidence (JS.lit 5 1) then "text-orange-600 dark:text-orange-400"
    else "text-yellow-600 dark:text-yellow-400"
  else "text-emerald-600 dark:text-emerald-400".

(** [{tx.transaction_id?.slice(0, 20)}...] *)
Definition idCell (tx : Transaction) : string :=
  ((match transaction_id tx with
    | Some id => JS.string_take 20 id
    | None => ""
    end) ++ "...")%string.

(** *** What is on screen *)

Inductive View :=
| Spinner
| NoTransactionsFound
| Table (rows : list Transaction) (pagination : bool).

Definition render (s : State) : View :=
  if loading s && (List.length (transactions s) =? 0)%nat then Spinner
  else if (List.length (paginatedTransactions s) =? 0)%nat then NoTransactionsFound
  else Table (paginatedTransactions s) (1 <? totalPages s).

Definition paginationShown (s : State) : bool :=
  match render s with
  | Table _ shown => shown
  | _ => false
  end.

(** A button can be clicked when it is on screen and not [disabled]. *)
Definition previousEnabled (s : State) : bool :=
  paginationShown s && negb (currentPage s =? 1).

Definition nextEnabled (s : State) : bool :=
  paginationShown s && negb (currentPage s =? totalPages s).

(** "Showing [from] to [to] of [total] transactions" *)
Definition showingFrom (s : State) : Z := (currentPage s - 1) * itemsPerPage + 1.

Definition showingTo (s : State) : Z :=
  Z.min (currentPage s * itemsPerPage) (Z.of_nat (List.length (filteredTransactions s))).

Definition showingTotal (s : State) : Z :=
  Z.of_nat (List.length (filteredTransactions s)).

(** *** Handlers *)

Definition setTransactions (txs : list Transaction) (s : State) : State :=
  {| transactions := txs; loading := loading s; filter := filter s;
     searchQuery := searchQuery s; currentPage := currentPage s;
     console := console s |}.

Definition setLoading (b : bool) (s : State) : State :=
  {| transactions := transactions s; loading := b; filter := filter s;
     searchQuery := searchQuery s; currentPage := currentPage s;
     console := console s |}.

Definition setFilter (f : Filter) (s : State) : State :=
  {| transactions := transactions s; loading := loading s; filter := f;
     searchQuery := searchQuery s; currentPage := currentPage s;
     console := console s |}.

Definition setSearchQuery (q : string) (s : State) : State :=
  {| transactions := transactions s; loading := loading s; filter := filter s;
     searchQuery := q; currentPage := currentPage s;
     console := console s |}.

Definition setCurrentPage (f : Z -> Z) (s : State) : State :=
  {| transactions := transactions s; loading := loading s; filter := filter s;
     searchQuery := searchQuery s; currentPage := f (currentPage s);
     console := console s |}.

Definition console_log (msg : string) (s : State) : State :=
  {| transactions := transactions s; loading := loading s; filter := filter s;
     searchQuery := searchQuery s; currentPage := currentPage s;
     console := console s ++ [msg] |}.

(** [onClick={() => setCurrentPage(p => Math.max(1, p - 1))}] *)
Definition onPrevious (s : State) : State :=
  setCurrentPage (fun p => Z.max 1 (p - 1)) s.

(** [onClick={() => setCurrentPage(p => Math.min(totalPages, p + 1))}] *)
Definition onNext (s : State) : State :=
  setCurrentPage (fun p => Z.min (totalPages s) (p + 1)) s.

(** *** Mock rows *)

(** What the mock generator draws from its environment: the [n]-th call
    to [Math.random()] and to [Date.now()], and the two formatters
    [Number.prototype.toString(36)] and [new Date(ms).toISOString()]. *)
Record Runtime := {
  Math_random : nat -> JS.number;
  Date_now : nat -> JS.number;
  toString36 : JS.number -> string;
  toISOString : JS.number -> string
}.

(** The element built for index [i]; its six draws are taken in the
    order the object literal evaluates them. *)
Definition mockTransaction (rt : Runtime) (i : nat) : Transaction :=
  let r := fun k => Math_random rt (6 * i + k)%nat in
  {| _id := ("mock_" ++ JS.digits (N.of_nat i))%string;
     transaction_id :=
       Some ("txn_" ++ JS.string_take 16 (JS.string_drop 2 (toString36 rt (r 0%nat))))%string;
     prediction := JS.gt (r 1%nat) (JS.lit 85 2);
     confidence := r 2%nat;
     timestamp :=
       Some (toISOString rt
               (JS.sub (Date_now rt i) (JS.mul (r 3%nat) (JS.of_Z 86400000))));
     input_features :=
       Some {| amount := Some (JS.mul (r 4%nat) (JS.of_Z 1000));
               time := Some (JS.mul (r 5%nat) (JS.of_Z 172792)) |} |}.

(** [Array.from({ length: 25 }, (_, i) => ...)] *)
Definition generateMockTransactions (rt : Runtime) : list Transaction :=
  List.map (mockTransaction rt) (List.seq 0 25).

(** *** Fetching *)

(** The [/recent] payload; a missing [data] member reads as
    [undefined]. *)
Record RecentJson := { data : option (list Transaction) }.

(** [x || []] where [x] is an array or [undefined]. *)
Definition or_empty (x : option (list Transaction)) : list Transaction :=
  match x with
  | Some txs => txs
  | None => []
  end.

(** [data.data || []] for a payload other than [null]. *)
Definition data_or_empty (j : RecentJson) : list Transaction :=
  or_empty (data j).

Definition fetchTransactions (rt : Runtime) (recent : Eff.FetchResult RecentJson)
  : Eff.M State unit :=
  (Eff.modify (setLoading true) ;;
   Eff.try_finally
     (Eff.try_catch
        (response <- Eff.await_fetch recent ;;
         if Eff.ok response then
           payload <- Eff.await_json response ;;
           payload_data <- Eff.member payload "data" data ;;
           Eff.modify (setTransactions (or_empty payload_data))
         else
           Eff.modify (setTransactions (generateMockTransactions rt)))
        (fun _ =>
           Eff.modify (console_log "Using mock data") ;;
           Eff.modify (setTransactions (generateMockTransactions rt))))
     (Eff.modify (setLoading false)))%eff.

(** *** The view as a transition system *)

Inductive Action :=
| SelectFilter (f : Filter)
| TypeSearch (q : string)
| ClickPrevious
| ClickNext
| Fetch (rt : Runtime) (recent : Eff.FetchResult RecentJson).

Inductive Step : State -> Action -> State -> Prop :=
| StepFilter s f : Step s (SelectFilter f) (setFilter f s)
| StepSearch s q : Step s (TypeSearch q) (setSearchQuery q s)
| StepPrevious s :
    previousEnabled s = true -> Step s ClickPrevious (onPrevious s)
| StepNext s :
    nextEnabled s = true -> Step s ClickNext (onNext s)
| StepFetch s rt recent :
    Step s (Fetch rt recent) (Eff.exec (fetchTransactions rt recent) s).

Inductive Reachable : State -> Prop :=
| ReachInitial : Reachable initial
| ReachStep s a s' : Reachable s -> Step s a s' -> Reachable s'.

End Component.

End TransactionHistory.

(* ================================================================= *)
(** ** AnalyticsDashboard.tsx *)

Module AnalyticsDashboard.

Definition COLORS_fraud : string := "#ef4444".
Definition COLORS_safe : string := "#10b981".

Record PieSlice := {
  name : string;
  value : JS.number;
  color : string
}.

(** A card shows a number or, for the rate, a formatted string. *)
Inductive CardValue :=
| NumberValue (n : JS.number)
| TextValue (s : string).

Record StatCard := {
  title : string;
  card_value : CardValue;
  card_color : string;
  trend : string
}.

Section Render.

Variable Number_toString : JS.number -> string.
Variable stats : App.Stats.

Definition pieData : list PieSlice := [
  {| name := "Safe";
     value := JS.or (App.safeCount stats) (JS.of_Z 85);
     color := COLORS_safe |};
  {| name := "Fraud";
     value := JS.or (App.fraudCount stats) (JS.of_Z 15);
     color := COLORS_fraud |}
].

Definition statCards : list StatCard := [
  {| title := "Total Predictions";
     card_value := NumberValue (JS.or (App.totalPredictions stats) (JS.of_Z 1247));
     card_color := "bg-blue-500";
     trend := "+12%" |};
  {| title := "Fraud Detected";
     card_value := NumberValue (JS.or (App.fraudCount stats) (JS.of_Z 23));
     card_color := "bg-red-500";
     trend := "+5%" |};
  {| title := "Safe Transactions";
     card_value := NumberValue (JS.or (App.safeCount stats) (JS.of_Z 1224));
     card_color := "bg-emerald-500";
     trend := "+15%" |};
  {| title := "Fraud Rate";
     card_value :=
       TextValue (JS.toFixed1 Number_toString
                    (JS.or (App.fraudPercentage stats) (JS.lit 18 1)) ++ "%")%string;
     card_color := "bg-purple-500";
     trend := "-2%" |}
].

(** [if (!mounted) return null]; afterwards the cards and the pie. *)
Definition render (mounted : bool) : option (list StatCard * list PieSlice) :=
  if negb mounted then None else Some (statCards, pieData).

End Render.

End AnalyticsDashboard.

(* ================================================================= *)
(** ** Specification-side vocabulary *)

(** *** Result presenter *)

(** The six severity tiers named by the specification of the result
    presenter. *)
Inductive Severity := High | Medium | Low | VerySafe | Safe | BorderlineSafe.

(** Tier selection as the specification words it. *)
Definition severity_spec (fraud : bool) (confidence : JS.number) : Severity :=
  if fraud then
    if JS.gt confidence (JS.lit 8 1) then High
    else if JS.gt confidence (JS.lit 5 1) then Medium
    else Low
  else
    if JS.lt confidence (JS.lit 2 1) then VerySafe
    else if JS.lt confidence (JS.lit 5 1) then Safe
    else BorderlineSafe.

(** The tier a gradient class of the result card stands for. *)
Definition severity_of_gradient (cls : string) : option Severity :=
  if String.eqb cls "from-red-500 to-rose-600" then Some High
  else if String.eqb cls "from-orange-500 to-amber-600" then Some Medium
  else if String.eqb cls "from-yellow-500 to-amber-500" then Some Low
  else if String.eqb cls "from-emerald-500 to-green-600" then Some VerySafe
  else if String.eqb cls "from-teal-500 to-emerald-500" then Some Safe
  else if String.eqb cls "from-blue-500 to-cyan-500" then Some BorderlineSafe
  else None.

(** The tier the result card presents for a confidence and a label. *)
Definition presented_tier (confidence : JS.number) (fraud : bool) : option Severity :=
  severity_of_gradient (ResultCard.getConfidenceColor confidence fraud).

(** The class a history row takes for a tier: one per fraud tier, and a
    single one for the three safe tiers. *)
Definition history_class (t : Severity) : string :=
  match t with
  | High => "text-red-600 dark:text-red-400"
  | Medium => "text-orange-600 dark:text-orange-400"
  | Low => "text-yellow-600 dark:text-yellow-400"
  | VerySafe | Safe | BorderlineSafe => "text-emerald-600 dark:text-emerald-400"
  end.

(** [x] is greater than [t] as exact values. *)
Definition exactly_above (x t : JS.number) : Prop :=
  exists a b, JS.scaled x = Some a /\ JS.scaled t = Some b /\ b < a.

(** [x] is less than [t] as exact values. *)
Definition exactly_below (x t : JS.number) : Prop := exactly_above t x.

(** *** Prediction client *)

(** How the exchange with [/predict] ended, as the handler sees it;
    [result] is the parsed body, [None] for the JSON text [null]. *)
Inductive Exchange :=
| Succeeded (result : option ResultCard.Prediction)
| Failed.

(** A 2xx response with a JSON body is the only success. *)
Definition exchange_of (f : Eff.FetchResult ResultCard.Prediction) : Exchange :=
  match f with
  | Eff.Rejected _ => Failed
  | Eff.Resolved r =>
      if Eff.ok r then
        match Eff.body r with
        | Eff.JsonValue p => Succeeded (Some p)
        | Eff.JsonNull => Succeeded None
        | Eff.NoJson _ => Failed
        end
      else Failed
  end.

(** The notification of a failed prediction. *)
Definition failure_toast : App.Toast :=
  App.ToastError "Failed to get prediction. Is the backend running?".

(** *** Form collector *)

(** [floor (100 * n / 30 + 1/2)]: the exact completion percentage of [n]
    filled fields out of 30, rounded to the nearest integer. *)
Definition rounded_percent (n : nat) : Z :=
  (2 * (100 * Z.of_nat n) + 30) / (2 * 30).

(** [p] is the ratio [100 * n / 30] up to the rounding of binary64: a
    valid number whose exact value is within 2^-45 of the ratio. *)
Definition ratio_up_to_rounding (p : JS.number) (n : nat) : Prop :=
  JS.valid p = true
  /\ exists a, JS.scaled p = Some a
               /\ Z.abs (30 * a - 100 * Z.of_nat n * 2 ^ 1074)
                  <= 30 * 2 ^ (1074 - 45).

(** The form events a user can produce act on rendered inputs only. *)
Definition form_event_ok (ev : PredictionForm.Event) : Prop :=
  match ev with
  | PredictionForm.Edit i _ => PredictionForm.rendered i = true
  | _ => True
  end.

(** What every reachable state of the form satisfies. *)
Definition form_inv (s : PredictionForm.State) : Prop :=
  JS.keys (PredictionForm.formData s) = JS.keys PredictionForm.defaultValues
  /\ JS.le (JS.of_Z 0) (PredictionForm.fillProgress s) = true
  /\ JS.le (PredictionForm.fillProgress s) (JS.of_Z 100) = true.

(** *** History *)

(** [c] is an upper-case ASCII letter and [d] the same letter in lower
    case: "A" and "a" up to "Z" and "z". *)
Definition upper_and_lower (c d : ascii) : Prop :=
  (nat_of_ascii "A" <= nat_of_ascii c <= nat_of_ascii "Z")%nat
  /\ (nat_of_ascii d + nat_of_ascii "A" = nat_of_ascii c + nat_of_ascii "a")%nat.

(** The same character, up to the case of an ASCII letter. *)
Definition same_letter (c d : ascii) : Prop :=
  c = d \/ upper_and_lower c d \/ upper_and_lower d c.

(** The same string, up to the case of its ASCII letters. *)
Inductive same_ignoring_case : string -> string -> Prop :=
| same_empty : same_ignoring_case "" ""
| same_next c d s t :
    same_letter c d -> same_ignoring_case s t ->
    same_ignoring_case (String c s) (String d t).

(** [sub] occurs in [s]. *)
Definition occurs_in (s sub : string) : Prop :=
  exists pre suf : string, s = (pre ++ sub ++ suf)%string.

(** [sub] occurs in [s], up to the case of ASCII letters. *)
Definition contains_ignoring_case (s sub : string) : Prop :=
  exists pre mid suf : string,
    s = (pre ++ mid ++ suf)%string /\ same_ignoring_case mid sub.

(** The transaction carries an id whose lower-case form contains the
    lower-case form of [q]; [lower] is [toLowerCase] on strings with
    characters outside ASCII. *)
Definition id_matches (lower : string -> string) (q : string)
           (tx : TransactionHistory.Transaction) : Prop :=
  exists id, TransactionHistory.transaction_id tx = Some id
             /\ occurs_in (JS.toLowerCase lower id) (JS.toLowerCase lower q).

(** The transaction carries an id in which [q] occurs, ignoring the case
    of ASCII letters. *)
Definition id_contains (q : string) (tx : TransactionHistory.Transaction) : Prop :=
  exists id, TransactionHistory.transaction_id tx = Some id
             /\ contains_ignoring_case id q.

(** A history row with the given id and label, for concrete runs. *)
Definition tagged_row (id : string) (fraud : bool) : TransactionHistory.Transaction := {|
  TransactionHistory._id := id;
  TransactionHistory.transaction_id := Some id;
  TransactionHistory.prediction := fraud;
  TransactionHistory.confidence := JS.lit 9 1;
  TransactionHistory.timestamp := None;
  TransactionHistory.input_features := None
|}.

(** An id with a letter outside ASCII: "E" with an acute accent, in
    UTF-8, followed by "CLAIR-1". *)
Definition accented_id : string :=
  String "195"%char (String "137"%char "CLAIR-1").

(** A search string outside ASCII: "e" with an acute accent, in UTF-8. *)
Definition accented_query : string :=
  String "195"%char (String "169"%char "").

(** The id of the transaction, if any, is a string of ASCII characters. *)
Definition ascii_id (tx : TransactionHistory.Transaction) : Prop :=
  forall id, TransactionHistory.transaction_id tx = Some id -> JS.is_ascii id = true.

(** The status selected by a filter. *)
Definition status_matches (f : TransactionHistory.Filter)
           (tx : TransactionHistory.Transaction) : Prop :=
  match f with
  | TransactionHistory.FilterAll => True
  | TransactionHistory.FilterFraud => TransactionHistory.prediction tx = true
  | TransactionHistory.FilterSafe => TransactionHistory.prediction tx = false
  end.

(** A history row with every member of the record present. *)
Definition full_shape (tx : TransactionHistory.Transaction) : Prop :=
  TransactionHistory._id tx <> ""
  /\ (exists id, TransactionHistory.transaction_id tx = Some id)
  /\ (exists ts, TransactionHistory.timestamp tx = Some ts)
  /\ (exists a t,
         TransactionHistory.input_features tx
         = Some {| TransactionHistory.amount := Some a;
                   TransactionHistory.time := Some t |}).

(** *** Concrete inputs *)

(** The backend answers every request to [/predict] with HTTP 500. *)
Definition backend_500 : App.Backend := {|
  App.post_predict := fun _ =>
    Eff.Resolved {| Eff.status := 500;
                    Eff.body :=
                      Eff.NoJson (Eff.SyntaxError "Unexpected token I in JSON") |};
  App.get_stats := Eff.Rejected (Eff.TypeError "Failed to fetch")
|}.

(** A random source that always yields 0.5. *)
Definition always_half : nat -> JS.number := fun _ => JS.lit 5 1.

(** A stub for [Number.prototype.toString], for concrete runs. *)
Definition no_toString : JS.number -> string := fun _ => "".

(** A stub for [toLowerCase] on strings with characters outside ASCII,
    for concrete runs on ASCII strings. *)
Definition no_unicode : string -> string := fun s => s.

(** The prediction of the end-to-end scenario of the specification. *)
Definition scenario_prediction : ResultCard.Prediction := {|
  ResultCard.fraud := false;
  ResultCard.confidence := JS.lit 97 2;
  ResultCard.message := "Transaction appears legitimate";
  ResultCard.transaction_id := Some "abc123";
  ResultCard.timestamp := None
|}.

(** A list of 25 items, for concrete runs of the pagination. *)
Definition twenty_five : list nat := List.seq 0 25.

(** An environment for concrete runs: every draw is 0.5 and the clock and
    the formatters are stubs. *)
Definition stub_runtime : TransactionHistory.Runtime := {|
  TransactionHistory.Math_random := fun _ => JS.lit 5 1;
  TransactionHistory.Date_now := fun _ => JS.of_Z 1700000000000;
  TransactionHistory.toString36 := fun _ => "0.i";
  TransactionHistory.toISOString := fun _ => "2023-11-14T10:13:20.000Z"
|}.

(** [/recent] answers with HTTP 503 and no JSON body. *)
Definition recent_unavailable : Eff.FetchResult TransactionHistory.RecentJson :=
  Eff.Resolved {| Eff.status := 503;
                  Eff.body :=
                    Eff.NoJson (Eff.SyntaxError "Unexpected token S in JSON") |}.

(** The history after a failed fetch: 25 mock rows, all safe with the stub
    environment, on three pages. *)
Definition history_loaded : TransactionHistory.State :=
  Eff.exec (TransactionHistory.fetchTransactions stub_runtime recent_unavailable)
    TransactionHistory.initial.

(** Two clicks on next after the failed fetch. *)
Definition history_on_page_3 (lower : string -> string) : TransactionHistory.State :=
  TransactionHistory.onNext lower (TransactionHistory.onNext lower history_loaded).

(** *** Further properties: vocabulary *)

(** The panel the result card is meant to show. *)
Definition expected_panel (prediction : option ResultCard.Prediction)
           (isLoading : bool) : ResultCard.Panel :=
  if isLoading then ResultCard.LoadingPanel
  else match prediction with
       | None => ResultCard.EmptyPanel
       | Some p => ResultCard.ResultPanel p
       end.

(** A value a JSON body can carry as a number: not NaN, and not -0. *)
Definition plain_number (v : JS.number) : Prop :=
  v <> S754_nan /\ v <> S754_zero true.

(** Events other than randomize-all. *)
Definition not_randomize (ev : PredictionForm.Event) : Prop :=
  match ev with
  | PredictionForm.Randomize _ => False
  | _ => True
  end.

(** A draft in which every field is 1. *)
Definition all_ones : JS.object :=
  List.map (fun k => (k, JS.of_Z 1)) (JS.keys PredictionForm.defaultValues).

(** A prediction without transaction id. *)
Definition anonymous_prediction : ResultCard.Prediction := {|
  ResultCard.fraud := true;
  ResultCard.confidence := JS.lit 9 1;
  ResultCard.message := "Suspicious";
  ResultCard.transaction_id := None;
  ResultCard.timestamp := None
|}.

(** The stats stored from a [/stats] payload: [x || 0] member by member. *)
Definition normalised (d : App.StatsData) : App.Stats := {|
  App.totalPredictions := App.or_zero (App.total_predictions d);
  App.fraudCount := App.or_zero (App.fraud_count d);
  App.safeCount := App.or_zero (App.safe_count d);
  App.fraudPercentage := App.or_zero (App.fraud_percentage d)
|}.

(** The stats after a refresh: replaced only by a 2xx response whose JSON
    body has a [data] member. *)
Definition refreshed_stats (be : App.Backend) (st : App.Stats) : App.Stats :=
  match App.get_stats be with
  | Eff.Rejected _ => st
  | Eff.Resolved r =>
      if Eff.ok r then
        match Eff.body r with
        | Eff.JsonValue payload =>
            match App.data payload with
            | Some d => normalised d
            | None => st
            end
        | Eff.JsonNull | Eff.NoJson _ => st
        end
      else st
  end.

(** The line [fetchStats] writes when its [try] block threw. *)
Definition not_connected : App.ConsoleLine :=
  App.ConsoleLog "Backend not connected, using mock stats".

(** What a refresh writes to the console: one line when the [try] block
    threw (rejected fetch; 2xx body that is no JSON, or that is [null],
    whose [data] cannot be read), nothing otherwise. *)
Definition refresh_log (be : App.Backend) : list App.ConsoleLine :=
  match App.get_stats be with
  | Eff.Rejected _ => [not_connected]
  | Eff.Resolved r =>
      if Eff.ok r then
        match Eff.body r with
        | Eff.JsonValue _ => []
        | Eff.JsonNull | Eff.NoJson _ => [not_connected]
        end
      else []
  end.

(** No stat is NaN or -0. *)
Definition plain_stats (st : App.Stats) : Prop :=
  plain_number (App.totalPredictions st)
  /\ plain_number (App.fraudCount st)
  /\ plain_number (App.safeCount st)
  /\ plain_number (App.fraudPercentage st).

(** The error a failed exchange with [/predict] ends in. *)
Definition failure_of (f : Eff.FetchResult ResultCard.Prediction) : option Eff.Exn :=
  match f with
  | Eff.Rejected e => Some e
  | Eff.Resolved r =>
      if Eff.ok r then
        match Eff.body r with
        | Eff.NoJson e => Some e
        | _ => None
        end
      else Some (Eff.Error "Prediction failed")
  end.

(** The record a quick test posts. *)
Definition testData (rnd : nat -> JS.number) (type : App.TestType) : JS.object :=
  match type with
  | App.TestFraud => App.generateFraudulentTransaction rnd
  | App.TestSafe => App.generateSafeTransaction rnd
  end.

(** A backend that is down: every request is rejected. *)
Definition backend_down : App.Backend := {|
  App.post_predict := fun _ => Eff.Rejected (Eff.TypeError "Failed to fetch");
  App.get_stats := Eff.Rejected (Eff.TypeError "Failed to fetch")
|}.

(** [/recent] answers 200 with the first five mock rows. *)
Definition recent_five : Eff.FetchResult TransactionHistory.RecentJson :=
  Eff.Resolved
    {| Eff.status := 200;
       Eff.body :=
         Eff.JsonValue
           {| TransactionHistory.data :=
                Some (List.firstn 5
                        (TransactionHistory.generateMockTransactions stub_runtime)) |} |}.

(** The history on page 3 after a refresh that returned five rows. *)
Definition history_shrunk (lower : string -> string) : TransactionHistory.State :=
  Eff.exec (TransactionHistory.fetchTransactions stub_runtime recent_five)
    (history_on_page_3 lower).

(** What a fetch of the history writes to the console: one line when
    the [try] block threw. *)
Definition fetch_log (recent : Eff.FetchResult TransactionHistory.RecentJson)
  : list string :=
  match recent with
  | Eff.Rejected _ => ["Using mock data"]
  | Eff.Resolved r =>
      if Eff.ok r then
        match Eff.body r with
        | Eff.JsonValue _ => []
        | Eff.JsonNull | Eff.NoJson _ => ["Using mock data"]
        end
      else []
  end.

(** The rows a fetch of the history stores: the [data] of a 2xx JSON
    payload, and the mock rows in every other case. *)
Definition fetched_rows (rt : TransactionHistory.Runtime)
           (recent : Eff.FetchResult TransactionHistory.RecentJson)
  : list TransactionHistory.Transaction :=
  match recent with
  | Eff.Rejected _ => TransactionHistory.generateMockTransactions rt
  | Eff.Resolved r =>
      if Eff.ok r then
        match Eff.body r with
        | Eff.JsonValue payload => TransactionHistory.data_or_empty payload
        | Eff.JsonNull | Eff.NoJson _ =>
            TransactionHistory.generateMockTransactions rt
        end
      else TransactionHistory.generateMockTransactions rt
  end.

(** The events that request a prediction. *)
Definition is_request (ev : App.Event) : bool :=
  match ev with
  | App.Mounted _ => false
  | _ => true
  end.

(** The number of prediction requests among the events. *)
Definition requests (evs : list App.Event) : nat :=
  List.length (List.filter is_request evs).

(* ================================================================= *)
(** * Theorems *)

(** ** Numbers: comparisons are the order of the exact values *)

Lemma digits2_pos_size (m : positive) : digits2_pos m = Pos.size m.
Proof. induction m; cbn; congruence. Qed.

Lemma valid_finite_bounds (s : bool) (m : positive) (e : Z) :
  JS.valid (S754_finite s m e) = true ->
  -1074 <= e /\ Z.pos m < 2 ^ 53 /\ (-1074 < e -> 2 ^ 52 <= Z.pos m).
Proof.
  unfold JS.valid, valid_binary, bounded, canonical_mantissa, fexp, emin, JS.prec, JS.emax.
  rewrite andb_true_iff, Z.eqb_eq, digits2_pos_size.
  intros [Hc _].
  pose proof (Pos.size_gt m) as Hgt.
  pose proof (Pos.size_le m) as Hle.
  apply Pos2Z.pos_lt_pos in Hgt. apply Pos2Z.pos_le_pos in Hle.
  rewrite Pos2Z.inj_pow in Hgt, Hle.
  assert (Hd : Z.pos (Pos.size m) <= 53) by lia.
  split; [lia |]. split.
  - apply Z.lt_le_trans with (2 ^ Z.pos (Pos.size m)); [exact Hgt |].
    apply Z.pow_le_mono_r; lia.
  - intros He. assert (Z.pos (Pos.size m) = 53) by lia.
    rewrite H in Hle. change (2 ^ 53) with (2 * 2 ^ 52) in Hle. lia.
Qed.

Lemma scaled_gap (ma mb : positive) (ea eb : Z) :
  -1074 <= ea -> ea < eb -> Z.pos ma < 2 ^ 53 -> 2 ^ 52 <= Z.pos mb ->
  Z.pos ma * 2 ^ (ea + 1074) < Z.pos mb * 2 ^ (eb + 1074).
Proof.
  intros La Lab Ua Nb.
  replace (eb + 1074) with ((ea + 1074) + (eb - ea)) by lia.
  rewrite (Z.pow_add_r 2 (ea + 1074) (eb - ea)) by lia.
  assert (HP : 0 < 2 ^ (ea + 1074)) by (apply Z.pow_pos_nonneg; lia).
  assert (HQ : 2 ^ 1 <= 2 ^ (eb - ea)) by (apply Z.pow_le_mono_r; lia).
  change (2 ^ 1) with 2 in HQ.
  change (2 ^ 53) with (2 ^ 52 * 2) in Ua.
  assert (HT : 0 < 2 ^ 52) by reflexivity.
  generalize dependent (2 ^ 52). intros T Ua Nb HT.
  generalize dependent (2 ^ (eb - ea)). intros Q HQ.
  generalize dependent (2 ^ (ea + 1074)). intros P HP.
  assert (Z.pos ma < Z.pos mb * Q).
  { apply Z.lt_le_trans with (T * 2); [exact Ua |].
    apply Z.mul_le_mono_nonneg; lia. }
  rewrite (Z.mul_comm P Q), Z.mul_assoc.
  apply Z.mul_lt_mono_pos_r; assumption.
Qed.

Lemma compare_positive (m1 m2 : positive) (e1 e2 : Z) :
  JS.valid (S754_finite false m1 e1) = true ->
  JS.valid (S754_finite false m2 e2) = true ->
  match e1 ?= e2 with
  | Lt => Lt
  | Gt => Gt
  | Eq => Pos.compare_cont Eq m1 m2
  end = (Z.pos m1 * 2 ^ (e1 + 1074) ?= Z.pos m2 * 2 ^ (e2 + 1074)).
Proof.
  intros V1 V2.
  destruct (valid_finite_bounds _ _ _ V1) as (L1 & U1 & N1).
  destruct (valid_finite_bounds _ _ _ V2) as (L2 & U2 & N2).
  pose proof scaled_gap as Hgap.
  destruct (Z.compare_spec e1 e2) as [E | E | E]; symmetry.
  - subst e2. rewrite <- Zmult_compare_compat_r; [reflexivity |].
    apply Z.lt_gt. apply Z.pow_pos_nonneg; lia.
  - apply Z.compare_lt_iff. apply Hgap; lia.
  - apply Z.compare_gt_iff. apply Hgap; lia.
Qed.

Lemma compare_scaled (x y : JS.number) (a b : Z) :
  JS.valid x = true -> JS.valid y = true ->
  JS.scaled x = Some a -> JS.scaled y = Some b ->
  SFcompare x y = Some (a ?= b).
Proof.
  intros Vx Vy Sx Sy.
  destruct x as [sx | sx | | sx mx ex], y as [sy | sy | | sy my ey];
    try discriminate; cbn in Sx, Sy; injection Sx as <-; injection Sy as <-.
  - reflexivity.
  - assert (Py : 0 < 2 ^ (ey + 1074)).
    { apply Z.pow_pos_nonneg; [lia |]. destruct (valid_finite_bounds _ _ _ Vy); lia. }
    cbn [SFcompare]. f_equal. pose proof (Pos2Z.is_pos my).
    destruct sy; cbn [JS.signed]; symmetry.
    + apply Z.compare_gt_iff. change (Z.neg my) with (- Z.pos my). nia.
    + apply Z.compare_lt_iff. nia.
  - assert (Px : 0 < 2 ^ (ex + 1074)).
    { apply Z.pow_pos_nonneg; [lia |]. destruct (valid_finite_bounds _ _ _ Vx); lia. }
    cbn [SFcompare]. f_equal. pose proof (Pos2Z.is_pos mx).
    destruct sx; cbn [JS.signed]; symmetry.
    + apply Z.compare_lt_iff. change (Z.neg mx) with (- Z.pos mx). nia.
    + apply Z.compare_gt_iff. nia.
  - assert (Px : 0 < 2 ^ (ex + 1074)).
    { apply Z.pow_pos_nonneg; [lia|]. destruct (valid_finite_bounds _ _ _ Vx); lia. }
    assert (Py : 0 < 2 ^ (ey + 1074)).
    { apply Z.pow_pos_nonneg; [lia|]. destruct (valid_finite_bounds _ _ _ Vy); lia. }
    cbn [SFcompare]. f_equal.
    destruct sx, sy; cbn [JS.signed].
    + change (JS.valid (S754_finite true mx ex)) with (JS.valid (S754_finite false mx ex)) in Vx.
      change (JS.valid (S754_finite true my ey)) with (JS.valid (S754_finite false my ey)) in Vy.
      pose proof (compare_positive mx my ex ey Vx Vy) as C.
      change (Z.neg mx) with (- Z.pos mx). change (Z.neg my) with (- Z.pos my).
      rewrite !Z.mul_opp_l, Z.compare_opp, (Z.compare_antisym (Z.pos mx * _)), <- C.
      destruct (ex ?= ey); reflexivity.
    + symmetry. apply Z.compare_lt_iff.
      pose proof (Pos2Z.is_pos mx). pose proof (Pos2Z.is_pos my).
      change (Z.neg mx) with (- Z.pos mx). nia.
    + symmetry. apply Z.compare_gt_iff.
      pose proof (Pos2Z.is_pos mx). pose proof (Pos2Z.is_pos my).
      change (Z.neg my) with (- Z.pos my). nia.
    + apply compare_positive; assumption.
Qed.

Lemma lt_scaled (x y : JS.number) (a b : Z) :
  JS.valid x = true -> JS.valid y = true ->
  JS.scaled x = Some a -> JS.scaled y = Some b ->
  JS.lt x y = (a <? b).
Proof.
  intros Vx Vy Sx Sy. unfold JS.lt, SFltb, Z.ltb.
  rewrite (compare_scaled x y a b Vx Vy Sx Sy). reflexivity.
Qed.

Lemma gt_scaled (x y : JS.number) (a b : Z) :
  JS.valid x = true -> JS.valid y = true ->
  JS.scaled x = Some a -> JS.scaled y = Some b ->
  JS.gt x y = (b <? a).
Proof.
  intros Vx Vy Sx Sy. exact (lt_scaled y x b a Vy Vx Sy Sx).
Qed.

Lemma le_scaled (x y : JS.number) (a b : Z) :
  JS.valid x = true -> JS.valid y = true ->
  JS.scaled x = Some a -> JS.scaled y = Some b ->
  JS.le x y = (a <=? b).
Proof.
  intros Vx Vy Sx Sy. unfold JS.le, SFleb, Z.leb.
  rewrite (compare_scaled x y a b Vx Vy Sx Sy). reflexivity.
Qed.

(** ** Result presenter *)

Lemma severity_of_gradient_color (c : JS.number) (f : bool) :
  presented_tier c f = Some (severity_spec f c).
Proof.
  unfold presented_tier, ResultCard.getConfidenceColor, severity_spec.
  destruct f.
  - destruct (JS.gt c (JS.lit 8 1)); [reflexivity|].
    destruct (JS.gt c (JS.lit 5 1)); reflexivity.
  - destruct (JS.lt c (JS.lit 2 1)); [reflexivity|].
    destruct (JS.lt c (JS.lit 5 1)); reflexivity.
Qed.

Lemma thresholds_scaled :
  exists b8 b5 b2 : Z,
    JS.scaled (JS.lit 8 1) = Some b8
    /\ JS.scaled (JS.lit 5 1) = Some b5
    /\ JS.scaled (JS.lit 2 1) = Some b2
    /\ b2 < b5 /\ b5 < b8.
Proof.
  do 3 eexists. repeat split; vm_compute; reflexivity.
Qed.

Lemma exactly_above_iff (x t : JS.number) (a b : Z) :
  JS.scaled x = Some a -> JS.scaled t = Some b ->
  (exactly_above x t <-> b < a).
Proof.
  intros Sx St. unfold exactly_above. split.
  - intros (a' & b' & Ha & Hb & Hlt). congruence.
  - intros Hlt. now exists a, b.
Qed.

(** The tiers of a finite confidence, read on exact values. *)
Lemma severity_by_exact_value (c : JS.number) :
  JS.valid c = true -> (exists a, JS.scaled c = Some a) ->
  (severity_spec true c = High <-> exactly_above c (JS.lit 8 1))
  /\ (severity_spec true c = Medium
      <-> exactly_above c (JS.lit 5 1) /\ ~ exactly_above c (JS.lit 8 1))
  /\ (severity_spec true c = Low <-> ~ exactly_above c (JS.lit 5 1))
  /\ (severity_spec false c = VerySafe <-> exactly_below c (JS.lit 2 1))
  /\ (severity_spec false c = Safe
      <-> exactly_below c (JS.lit 5 1) /\ ~ exactly_below c (JS.lit 2 1))
  /\ (severity_spec false c = BorderlineSafe <-> ~ exactly_below c (JS.lit 5 1)).
Proof.
  intros V [a Sa].
  destruct thresholds_scaled as (b8 & b5 & b2 & S8 & S5 & S2 & H25 & H58).
  assert (V8 : JS.valid (JS.lit 8 1) = true) by (vm_compute; reflexivity).
  assert (V5 : JS.valid (JS.lit 5 1) = true) by (vm_compute; reflexivity).
  assert (V2 : JS.valid (JS.lit 2 1) = true) by (vm_compute; reflexivity).
  unfold exactly_below.
  rewrite (exactly_above_iff c _ a b8 Sa S8), (exactly_above_iff c _ a b5 Sa S5),
    (exactly_above_iff _ c b2 a S2 Sa), (exactly_above_iff _ c b5 a S5 Sa).
  unfold severity_spec.
  rewrite (gt_scaled c _ a b8 V V8 Sa S8), (gt_scaled c _ a b5 V V5 Sa S5),
    (lt_scaled c _ a b2 V V2 Sa S2), (lt_scaled c _ a b5 V V5 Sa S5).
  clear V Sa S8 S5 S2 V8 V5 V2.
  destruct (Z.ltb_spec b8 a), (Z.ltb_spec b5 a), (Z.ltb_spec a b2), (Z.ltb_spec a b5);
    try lia;
    repeat match goal with |- _ /\ _ => split end;
    split; intros; try reflexivity; try discriminate; try lia.
Qed.

(** C1. The gradient chosen by the result card is a function of the pair
    (fraud, confidence) alone and stands for the tier the specification
    names: for fraud, high above 0.8, medium above 0.5, low otherwise; for
    safe, very safe below 0.2, safe below 0.5, borderline-safe otherwise,
    where above and below are strict comparisons of exact values. At
    exactly 0.8, 0.5 and 0.2 (and at NaN) the tier is the lower one. *)
Theorem getConfidenceColor_severity :
  (forall (c : JS.number) (f : bool), presented_tier c f = Some (severity_spec f c))
  /\ (forall c : JS.number,
         JS.valid c = true -> (exists a, JS.scaled c = Some a) ->
         (presented_tier c true = Some High <-> exactly_above c (JS.lit 8 1))
         /\ (presented_tier c true = Some Medium
             <-> exactly_above c (JS.lit 5 1) /\ ~ exactly_above c (JS.lit 8 1))
         /\ (presented_tier c true = Some Low <-> ~ exactly_above c (JS.lit 5 1))
         /\ (presented_tier c false = Some VerySafe <-> exactly_below c (JS.lit 2 1))
         /\ (presented_tier c false = Some Safe
             <-> exactly_below c (JS.lit 5 1) /\ ~ exactly_below c (JS.lit 2 1))
         /\ (presented_tier c false = Some BorderlineSafe
             <-> ~ exactly_below c (JS.lit 5 1)))
  /\ presented_tier (JS.lit 5 1) true = Some Low
  /\ presented_tier (JS.lit 5 1) false = Some BorderlineSafe
  /\ presented_tier (JS.lit 8 1) true = Some Medium
  /\ presented_tier (JS.lit 2 1) false = Some Safe
  /\ presented_tier JS.NaN true = Some Low
  /\ presented_tier JS.NaN false = Some BorderlineSafe
  /\ presented_tier (JS.lit 85 2) true = Some High
  /\ presented_tier (JS.lit 6 1) true = Some Medium
  /\ presented_tier (JS.lit 1 1) false = Some VerySafe.
Proof.
  split; [exact severity_of_gradient_color |].
  split.
  - intros c V S. rewrite !severity_of_gradient_color.
    destruct (severity_by_exact_value c V S) as (H1 & H2 & H3 & H4 & H5 & H6).
    assert (Inj : forall t u : Severity, Some t = Some u <-> t = u)
      by (intros t u; split; congruence).
    rewrite !Inj.
    repeat match goal with |- _ /\ _ => split end; assumption.
  - repeat split; vm_compute; reflexivity.
Qed.

Lemma getConfidenceColor_severity_witness :
  presented_tier (JS.lit 85 2) true = Some High
  <-> exactly_above (JS.lit 85 2) (JS.lit 8 1).
Proof.
  assert (V : JS.valid (JS.lit 85 2) = true) by (vm_compute; reflexivity).
  assert (S : exists a, JS.scaled (JS.lit 85 2) = Some a) by (eexists; reflexivity).
  exact (proj1 (proj1 (proj2 getConfidenceColor_severity) (JS.lit 85 2) V S)).
Defined.

(** ** Prediction client *)

(** [fetchStats] never throws and only touches [stats] and the console. *)
Lemma fetchStats_frame (be : App.Backend) (s : App.State) :
  let r := App.fetchStats be s in
  fst r = Eff.Ok tt
  /\ App.prediction (snd r) = App.prediction s
  /\ App.isLoading (snd r) = App.isLoading s
  /\ App.toasts (snd r) = App.toasts s
  /\ App.setLoadingCalls (snd r) = App.setLoadingCalls s.
Proof.
  unfold App.fetchStats, Eff.try_catch, Eff.bind, Eff.await_fetch, Eff.when,
    Eff.await_json, Eff.member.
  destruct (App.get_stats be) as [e | r]; cbn.
  - repeat split.
  - destruct (Eff.ok r); cbn; [| repeat split].
    destruct (Eff.body r) as [err | | payload]; cbn;
      [repeat split | repeat split |].
    destruct (App.data payload); cbn; repeat split.
Qed.

(** The final state of [handlePrediction], by the way the exchange ended. *)
Lemma handlePrediction_exec (be : App.Backend) (fd : JS.object) (s : App.State) :
  let s' := Eff.exec (App.handlePrediction be fd) s in
  App.isLoading s' = false
  /\ App.setLoadingCalls s' = App.setLoadingCalls s ++ [true; false]
  /\ match exchange_of (App.post_predict be fd) with
     | Succeeded result =>
         App.prediction s' = result
         /\ App.toasts s' = App.toasts s ++ [App.ToastSuccess "Prediction completed!"]
     | Failed =>
         App.prediction s' = App.prediction s
         /\ App.toasts s' = App.toasts s ++ [failure_toast]
         /\ App.stats s' = App.stats s
     end.
Proof.
  cbv zeta.
  unfold Eff.exec, App.handlePrediction, exchange_of, Eff.try_finally,
    Eff.try_catch, Eff.bind, Eff.await_fetch, Eff.await_json, Eff.when.
  destruct (App.post_predict be fd) as [e | r]; cbn -[App.fetchStats].
  - rewrite <- app_assoc. repeat split.
  - destruct (Eff.ok r); cbn -[App.fetchStats].
    + destruct (Eff.body r) as [err | | p]; cbn -[App.fetchStats];
        [rewrite <- app_assoc; repeat split | |];
        match goal with
        | |- context [App.fetchStats be ?st] =>
            pose proof (fetchStats_frame be st) as F;
            destruct (App.fetchStats be st) as [res st']
        end;
        cbn in F; destruct F as (Hres & Hp & Hl & Ht & Hc);
        subst res; cbn; rewrite Hp, Ht, Hc, <- app_assoc; repeat split.
    + rewrite <- app_assoc. repeat split.
Qed.

(** The quick-test handler follows the same discipline. *)
Lemma handleQuickTest_exec (be : App.Backend) (rnd : nat -> JS.number)
      (type : App.TestType) (s : App.State) :
  let testData :=
    match type with
    | App.TestFraud => App.generateFraudulentTransaction rnd
    | App.TestSafe => App.generateSafeTransaction rnd
    end in
  let s' := Eff.exec (App.handleQuickTest be rnd type) s in
  App.isLoading s' = false
  /\ App.setLoadingCalls s' = App.setLoadingCalls s ++ [true; false]
  /\ match exchange_of (App.post_predict be testData) with
     | Succeeded result => App.prediction s' = result
     | Failed =>
         App.prediction s' = App.prediction s
         /\ App.toasts s' = App.toasts s ++ [failure_toast]
         /\ App.stats s' = App.stats s
     end.
Proof.
  cbv zeta.
  unfold Eff.exec, App.handleQuickTest, exchange_of, Eff.try_finally,
    Eff.try_catch, Eff.bind, Eff.await_fetch, Eff.await_json, Eff.when.
  destruct (App.post_predict be _) as [e | r]; cbn -[App.fetchStats].
  - rewrite <- app_assoc. repeat split.
  - destruct (Eff.ok r); cbn -[App.fetchStats].
    + destruct (Eff.body r) as [err | | p]; cbn -[App.fetchStats];
        [rewrite <- app_assoc; repeat split | |];
        match goal with
        | |- context [App.fetchStats be ?st] =>
            pose proof (fetchStats_frame be st) as F;
            destruct (App.fetchStats be st) as [res st']
        end;
        cbn in F; destruct F as (Hres & Hp & Hl & Ht & Hc);
        subst res; cbn; rewrite Hp, Hc, <- app_assoc; repeat split.
    + rewrite <- app_assoc. repeat split.
Qed.

(** C2. When the request to [/predict] fails, by a transport error or by
    a status outside 200-299 such as 500, [handlePrediction] leaves the
    stored prediction as it was (null before any prediction), adds the
    failure notification and ends with the loading flag false. On a
    successful exchange the stored prediction becomes the parsed
    response ([null] when the body is the JSON text [null]), and it
    changes in no other case. *)
Theorem handlePrediction_failure_keeps_latest :
  forall (be : App.Backend) (fd : JS.object) (s : App.State),
    let s' := Eff.exec (App.handlePrediction be fd) s in
    ((exists e, App.post_predict be fd = Eff.Rejected e)
     \/ (exists r, App.post_predict be fd = Eff.Resolved r /\ Eff.ok r = false) ->
     App.prediction s' = App.prediction s
     /\ App.toasts s' = App.toasts s ++ [failure_toast]
     /\ App.isLoading s' = false
     /\ App.setLoadingCalls s' = App.setLoadingCalls s ++ [true; false])
    /\ (forall r p,
          App.post_predict be fd = Eff.Resolved r ->
          Eff.ok r = true -> Eff.body r = Eff.JsonValue p ->
          App.prediction s' = Some p /\ App.isLoading s' = false)
    /\ (forall r,
          App.post_predict be fd = Eff.Resolved r ->
          Eff.ok r = true -> Eff.body r = Eff.JsonNull ->
          App.prediction s' = None /\ App.isLoading s' = false)
    /\ (App.prediction s' <> App.prediction s ->
        exists r,
          App.post_predict be fd = Eff.Resolved r
          /\ Eff.ok r = true
          /\ ((exists p, Eff.body r = Eff.JsonValue p /\ App.prediction s' = Some p)
              \/ (Eff.body r = Eff.JsonNull /\ App.prediction s' = None))).
Proof.
  intros be fd s s'.
  destruct (handlePrediction_exec be fd s) as (Hl & Hc & Hx).
  fold s' in Hl, Hc, Hx.
  split; [| split; [| split]].
  - intros Hfail.
    assert (Hf : exchange_of (App.post_predict be fd) = Failed).
    { destruct Hfail as [[e He] | [r [Hr Hok]]]; rewrite ?He, ?Hr; cbn;
        [reflexivity | now rewrite Hok]. }
    rewrite Hf in Hx. destruct Hx as (Hp & Ht & _). auto.
  - intros r p Hr Hok Hb.
    rewrite Hr in Hx. cbn in Hx. rewrite Hok, Hb in Hx.
    destruct Hx as [Hp _]. auto.
  - intros r Hr Hok Hb.
    rewrite Hr in Hx. cbn in Hx. rewrite Hok, Hb in Hx.
    destruct Hx as [Hp _]. auto.
  - intros Hneq.
    destruct (App.post_predict be fd) as [e | r] eqn:Hr; cbn in Hx.
    + destruct Hx as [Hp _]. contradiction.
    + destruct (Eff.ok r) eqn:Hok.
      * destruct (Eff.body r) as [err | | p] eqn:Hb.
        -- destruct Hx as [Hp _]. contradiction.
        -- exists r. destruct Hx as [Hp _]. auto.
        -- exists r. destruct Hx as [Hp _]. eauto 6.
      * destruct Hx as [Hp _]. contradiction.
Qed.

Lemma handlePrediction_failure_keeps_latest_witness :
  let s' := Eff.exec (App.handlePrediction backend_500 [("amount", JS.of_Z 100)]) App.initial in
  App.prediction s' = None
  /\ App.toasts s' = [] ++ [failure_toast]
  /\ App.isLoading s' = false
  /\ App.setLoadingCalls s' = [] ++ [true; false].
Proof.
  apply (proj1 (handlePrediction_failure_keeps_latest
                  backend_500 [("amount", JS.of_Z 100)] App.initial)).
  right. eexists. split; reflexivity.
Defined.

(** ** Form collector *)

Lemma get_present (o : JS.object) (key : string) :
  In key (JS.keys o) -> exists v, JS.get o key = Some v.
Proof.
  unfold JS.keys. induction o as [| [k v] o IH]; cbn; [tauto |].
  intros [Hk | Hin].
  - subst k. rewrite String.eqb_refl. now exists v.
  - destruct (String.eqb k key); [now exists v | now apply IH].
Qed.

Lemma get_absent (o : JS.object) (key : string) :
  ~ In key (JS.keys o) -> JS.get o key = None.
Proof.
  unfold JS.keys. induction o as [| [k v] o IH]; cbn; [reflexivity |].
  intros Hn. destruct (String.eqb k key) eqn:E.
  - apply String.eqb_eq in E. tauto.
  - apply IH. tauto.
Qed.

Lemma replace_keys (o : JS.object) (key : string) (value : JS.number) :
  JS.keys (JS.replace o key value) = JS.keys o.
Proof.
  unfold JS.keys.
  induction o as [| [k v] o IH]; cbn; [reflexivity |].
  destruct (String.eqb k key); cbn; [reflexivity | now rewrite IH].
Qed.

Lemma set_keys (o : JS.object) (key : string) (value : JS.number) :
  In key (JS.keys o) -> JS.keys (JS.set o key value) = JS.keys o.
Proof.
  intros Hin. unfold JS.set.
  destruct (get_present o key Hin) as [v ->].
  apply replace_keys.
Qed.

(** A new array index is inserted somewhere in the list. *)
Lemma insert_index_split (o : JS.object) (n : N) (key : string) (value : JS.number) :
  exists before after,
    o = before ++ after
    /\ JS.insert_index o n key value = before ++ (key, value) :: after.
Proof.
  induction o as [| [k v] o (before & after & Ho & Hi)]; cbn.
  - exists [], []. split; reflexivity.
  - destruct (JS.array_index k) as [m |].
    + destruct (m <? n)%N.
      * exists ((k, v) :: before), after. cbn. now rewrite <- Ho, Hi.
      * exists [], ((k, v) :: o). split; reflexivity.
    + exists [], ((k, v) :: o). split; reflexivity.
Qed.

(** A property that is not in the object yet is inserted somewhere in
    the list, at the end unless its key is an array index. *)
Lemma set_absent_split (o : JS.object) (key : string) (value : JS.number) :
  ~ In key (JS.keys o) ->
  exists before after,
    o = before ++ after
    /\ JS.set o key value = before ++ (key, value) :: after
    /\ (JS.array_index key = None -> after = []).
Proof.
  intros Hn. unfold JS.set. rewrite (get_absent o key Hn).
  destruct (JS.array_index key) as [n |].
  - destruct (insert_index_split o n key value) as (before & after & Ho & Hi).
    exists before, after. repeat split; [exact Ho | exact Hi | discriminate].
  - exists o, []. rewrite app_nil_r. repeat split.
Qed.

Lemma filled_le_length (o : JS.object) :
  (PredictionForm.filled o <= List.length (JS.keys o))%nat.
Proof.
  unfold PredictionForm.filled, JS.values, JS.keys.
  rewrite (length_map fst), <- (length_map snd).
  apply filter_length_le.
Qed.

Lemma rendered_field_is_default (i : PredictionForm.Input) :
  PredictionForm.rendered i = true ->
  In (PredictionForm.field_of i) (JS.keys PredictionForm.defaultValues).
Proof.
  destruct i as [| | num]; unfold PredictionForm.rendered.
  - intros _. left. reflexivity.
  - intros _. cbn. do 29 right. left. reflexivity.
  - intros H. apply existsb_exists in H. destruct H as [n [Hin Hn]].
    apply Nat.eqb_eq in Hn. subst n.
    cbn in Hin.
    repeat (destruct Hin as [Hin | Hin];
            [subst num; vm_compute; tauto |]).
    contradiction.
Qed.

(** The percentage computed for at most 30 filled fields is between 0 and
    100 and rounds to the exactly rounded ratio. *)
Lemma percent_bounds (n : nat) :
  (n <= 30)%nat ->
  JS.le (JS.of_Z 0) (PredictionForm.percent n) = true
  /\ JS.le (PredictionForm.percent n) (JS.of_Z 100) = true
  /\ JS.Math_round (PredictionForm.percent n) = JS.of_Z (rounded_percent n)
  /\ ratio_up_to_rounding (PredictionForm.percent n) n.
Proof.
  intros H.
  do 31 (destruct n as [| n];
         [ split; [vm_compute; reflexivity |];
           split; [vm_compute; reflexivity |];
           split; [vm_compute; reflexivity |];
           split; [vm_compute; reflexivity |];
           eexists; split; [vm_compute; reflexivity | vm_compute; discriminate]
         |]).
  lia.
Qed.

Lemma filled_after_edit (s : PredictionForm.State) (i : PredictionForm.Input)
      (v : JS.number) :
  JS.keys (PredictionForm.formData s) = JS.keys PredictionForm.defaultValues ->
  PredictionForm.rendered i = true ->
  JS.keys (JS.set (PredictionForm.formData s) (PredictionForm.field_of i) v)
    = JS.keys PredictionForm.defaultValues
  /\ (PredictionForm.filled
        (JS.set (PredictionForm.formData s) (PredictionForm.field_of i) v) <= 30)%nat.
Proof.
  intros Hk Hr.
  assert (Hk' : JS.keys (JS.set (PredictionForm.formData s)
                           (PredictionForm.field_of i) v)
                = JS.keys PredictionForm.defaultValues).
  { rewrite set_keys; [exact Hk |].
    rewrite Hk. now apply rendered_field_is_default. }
  split; [exact Hk' |].
  etransitivity; [apply filled_le_length |].
  rewrite Hk'. cbn. lia.
Qed.

Lemma form_inv_step (s : PredictionForm.State) (ev : PredictionForm.Event) :
  form_inv s -> form_event_ok ev -> form_inv (PredictionForm.step s ev).
Proof.
  intros (Hk & H0 & H100) Hok.
  destruct ev as [i raw | | rnd |]; cbn [PredictionForm.step].
  - cbn in Hok.
    destruct (filled_after_edit s i (JS.or raw (JS.of_Z 0)) Hk Hok) as [Hk' Hn].
    destruct (percent_bounds _ Hn) as (Ha & Hb & _ & _).
    unfold form_inv, PredictionForm.handleChange; cbn.
    auto.
  - unfold form_inv; cbn. repeat split.
  - unfold form_inv; cbn. repeat split.
  - unfold form_inv; cbn. auto.
Qed.

Lemma form_inv_fold (evs : list PredictionForm.Event) (s : PredictionForm.State) :
  form_inv s -> Forall form_event_ok evs ->
  form_inv (List.fold_left PredictionForm.step evs s).
Proof.
  revert s. induction evs as [| ev evs IH]; intros s Hs Hevs; cbn.
  - exact Hs.
  - inversion Hevs; subst. apply IH; [| assumption].
    now apply form_inv_step.
Qed.

Lemma form_inv_run (evs : list PredictionForm.Event) :
  Forall form_event_ok evs -> form_inv (PredictionForm.run evs).
Proof.
  apply form_inv_fold. unfold form_inv. cbn. repeat split.
Qed.

(** C3, as amended. After any sequence of events on the rendered inputs
    the completion percentage lies between 0 and 100. After a field edit
    it is [(n / 30) * 100] for the number [n <= 30] of fields of the new
    draft whose value is not 0, which is 100 n / 30 up to the rounding of
    binary64, and the label shows 100 n / 30 rounded to the nearest
    integer. Randomize-all sets it to 100 whatever values
    are drawn. *)
Theorem fillProgress_after_events :
  forall evs : list PredictionForm.Event,
    Forall form_event_ok evs ->
    let s := PredictionForm.run evs in
    JS.le (JS.of_Z 0) (PredictionForm.fillProgress s) = true
    /\ JS.le (PredictionForm.fillProgress s) (JS.of_Z 100) = true
    /\ (forall i raw,
          PredictionForm.rendered i = true ->
          let s' := PredictionForm.step s (PredictionForm.Edit i raw) in
          let n := PredictionForm.filled (PredictionForm.formData s') in
          (n <= 30)%nat
          /\ List.length (PredictionForm.formData s') = 30%nat
          /\ PredictionForm.fillProgress s' = PredictionForm.percent n
          /\ ratio_up_to_rounding (PredictionForm.fillProgress s') n
          /\ PredictionForm.displayed s' = JS.of_Z (rounded_percent n))
    /\ (forall rnd,
          PredictionForm.fillProgress
            (PredictionForm.step s (PredictionForm.Randomize rnd))
          = JS.of_Z 100).
Proof.
  intros evs Hevs s.
  destruct (form_inv_run evs Hevs) as (Hk & H0 & H100).
  fold s in Hk, H0, H100.
  split; [exact H0 |]. split; [exact H100 |].
  split; [| reflexivity].
  intros i raw H s' n. subst s' n.
  repeat match goal with |- _ /\ _ => split end.
  - now apply filled_after_edit.
  - cbn [PredictionForm.step PredictionForm.handleChange PredictionForm.formData].
    destruct (filled_after_edit s i (JS.or raw (JS.of_Z 0)) Hk H) as [Hk' _].
    rewrite <- (length_map fst). fold (JS.keys (JS.set (PredictionForm.formData s)
      (PredictionForm.field_of i) (JS.or raw (JS.of_Z 0)))).
    rewrite Hk'. reflexivity.
  - reflexivity.
  - cbn [PredictionForm.step PredictionForm.handleChange
         PredictionForm.formData PredictionForm.fillProgress].
    apply percent_bounds. now apply filled_after_edit.
  - unfold PredictionForm.displayed.
    cbn [PredictionForm.step PredictionForm.handleChange
         PredictionForm.formData PredictionForm.fillProgress].
    apply percent_bounds. now apply filled_after_edit.
Qed.

Lemma fillProgress_after_events_witness :
  let s := PredictionForm.run
             [PredictionForm.Edit PredictionForm.TimeInput (JS.of_Z 5);
              PredictionForm.Edit (PredictionForm.VInput 3) JS.NaN;
              PredictionForm.Edit PredictionForm.AmountInput (JS.of_Z 0)] in
  JS.le (JS.of_Z 0) (PredictionForm.fillProgress s) = true
  /\ JS.le (PredictionForm.fillProgress s) (JS.of_Z 100) = true.
Proof.
  intros s.
  assert (H : Forall form_event_ok
                [PredictionForm.Edit PredictionForm.TimeInput (JS.of_Z 5);
                 PredictionForm.Edit (PredictionForm.VInput 3) JS.NaN;
                 PredictionForm.Edit PredictionForm.AmountInput (JS.of_Z 0)]).
  { repeat constructor. }
  pose proof (fillProgress_after_events _ H) as T.
  split; [exact (proj1 T) | exact (proj1 (proj2 T))].
Defined.

(** C3 as stated fails: the initial draft and the draft after a reset have
    one field that is not 0 (amount is 100) while the percentage is 0, not
    100 * 1 / 30, and after randomize-all from a source yielding 0.5 the
    28 feature fields are 0 while the percentage is 100. *)
Lemma completion_is_not_the_nonzero_ratio :
  (let s := PredictionForm.run [] in
   PredictionForm.filled (PredictionForm.formData s) = 1%nat
   /\ PredictionForm.fillProgress s <> PredictionForm.percent 1
   /\ PredictionForm.displayed s = JS.of_Z 0
   /\ rounded_percent 1 = 3)
  /\ (let s := PredictionForm.run
                 [PredictionForm.Edit PredictionForm.TimeInput (JS.of_Z 7);
                  PredictionForm.Reset] in
      PredictionForm.filled (PredictionForm.formData s) = 1%nat
      /\ PredictionForm.fillProgress s <> PredictionForm.percent 1)
  /\ (let s := PredictionForm.run [PredictionForm.Randomize always_half] in
      PredictionForm.filled (PredictionForm.formData s) = 2%nat
      /\ PredictionForm.fillProgress s <> PredictionForm.percent 2).
Proof.
  repeat split; try (vm_compute; reflexivity); vm_compute; discriminate.
Qed.

(** ** History rows *)

(** C9. A history row with [prediction = false] takes the same emerald
    class whatever its confidence, although the result card gives such
    confidences three different gradients; fraud rows are tiered by
    confidence above 0.8, above 0.5, and the rest. *)
Theorem history_safe_rows_share_one_color :
  (forall c : JS.number,
      TransactionHistory.getConfidenceColor c false
      = "text-emerald-600 dark:text-emerald-400")
  /\ (forall c f,
         TransactionHistory.getConfidenceColor c f
         = history_class (severity_spec f c))
  /\ (history_class High <> history_class Medium
      /\ history_class Medium <> history_class Low
      /\ history_class High <> history_class Low
      /\ history_class Low <> history_class Safe)
  /\ (exists c1 c2 c3,
         ResultCard.getConfidenceColor c1 false <> ResultCard.getConfidenceColor c2 false
         /\ ResultCard.getConfidenceColor c2 false <> ResultCard.getConfidenceColor c3 false
         /\ ResultCard.getConfidenceColor c1 false <> ResultCard.getConfidenceColor c3 false
         /\ TransactionHistory.getConfidenceColor c1 false
            = TransactionHistory.getConfidenceColor c2 false
         /\ TransactionHistory.getConfidenceColor c2 false
            = TransactionHistory.getConfidenceColor c3 false).
Proof.
  split; [reflexivity |].
  split.
  { intros c f. unfold TransactionHistory.getConfidenceColor, severity_spec.
    destruct f.
    - destruct (JS.gt c (JS.lit 8 1)); [reflexivity |].
      destruct (JS.gt c (JS.lit 5 1)); reflexivity.
    - destruct (JS.lt c (JS.lit 2 1)); [reflexivity |].
      destruct (JS.lt c (JS.lit 5 1)); reflexivity. }
  split.
  { repeat split; discriminate. }
  exists (JS.lit 1 1), (JS.lit 3 1), (JS.lit 7 1).
  repeat split; vm_compute; discriminate.
Qed.

(** ** Transaction id of the result card *)

Lemma string_take_all (n : nat) (s : string) :
  (String.length s <= n)%nat -> JS.string_take n s = s.
Proof.
  revert n. induction s as [| c s IH]; intros [| n] H; cbn in *; try reflexivity.
  - lia.
  - f_equal. apply IH. lia.
Qed.

Lemma string_take_length (n : nat) (s : string) :
  String.length (JS.string_take n s) = Nat.min n (String.length s).
Proof.
  revert n. induction s as [| c s IH]; intros [| n]; cbn; try reflexivity.
  now rewrite IH.
Qed.

Lemma string_take_drop (n : nat) (s : string) :
  (JS.string_take n s ++ JS.string_drop n s)%string = s.
Proof.
  revert n. induction s as [| c s IH]; intros [| n]; cbn; try reflexivity.
  now rewrite IH.
Qed.

(** C6, as amended. For a prediction with a non-empty transaction id the
    result card shows the first 16 characters of the id followed by an
    ellipsis, whatever the length of the id: an id of at most 16
    characters is shown whole with the ellipsis after it. The copy action
    puts the full id on the clipboard. *)
Theorem transaction_id_always_has_ellipsis :
  forall (p : ResultCard.Prediction) (id : string) (s : ResultCard.State),
    ResultCard.transaction_id p = Some id ->
    id <> "" ->
    ResultCard.transactionIdText p = Some (JS.string_take 16 id ++ "...")%string
    /\ ((String.length id <= 16)%nat ->
        ResultCard.transactionIdText p = Some (id ++ "...")%string)
    /\ (JS.string_take 16 id ++ JS.string_drop 16 id)%string = id
    /\ String.length (JS.string_take 16 id) = Nat.min 16 (String.length id)
    /\ ResultCard.clipboard (ResultCard.copyTransactionId (Some p) s) = Some id
    /\ ResultCard.copied (ResultCard.copyTransactionId (Some p) s) = true.
Proof.
  intros p id s Hid Hne.
  unfold ResultCard.transactionIdText, ResultCard.copyTransactionId.
  rewrite Hid.
  destruct id as [| c id']; [contradiction |].
  cbn [JS.truthy_string].
  repeat split.
  - intros Hlen. now rewrite string_take_all.
  - apply string_take_drop.
  - apply string_take_length.
Qed.

Lemma transaction_id_always_has_ellipsis_witness :
  ResultCard.transactionIdText scenario_prediction = Some "abc123..."
  /\ ResultCard.clipboard
       (ResultCard.copyTransactionId (Some scenario_prediction) ResultCard.initial)
     = Some "abc123".
Proof.
  assert (Hid : ResultCard.transaction_id scenario_prediction = Some "abc123")
    by reflexivity.
  assert (Hne : "abc123" <> "") by discriminate.
  pose proof (transaction_id_always_has_ellipsis
                scenario_prediction "abc123" ResultCard.initial Hid Hne) as T.
  split.
  - exact (proj1 T).
  - exact (proj1 (proj2 (proj2 (proj2 (proj2 T))))).
Defined.

(** C6 as stated fails: the six-character id of the specification's own
    scenario is shown with an ellipsis. *)
Lemma short_id_is_shown_with_ellipsis :
  (String.length "abc123" <= 16)%nat
  /\ ResultCard.transaction_id scenario_prediction = Some "abc123"
  /\ ResultCard.transactionIdText scenario_prediction <> Some "abc123"
  /\ ResultCard.transactionIdText scenario_prediction = Some "abc123...".
Proof.
  repeat split; [cbn; lia | discriminate].
Qed.

(** ** Analytics dashboard *)

(** C10. A stat that is 0 is replaced by a baked-in number: the cards show
    1247 for [totalPredictions], 23 for [fraudCount], 1224 for [safeCount]
    and "1.8%" for [fraudPercentage]; the pie shows 85 for [safeCount] and
    15 for [fraudCount]. A stat that is neither 0 nor NaN is shown as it
    is. The all-zero stats the application starts from are therefore shown
    as 1247, 23, 1224, "1.8%" and 85 / 15. *)
Theorem dashboard_replaces_zero_stats :
  forall (toStr : JS.number -> string) (st : App.Stats),
    let cards := List.map AnalyticsDashboard.card_value
                   (AnalyticsDashboard.statCards toStr st) in
    let pie := List.map AnalyticsDashboard.value (AnalyticsDashboard.pieData st) in
    (JS.strict_eq (App.totalPredictions st) (JS.of_Z 0) = true ->
     List.nth_error cards 0 = Some (AnalyticsDashboard.NumberValue (JS.of_Z 1247)))
    /\ (JS.strict_eq (App.fraudCount st) (JS.of_Z 0) = true ->
        List.nth_error cards 1 = Some (AnalyticsDashboard.NumberValue (JS.of_Z 23))
        /\ List.nth_error pie 1 = Some (JS.of_Z 15))
    /\ (JS.strict_eq (App.safeCount st) (JS.of_Z 0) = true ->
        List.nth_error cards 2 = Some (AnalyticsDashboard.NumberValue (JS.of_Z 1224))
        /\ List.nth_error pie 0 = Some (JS.of_Z 85))
    /\ (JS.strict_eq (App.fraudPercentage st) (JS.of_Z 0) = true ->
        List.nth_error cards 3 = Some (AnalyticsDashboard.TextValue "1.8%"))
    /\ (JS.truthy (App.totalPredictions st) = true ->
        List.nth_error cards 0
        = Some (AnalyticsDashboard.NumberValue (App.totalPredictions st)))
    /\ (JS.truthy (App.fraudCount st) = true ->
        List.nth_error cards 1
        = Some (AnalyticsDashboard.NumberValue (App.fraudCount st))
        /\ List.nth_error pie 1 = Some (App.fraudCount st))
    /\ (JS.truthy (App.safeCount st) = true ->
        List.nth_error cards 2
        = Some (AnalyticsDashboard.NumberValue (App.safeCount st))
        /\ List.nth_error pie 0 = Some (App.safeCount st))
    /\ AnalyticsDashboard.render toStr (App.stats App.initial) true
       = Some
           (AnalyticsDashboard.statCards toStr
              {| App.totalPredictions := JS.of_Z 1247;
                 App.fraudCount := JS.of_Z 23;
                 App.safeCount := JS.of_Z 1224;
                 App.fraudPercentage := JS.lit 18 1 |},
            AnalyticsDashboard.pieData
              {| App.totalPredictions := JS.of_Z 1247;
                 App.fraudCount := JS.of_Z 15;
                 App.safeCount := JS.of_Z 85;
                 App.fraudPercentage := JS.lit 18 1 |}).
Proof.
  intros toStr st cards pie. subst cards pie.
  assert (Z0 : forall x, JS.strict_eq x (JS.of_Z 0) = true -> JS.truthy x = false).
  { intros x H. destruct x as [sg | sg | | sg m e]; try reflexivity;
      destruct sg; vm_compute in H; discriminate H. }
  unfold AnalyticsDashboard.statCards, AnalyticsDashboard.pieData, JS.or.
  cbn [List.map List.nth_error AnalyticsDashboard.card_value AnalyticsDashboard.value].
  repeat match goal with |- _ /\ _ => split end;
    try (intros H; first [rewrite (Z0 _ H) | rewrite H];
         repeat split; vm_compute; reflexivity).
  vm_compute. reflexivity.
Qed.

Lemma dashboard_replaces_zero_stats_witness :
  List.nth_error
    (List.map AnalyticsDashboard.card_value
       (AnalyticsDashboard.statCards no_toString (App.stats App.initial))) 0
  = Some (AnalyticsDashboard.NumberValue (JS.of_Z 1247)).
Proof.
  apply (proj1 (dashboard_replaces_zero_stats no_toString (App.stats App.initial))).
  reflexivity.
Defined.

(** ** Filtering the history *)

Lemma startsWith_prefix (s p : string) :
  JS.startsWith s p = true <-> exists suf, s = (p ++ suf)%string.
Proof.
  revert s. induction p as [| a p IH]; intros s; cbn.
  - split; [intros _; now exists s | reflexivity].
  - destruct s as [| b s]; cbn.
    + split; [discriminate | intros [suf H]; discriminate].
    + rewrite andb_true_iff, Ascii.eqb_eq, IH. split.
      * intros [-> [suf ->]]. now exists suf.
      * intros [suf H]. injection H as -> ->. split; [reflexivity | now exists suf].
Qed.

Lemma includes_occurs (s sub : string) :
  JS.includes s sub = true
  <-> exists pre suf, s = (pre ++ sub ++ suf)%string.
Proof.
  induction s as [| c s IH]; cbn [JS.includes].
  - rewrite orb_false_r, startsWith_prefix. split.
    + intros [suf H]. now exists ""%string, suf.
    + intros [pre [suf H]]. destruct pre; cbn in H; [now exists suf | discriminate].
  - rewrite orb_true_iff, startsWith_prefix, IH. split.
    + intros [[suf H] | [pre [suf H]]].
      * now exists ""%string, suf.
      * exists (String c pre), suf. cbn. now rewrite H.
    + intros [pre [suf H]]. destruct pre as [| d pre]; cbn in H.
      * left. now exists suf.
      * right. injection H as -> ->. now exists pre, suf.
Qed.

Lemma fold_ascii_app (a b : string) :
  JS.fold_ascii (a ++ b) = (JS.fold_ascii a ++ JS.fold_ascii b)%string.
Proof.
  induction a as [| c a IH]; cbn; [reflexivity | now rewrite IH].
Qed.

(** A split of the folded string comes from a split of the string. *)
Lemma fold_ascii_split (s a' b' : string) :
  JS.fold_ascii s = (a' ++ b')%string ->
  exists a b, s = (a ++ b)%string
              /\ JS.fold_ascii a = a' /\ JS.fold_ascii b = b'.
Proof.
  revert s. induction a' as [| c a' IH]; intros s H; cbn in H.
  - exists ""%string, s. auto.
  - destruct s as [| d s]; cbn in H; [discriminate |].
    injection H as Hc Hs.
    destruct (IH s Hs) as (a & b & -> & Ha & Hb).
    exists (String d a), b. cbn. rewrite Hc, Ha. auto.
Qed.

Lemma is_ascii_app (a b : string) :
  JS.is_ascii (a ++ b) = JS.is_ascii a && JS.is_ascii b.
Proof.
  induction a as [| c a IH]; cbn [JS.is_ascii String.append]; [reflexivity |].
  now rewrite IH, andb_assoc.
Qed.

Lemma toLowerCase_ascii (lower : string -> string) (s : string) :
  JS.is_ascii s = true -> JS.toLowerCase lower s = JS.fold_ascii s.
Proof. unfold JS.toLowerCase. now intros ->. Qed.

Lemma nat_of_ascii_inj (c d : ascii) : nat_of_ascii c = nat_of_ascii d -> c = d.
Proof.
  intros H. rewrite <- (ascii_nat_embedding c), <- (ascii_nat_embedding d).
  now rewrite H.
Qed.

Lemma lower_ascii_code (c : ascii) :
  nat_of_ascii (JS.lower_ascii c)
  = (if ((65 <=? nat_of_ascii c) && (nat_of_ascii c <=? 90))%nat
     then nat_of_ascii c + 32 else nat_of_ascii c)%nat.
Proof.
  unfold JS.lower_ascii. cbv zeta.
  destruct ((65 <=? nat_of_ascii c) && (nat_of_ascii c <=? 90))%nat eqn:E;
    [| reflexivity].
  apply andb_true_iff in E. destruct E as [_ E]. apply Nat.leb_le in E.
  apply nat_ascii_embedding. lia.
Qed.

(** Two characters have the same lower-case form exactly when they are
    equal or the two cases of one ASCII letter. *)
Lemma lower_ascii_same (c d : ascii) :
  JS.lower_ascii c = JS.lower_ascii d <-> same_letter c d.
Proof.
  unfold same_letter, upper_and_lower.
  change (nat_of_ascii "A") with 65%nat. change (nat_of_ascii "Z") with 90%nat.
  change (nat_of_ascii "a") with 97%nat.
  split.
  - intros H. apply (f_equal nat_of_ascii) in H.
    rewrite !lower_ascii_code in H.
    destruct (Nat.leb_spec 65 (nat_of_ascii c)), (Nat.leb_spec (nat_of_ascii c) 90),
      (Nat.leb_spec 65 (nat_of_ascii d)), (Nat.leb_spec (nat_of_ascii d) 90);
      cbn [andb] in H;
      first [ left; apply nat_of_ascii_inj; lia
            | right; left; lia
            | right; right; lia ].
  - intros H. apply nat_of_ascii_inj. rewrite !lower_ascii_code.
    destruct H as [-> | [H | H]]; [reflexivity | |];
      destruct (Nat.leb_spec 65 (nat_of_ascii c)), (Nat.leb_spec (nat_of_ascii c) 90),
        (Nat.leb_spec 65 (nat_of_ascii d)), (Nat.leb_spec (nat_of_ascii d) 90);
      cbn [andb]; lia.
Qed.

Lemma fold_ascii_same (a b : string) :
  JS.fold_ascii a = JS.fold_ascii b <-> same_ignoring_case a b.
Proof.
  split.
  - revert b. induction a as [| c a IH]; intros [| d b] H; cbn in H;
      try discriminate; [constructor |].
    injection H as Hc Hs. constructor; [now apply lower_ascii_same | now apply IH].
  - induction 1 as [| c d s t Hc _ IH]; cbn; [reflexivity |].
    apply lower_ascii_same in Hc. now rewrite Hc, IH.
Qed.

(** Letter case does not lead out of ASCII. *)
Lemma same_ignoring_case_ascii (a b : string) :
  same_ignoring_case a b -> JS.is_ascii a = true -> JS.is_ascii b = true.
Proof.
  induction 1 as [| c d s t Hc _ IH]; cbn [JS.is_ascii]; [reflexivity |].
  rewrite !andb_true_iff, !Nat.ltb_lt. intros [Hlt Hs].
  split; [| now apply IH].
  unfold same_letter, upper_and_lower in Hc.
  change (nat_of_ascii "A") with 65%nat in Hc.
  change (nat_of_ascii "Z") with 90%nat in Hc.
  change (nat_of_ascii "a") with 97%nat in Hc.
  destruct Hc as [<- | [Hc | Hc]]; [exact Hlt | lia | lia].
Qed.

Lemma occurs_fold_contains (id q : string) :
  occurs_in (JS.fold_ascii id) (JS.fold_ascii q) <-> contains_ignoring_case id q.
Proof.
  unfold occurs_in, contains_ignoring_case. split.
  - intros (pre' & suf' & H).
    apply fold_ascii_split in H. destruct H as (pre & rest & -> & _ & Hrest).
    apply fold_ascii_split in Hrest. destruct Hrest as (mid & suf & -> & Hmid & _).
    exists pre, mid, suf. split; [reflexivity | now apply fold_ascii_same].
  - intros (pre & mid & suf & -> & Hmid). apply fold_ascii_same in Hmid.
    exists (JS.fold_ascii pre), (JS.fold_ascii suf).
    now rewrite !fold_ascii_app, Hmid.
Qed.

Lemma matchesFilter_status (f : TransactionHistory.Filter)
      (tx : TransactionHistory.Transaction) :
  TransactionHistory.matchesFilter f tx = true <-> status_matches f tx.
Proof.
  unfold TransactionHistory.matchesFilter.
  destruct f, (TransactionHistory.prediction tx) eqn:E; cbn; rewrite ?E;
    intuition congruence.
Qed.

Lemma matchesSearch_matches (lower : string -> string) (q : string)
      (tx : TransactionHistory.Transaction) :
  TransactionHistory.matchesSearch lower q tx = true
  <-> (q = "" \/ id_matches lower q tx).
Proof.
  unfold TransactionHistory.matchesSearch, id_matches.
  rewrite orb_true_iff, String.eqb_eq.
  destruct (TransactionHistory.transaction_id tx) as [id |].
  - rewrite includes_occurs. fold (occurs_in (JS.toLowerCase lower id)
                                     (JS.toLowerCase lower q)).
    split.
    + intros [H | H]; [now left | right; now exists id].
    + intros [H | [id' [[= <-] H]]]; auto.
  - split.
    + intros [H | H]; [now left | discriminate].
    + intros [H | [id' [H _]]]; [now left | discriminate].
Qed.

(** On ASCII strings, matching is containment up to letter case. *)
Lemma id_matches_ascii (lower : string -> string) (q : string)
      (tx : TransactionHistory.Transaction) :
  JS.is_ascii q = true -> ascii_id tx ->
  (id_matches lower q tx <-> id_contains q tx).
Proof.
  intros Hq Htx. unfold id_matches, id_contains.
  split; intros (id & Hid & H); exists id; (split; [exact Hid |]);
    rewrite (toLowerCase_ascii lower q Hq),
      (toLowerCase_ascii lower id (Htx id Hid)) in *;
    now apply occurs_fold_contains.
Qed.

Lemma filter_all_true {A : Type} (f : A -> bool) (l : list A) :
  (forall x, f x = true) -> List.filter f l = l.
Proof.
  intros H. induction l as [| x l IH]; cbn; [reflexivity |].
  now rewrite H, IH.
Qed.

Lemma filter_twice {A : Type} (f g : A -> bool) (l : list A) :
  List.filter g (List.filter f l) = List.filter (fun x => f x && g x) l.
Proof.
  induction l as [| x l IH]; cbn; [reflexivity |].
  destruct (f x); cbn; [destruct (g x) |]; now rewrite IH.
Qed.

(** C4. With an empty search, the filter "fraud" keeps exactly the rows
    with [prediction = true] and "safe" exactly those with
    [prediction = false]; "all" with an empty search returns the list
    itself. With a search string the result is the rows of the selected
    status whose transaction id, put in lower case, contains the search
    string put in lower case. For a search string and an id of ASCII
    characters this is: the id contains the search string up to the case
    of letters; for a search string and an id with characters outside
    ASCII the lower-case forms are those of the built-in, as for the id
    "E-acute CLAIR-1" and the search string "e-acute". The result is
    the status-filtered list filtered again by the search, and every
    result keeps the order of the fetched list. *)
Theorem filterTransactions_spec :
  forall (lower : string -> string) (txs : list TransactionHistory.Transaction),
    TransactionHistory.filterTransactions lower TransactionHistory.FilterFraud "" txs
    = List.filter TransactionHistory.prediction txs
    /\ TransactionHistory.filterTransactions lower TransactionHistory.FilterSafe "" txs
       = List.filter (fun tx => negb (TransactionHistory.prediction tx)) txs
    /\ TransactionHistory.filterTransactions lower TransactionHistory.FilterAll "" txs
       = txs
    /\ (forall f q tx,
           In tx (TransactionHistory.filterTransactions lower f q txs)
           <-> In tx txs /\ status_matches f tx /\ (q = "" \/ id_matches lower q tx))
    /\ (forall f q tx,
           JS.is_ascii q = true -> ascii_id tx ->
           (In tx (TransactionHistory.filterTransactions lower f q txs)
            <-> In tx txs /\ status_matches f tx /\ (q = "" \/ id_contains q tx)))
    /\ (forall f q tx id,
           JS.is_ascii q = false ->
           TransactionHistory.transaction_id tx = Some id -> JS.is_ascii id = false ->
           (In tx (TransactionHistory.filterTransactions lower f q txs)
            <-> In tx txs /\ status_matches f tx /\ occurs_in (lower id) (lower q)))
    /\ (forall f q,
           TransactionHistory.filterTransactions lower f q txs
           = List.filter (TransactionHistory.matchesSearch lower q)
               (TransactionHistory.filterTransactions lower f "" txs))
    /\ (forall f q,
           exists keep : list bool,
             List.length keep = List.length txs
             /\ TransactionHistory.filterTransactions lower f q txs
                = List.map fst (List.filter snd (List.combine txs keep)))
    /\ TransactionHistory.filterTransactions lower TransactionHistory.FilterFraud "ABC"
         [tagged_row "txn_xabcx" true; tagged_row "TXN_ABD" true;
          tagged_row "txn_Abc" false; tagged_row "aBc" true]
       = [tagged_row "txn_xabcx" true; tagged_row "aBc" true]
    /\ TransactionHistory.filterTransactions lower TransactionHistory.FilterAll
         accented_query [tagged_row accented_id true]
       = (if JS.includes (lower accented_id) (lower accented_query)
          then [tagged_row accented_id true] else []).
Proof.
  intros lower txs. unfold TransactionHistory.filterTransactions.
  repeat match goal with |- _ /\ _ => split end.
  - apply filter_ext. intros tx.
    unfold TransactionHistory.matchesFilter, TransactionHistory.matchesSearch.
    cbn. now destruct (TransactionHistory.prediction tx).
  - apply filter_ext. intros tx.
    unfold TransactionHistory.matchesFilter, TransactionHistory.matchesSearch.
    cbn. now destruct (TransactionHistory.prediction tx).
  - apply filter_all_true. reflexivity.
  - intros f q tx.
    rewrite filter_In, andb_true_iff, matchesFilter_status, matchesSearch_matches.
    tauto.
  - intros f q tx Hq Htx.
    rewrite filter_In, andb_true_iff, matchesFilter_status, matchesSearch_matches,
      (id_matches_ascii lower q tx Hq Htx).
    tauto.
  - intros f q tx id Hq Hid Hi.
    rewrite filter_In, andb_true_iff, matchesFilter_status, matchesSearch_matches.
    unfold id_matches, JS.toLowerCase. rewrite Hid, Hq.
    split.
    + intros (Hin & Hst & [-> | (id' & [= <-] & Ho)]); [discriminate |].
      rewrite Hi in Ho. auto.
    + intros (Hin & Hst & Ho). split; [exact Hin |]. split; [exact Hst |].
      right. exists id. rewrite Hi. auto.
  - intros f q. rewrite filter_twice. apply filter_ext. intros tx.
    unfold TransactionHistory.matchesSearch at 2. cbn.
    now rewrite andb_true_r.
  - intros f q.
    exists (List.map (fun tx => TransactionHistory.matchesFilter f tx
                                && TransactionHistory.matchesSearch lower q tx) txs).
    split; [apply length_map |].
    induction txs as [| tx txs IH]; cbn; [reflexivity |].
    destruct (TransactionHistory.matchesFilter f tx
              && TransactionHistory.matchesSearch lower q tx); cbn; now rewrite IH.
  - vm_compute. reflexivity.
  - reflexivity.
Qed.

(** ** Pagination *)

Lemma same_value_eq (a b : JS.number) : JS.same_value a b = true -> a = b.
Proof.
  destruct a as [s1 | s1 | | s1 m1 e1], b as [s2 | s2 | | s2 m2 e2]; cbn;
    try discriminate; try reflexivity.
  - intros H. apply Bool.eqb_prop in H. now subst.
  - intros H. apply Bool.eqb_prop in H. now subst.
  - rewrite !andb_true_iff. intros [[Hs Hm] He].
    apply Bool.eqb_prop in Hs. apply Pos.eqb_eq in Hm. apply Z.eqb_eq in He.
    now subst.
Qed.

(** The integer reading of [Math.ceil(length / 10)] agrees with the
    binary64 evaluation for every length up to 2000. *)
Lemma ceil_div_agrees_with_binary64 (n : nat) :
  (n <= 2000)%nat ->
  JS.Math_ceil (JS.div (JS.of_Z (Z.of_nat n)) (JS.of_Z TransactionHistory.itemsPerPage))
  = JS.of_Z (JS.ceil_div (Z.of_nat n) TransactionHistory.itemsPerPage).
Proof.
  intros H. apply same_value_eq.
  assert (All : List.forallb
                  (fun k => JS.same_value
                              (JS.Math_ceil (JS.div (JS.of_Z (Z.of_nat k))
                                               (JS.of_Z TransactionHistory.itemsPerPage)))
                              (JS.of_Z (JS.ceil_div (Z.of_nat k)
                                          TransactionHistory.itemsPerPage)))
                  (List.seq 0 2001) = true) by (vm_compute; reflexivity).
  rewrite forallb_forall in All. apply All. apply in_seq. lia.
Qed.

Lemma ceil_div_bounds (m : Z) :
  10 * (JS.ceil_div m 10 - 1) < m <= 10 * JS.ceil_div m 10.
Proof.
  unfold JS.ceil_div.
  pose proof (Z.div_mod (- m) 10 ltac:(lia)).
  pose proof (Z.mod_pos_bound (- m) 10 ltac:(lia)).
  lia.
Qed.

Section Pages.

Context {A : Type}.
Variable l : list A.

Let M : Z := Z.of_nat (List.length l).

Lemma page_unfold (p : Z) :
  1 <= p ->
  TransactionHistory.page l p
  = List.firstn (Z.to_nat (Z.min (p * 10) M - Z.min ((p - 1) * 10) M))
      (List.skipn (Z.to_nat (Z.min ((p - 1) * 10) M)) l).
Proof.
  intros Hp. unfold TransactionHistory.page, JS.slice, TransactionHistory.itemsPerPage.
  fold M.
  destruct ((p - 1) * 10 <? 0) eqn:E1; [apply Z.ltb_lt in E1; lia |].
  destruct (p * 10 <? 0) eqn:E2; [apply Z.ltb_lt in E2; lia |].
  reflexivity.
Qed.

Lemma page_length (p : Z) :
  1 <= p ->
  Z.of_nat (List.length (TransactionHistory.page l p))
  = Z.max 0 (Z.min 10 (M - (p - 1) * 10)).
Proof.
  intros Hp. rewrite page_unfold by assumption.
  rewrite length_firstn, length_skipn. subst M. lia.
Qed.

Lemma page_nth_error (p : Z) (i : nat) :
  1 <= p -> (i < 10)%nat ->
  List.nth_error (TransactionHistory.page l p) i
  = List.nth_error l (Z.to_nat (10 * (p - 1)) + i).
Proof.
  intros Hp Hi. rewrite page_unfold by assumption.
  destruct (Nat.lt_ge_cases i
              (Z.to_nat (Z.min (p * 10) M - Z.min ((p - 1) * 10) M))) as [Hlt | Hge].
  - rewrite nth_error_firstn.
    destruct (Nat.ltb_spec i (Z.to_nat (Z.min (p * 10) M - Z.min ((p - 1) * 10) M)));
      [| lia].
    rewrite nth_error_skipn. f_equal. lia.
  - rewrite nth_error_firstn.
    destruct (Nat.ltb_spec i (Z.to_nat (Z.min (p * 10) M - Z.min ((p - 1) * 10) M)));
      [lia |].
    symmetry. apply nth_error_None. subst M. lia.
Qed.

End Pages.

(** C5. A list of [M] items has [ceil (M / 10)] pages: the page count [n]
    is the integer with [10 (n - 1) < M <= 10 n]. Every page before the
    last has exactly 10 items; for [M > 0] the last page has [M mod 10]
    items, or 10 when [M] is a multiple of 10; and the [i]-th item of page
    [p] is item [10 (p - 1) + i] of the list, for [i] below 10. *)
Theorem pagination_spec :
  forall (A : Type) (l : list A),
    let M := Z.of_nat (List.length l) in
    let n := TransactionHistory.pageCount l in
    10 * (n - 1) < M <= 10 * n
    /\ n = (M + 9) / 10
    /\ (forall p, 1 <= p < n ->
                  List.length (TransactionHistory.page l p) = 10%nat)
    /\ (0 < M ->
        Z.of_nat (List.length (TransactionHistory.page l n))
        = if M mod 10 =? 0 then 10 else M mod 10)
    /\ (forall p i, 1 <= p <= n -> (i < 10)%nat ->
                    List.nth_error (TransactionHistory.page l p) i
                    = List.nth_error l (Z.to_nat (10 * (p - 1)) + i))
    /\ (forall p, n < p -> TransactionHistory.page l p = []).
Proof.
  intros A l M n.
  assert (Hn : 10 * (n - 1) < M <= 10 * n).
  { subst n M. unfold TransactionHistory.pageCount, TransactionHistory.itemsPerPage.
    apply ceil_div_bounds. }
  split; [exact Hn |].
  split.
  { pose proof (Z.div_mod (M + 9) 10 ltac:(lia)).
    pose proof (Z.mod_pos_bound (M + 9) 10 ltac:(lia)).
    lia. }
  split; [| split; [| split]].
  - intros p Hp.
    apply Nat2Z.inj. rewrite page_length by lia. fold M. lia.
  - intros HM. rewrite page_length by lia. fold M.
    pose proof (Z.div_mod M 10 ltac:(lia)).
    pose proof (Z.mod_pos_bound M 10 ltac:(lia)).
    destruct (Z.eqb_spec (M mod 10) 0) as [E | E].
    + assert (M = 10 * n) by nia. lia.
    + assert (M / 10 = n - 1) by nia. lia.
  - intros p i Hp Hi. apply page_nth_error; lia.
  - intros p Hp.
    apply length_zero_iff_nil. apply Nat2Z.inj.
    rewrite page_length by lia. fold M. lia.
Qed.

Lemma pagination_spec_witness :
  List.length (TransactionHistory.page twenty_five 2) = 10%nat.
Proof.
  apply (proj1 (proj2 (proj2 (pagination_spec nat twenty_five))) 2).
  vm_compute. split; [discriminate | reflexivity].
Defined.

(** ** Fallback rows of the history *)

Lemma mock_rows_shape (rt : TransactionHistory.Runtime) :
  List.length (TransactionHistory.generateMockTransactions rt) = 25%nat
  /\ Forall full_shape (TransactionHistory.generateMockTransactions rt)
  /\ (forall i, (i < 25)%nat ->
                List.nth_error (TransactionHistory.generateMockTransactions rt) i
                = Some (TransactionHistory.mockTransaction rt i)).
Proof.
  unfold TransactionHistory.generateMockTransactions.
  split; [now rewrite length_map, length_seq |].
  split.
  - apply Forall_forall. intros tx Hin.
    apply in_map_iff in Hin. destruct Hin as [i [<- _]].
    unfold full_shape. cbn.
    split; [discriminate |].
    split; [eexists; reflexivity |].
    split; [eexists; reflexivity |].
    do 2 eexists. reflexivity.
  - intros i Hi.
    rewrite nth_error_map, nth_error_seq.
    destruct (Nat.ltb_spec i 25); [reflexivity | lia].
Qed.

(** The final state of [fetchTransactions], case by case. *)
Lemma fetchTransactions_run (rt : TransactionHistory.Runtime)
      (recent : Eff.FetchResult TransactionHistory.RecentJson)
      (s : TransactionHistory.State) :
  let res := TransactionHistory.fetchTransactions rt recent s in
  fst res = Eff.Ok tt
  /\ TransactionHistory.loading (snd res) = false
  /\ TransactionHistory.filter (snd res) = TransactionHistory.filter s
  /\ TransactionHistory.searchQuery (snd res) = TransactionHistory.searchQuery s
  /\ TransactionHistory.currentPage (snd res) = TransactionHistory.currentPage s
  /\ TransactionHistory.transactions (snd res) = fetched_rows rt recent.
Proof.
  cbv zeta.
  unfold TransactionHistory.fetchTransactions, fetched_rows, Eff.try_finally,
    Eff.try_catch, Eff.bind, Eff.await_fetch, Eff.await_json, Eff.member,
    Eff.modify.
  destruct recent as [e | r]; cbn -[TransactionHistory.generateMockTransactions].
  - repeat split.
  - destruct (Eff.ok r); cbn -[TransactionHistory.generateMockTransactions].
    + destruct (Eff.body r); cbn -[TransactionHistory.generateMockTransactions];
        repeat split.
    + repeat split.
Qed.

(** C7. When the fetch of the history fails, by a transport error or by
    a response whose status is not a success, the list on display becomes
    the 25 generated mock rows, each with [_id], [transaction_id],
    [prediction], [confidence], [timestamp] and [input_features] (amount
    and time) present; the handler completes without throwing and the
    list is not left empty. *)
Theorem fetch_failure_substitutes_mock_rows :
  forall (rt : TransactionHistory.Runtime)
         (recent : Eff.FetchResult TransactionHistory.RecentJson)
         (s : TransactionHistory.State),
    (exists e, recent = Eff.Rejected e)
    \/ (exists r, recent = Eff.Resolved r /\ Eff.ok r = false) ->
    let res := TransactionHistory.fetchTransactions rt recent s in
    let shown := TransactionHistory.transactions (snd res) in
    fst res = Eff.Ok tt
    /\ shown = TransactionHistory.generateMockTransactions rt
    /\ List.length shown = 25%nat
    /\ Forall full_shape shown
    /\ (forall i, (i < 25)%nat ->
          exists tx, List.nth_error shown i = Some tx
                     /\ TransactionHistory._id tx
                        = ("mock_" ++ JS.digits (N.of_nat i))%string)
    /\ TransactionHistory.loading (snd res) = false.
Proof.
  intros rt recent s Hfail res shown.
  destruct (fetchTransactions_run rt recent s) as (Hok & Hload & _ & _ & _ & Htx).
  fold res in Hok, Hload, Htx. fold shown in Htx.
  assert (Hshown : shown = TransactionHistory.generateMockTransactions rt).
  { rewrite Htx. unfold fetched_rows.
    destruct Hfail as [[e ->] | [r [-> Hr]]]; [reflexivity |].
    now rewrite Hr. }
  destruct (mock_rows_shape rt) as (Hlen & Hshape & Hnth).
  rewrite Hshown.
  repeat match goal with |- _ /\ _ => split end; try assumption; try reflexivity.
  intros i Hi. exists (TransactionHistory.mockTransaction rt i).
  split; [now apply Hnth | reflexivity].
Qed.

Lemma fetch_failure_substitutes_mock_rows_witness :
  List.length
    (TransactionHistory.transactions
       (snd (TransactionHistory.fetchTransactions stub_runtime recent_unavailable
               TransactionHistory.initial)))
  = 25%nat.
Proof.
  assert (H : (exists e, recent_unavailable = Eff.Rejected e)
              \/ (exists r, recent_unavailable = Eff.Resolved r /\ Eff.ok r = false)).
  { right. eexists. split; reflexivity. }
  exact (proj1 (proj2 (proj2
           (fetch_failure_substitutes_mock_rows stub_runtime recent_unavailable
              TransactionHistory.initial H)))).
Defined.

(** ** Page index of the history *)

Lemma page_beyond_count_empty {A : Type} (l : list A) (p : Z) :
  TransactionHistory.pageCount l < p -> TransactionHistory.page l p = [].
Proof.
  intros Hp.
  pose proof (ceil_div_bounds (Z.of_nat (List.length l))) as Hn.
  fold (TransactionHistory.pageCount l) in Hn.
  unfold TransactionHistory.pageCount, TransactionHistory.itemsPerPage in *.
  apply length_zero_iff_nil. apply Nat2Z.inj.
  rewrite page_length by lia. lia.
Qed.

Lemma paginationShown_inv (lower : string -> string) (s : TransactionHistory.State) :
  TransactionHistory.paginationShown lower s = true ->
  TransactionHistory.paginatedTransactions lower s <> []
  /\ 1 < TransactionHistory.totalPages lower s.
Proof.
  unfold TransactionHistory.paginationShown, TransactionHistory.render.
  destruct (TransactionHistory.loading s
            && (List.length (TransactionHistory.transactions s) =? 0)%nat);
    [discriminate |].
  destruct (Nat.eqb_spec (List.length (TransactionHistory.paginatedTransactions lower s)) 0)
    as [E | E]; [discriminate |].
  intros H. apply Z.ltb_lt in H. split; [| exact H].
  intros Hnil. now rewrite Hnil in E.
Qed.

(** While the pagination bar is on screen the page index is at most the
    page count, provided it is at least 1. *)
Lemma shown_page_in_range (lower : string -> string) (s : TransactionHistory.State) :
  TransactionHistory.paginationShown lower s = true ->
  1 <= TransactionHistory.currentPage s ->
  TransactionHistory.currentPage s <= TransactionHistory.totalPages lower s
  /\ 1 < TransactionHistory.totalPages lower s.
Proof.
  intros Hshown Hp.
  destruct (paginationShown_inv lower s Hshown) as [Hne Ht].
  split; [| exact Ht].
  destruct (Z_le_gt_dec (TransactionHistory.currentPage s)
              (TransactionHistory.totalPages lower s)) as [Hle | Hgt]; [exact Hle |].
  exfalso. apply Hne.
  unfold TransactionHistory.paginatedTransactions.
  apply (page_beyond_count_empty (TransactionHistory.filteredTransactions lower s)).
  unfold TransactionHistory.totalPages in Hgt. lia.
Qed.

Lemma step_keeps_page_unless_paging (lower : string -> string) (s s' : TransactionHistory.State)
      (a : TransactionHistory.Action) :
  TransactionHistory.Step lower s a s' ->
  TransactionHistory.currentPage s' <> TransactionHistory.currentPage s ->
  a = TransactionHistory.ClickPrevious \/ a = TransactionHistory.ClickNext.
Proof.
  intros Hstep Hneq. destruct Hstep; auto; exfalso; apply Hneq.
  - reflexivity.
  - reflexivity.
  - unfold Eff.exec.
    apply (fetchTransactions_run rt recent s).
Qed.

Lemma reachable_page_positive (lower : string -> string) (s : TransactionHistory.State) :
  TransactionHistory.Reachable lower s -> 1 <= TransactionHistory.currentPage s.
Proof.
  induction 1 as [| s a s' Hreach IH Hstep].
  - cbn. lia.
  - destruct Hstep.
    + exact IH.
    + exact IH.
    + cbn. lia.
    + apply andb_true_iff in H. destruct H as [Hshown _].
      destruct (paginationShown_inv lower s Hshown) as [_ Ht].
      cbn. lia.
    + unfold Eff.exec.
      destruct (fetchTransactions_run rt recent s) as (_ & _ & _ & _ & Hp & _).
      cbv zeta in Hp. rewrite Hp. exact IH.
Qed.

Lemma history_on_page_3_reachable (lower : string -> string) :
  TransactionHistory.Reachable lower (history_on_page_3 lower).
Proof.
  unfold history_on_page_3.
  assert (R1 : TransactionHistory.Reachable lower history_loaded).
  { apply (TransactionHistory.ReachStep lower TransactionHistory.initial
             (TransactionHistory.Fetch stub_runtime recent_unavailable)).
    - constructor.
    - constructor. }
  assert (R2 : TransactionHistory.Reachable lower (TransactionHistory.onNext lower history_loaded)).
  { apply (TransactionHistory.ReachStep lower history_loaded TransactionHistory.ClickNext);
      [exact R1 |].
    constructor. vm_compute. reflexivity. }
  apply (TransactionHistory.ReachStep lower (TransactionHistory.onNext lower history_loaded)
           TransactionHistory.ClickNext); [exact R2 |].
  constructor. vm_compute. reflexivity.
Qed.

(** C8. Selecting a filter or typing a search leaves the page index as it
    is, so the index can end up above the new page count (here page 3
    with no page left). Among all the transitions of the view only the
    clicks on "previous" and "next" change the index, and after such a
    click it lies between 1 and the page count. *)
Theorem filter_and_search_keep_page_index (lower : string -> string) :
  (forall s f,
      TransactionHistory.currentPage (TransactionHistory.setFilter f s)
      = TransactionHistory.currentPage s)
  /\ (forall s q,
         TransactionHistory.currentPage (TransactionHistory.setSearchQuery q s)
         = TransactionHistory.currentPage s)
  /\ (exists s f q,
         TransactionHistory.Reachable lower s
         /\ TransactionHistory.currentPage s <= TransactionHistory.totalPages lower s
         /\ TransactionHistory.totalPages lower (TransactionHistory.setFilter f s)
            < TransactionHistory.currentPage (TransactionHistory.setFilter f s)
         /\ TransactionHistory.totalPages lower (TransactionHistory.setSearchQuery q s)
            < TransactionHistory.currentPage (TransactionHistory.setSearchQuery q s))
  /\ (forall s a s',
         TransactionHistory.Step lower s a s' ->
         TransactionHistory.currentPage s' <> TransactionHistory.currentPage s ->
         a = TransactionHistory.ClickPrevious \/ a = TransactionHistory.ClickNext)
  /\ (forall s a s',
         TransactionHistory.Reachable lower s ->
         TransactionHistory.Step lower s a s' ->
         a = TransactionHistory.ClickPrevious \/ a = TransactionHistory.ClickNext ->
         TransactionHistory.totalPages lower s' = TransactionHistory.totalPages lower s
         /\ 1 <= TransactionHistory.currentPage s' <= TransactionHistory.totalPages lower s').
Proof.
  split; [reflexivity |].
  split; [reflexivity |].
  split.
  { exists (history_on_page_3 lower), TransactionHistory.FilterFraud, "zzz".
    split; [exact (history_on_page_3_reachable lower) |].
    repeat split; vm_compute; congruence. }
  split; [intros s a s'; apply (step_keeps_page_unless_paging lower) |].
  intros s a s' Hreach Hstep Ha.
  pose proof (reachable_page_positive lower s Hreach) as Hpos.
  destruct Hstep; try (destruct Ha; discriminate).
  - apply andb_true_iff in H. destruct H as [Hshown _].
    destruct (shown_page_in_range lower s Hshown Hpos) as [Hle Ht].
    split; [reflexivity |].
    change (TransactionHistory.totalPages lower (TransactionHistory.onPrevious s))
      with (TransactionHistory.totalPages lower s).
    cbn. lia.
  - apply andb_true_iff in H. destruct H as [Hshown _].
    destruct (shown_page_in_range lower s Hshown Hpos) as [Hle Ht].
    split; [reflexivity |].
    change (TransactionHistory.totalPages lower (TransactionHistory.onNext lower s))
      with (TransactionHistory.totalPages lower s).
    cbn. lia.
Qed.

Lemma filter_and_search_keep_page_index_witness :
  TransactionHistory.currentPage
    (TransactionHistory.setFilter TransactionHistory.FilterFraud (history_on_page_3 no_unicode))
  = TransactionHistory.currentPage (history_on_page_3 no_unicode).
Proof.
  exact (proj1 (filter_and_search_keep_page_index no_unicode)
           (history_on_page_3 no_unicode)
           TransactionHistory.FilterFraud).
Defined.

(* ================================================================= *)
(** * Further properties of the components *)

(** ** Result card *)

(** X1. For every prediction slot and loading flag the result card shows
    exactly one panel: the spinner while loading (a stored result is
    hidden then), otherwise the placeholder when nothing is stored and the
    result when something is. *)
Theorem result_card_shows_one_panel :
  forall (prediction : option ResultCard.Prediction) (isLoading : bool),
    ResultCard.panels prediction isLoading = [expected_panel prediction isLoading].
Proof.
  intros [p |] [|]; reflexivity.
Qed.

(** X2. The "Transaction ID" row with its copy button is rendered exactly
    when the copy action acts: without a prediction, or with a missing or
    empty id, the action leaves clipboard, flag and timers as they are;
    otherwise it writes the full id, raises the flag and schedules one
    reset after 2000 ms. *)
Theorem copy_acts_iff_row_is_rendered :
  forall (p : ResultCard.Prediction) (s : ResultCard.State),
    ResultCard.copyTransactionId None s = s
    /\ (ResultCard.transactionIdText p = None ->
        ResultCard.copyTransactionId (Some p) s = s)
    /\ (forall shown, ResultCard.transactionIdText p = Some shown ->
          exists id,
            ResultCard.transaction_id p = Some id
            /\ ResultCard.copyTransactionId (Some p) s
               = {| ResultCard.copied := true;
                    ResultCard.clipboard := Some id;
                    ResultCard.timeouts := ResultCard.timeouts s ++ [2000] |}
            /\ ResultCard.copyTransactionId (Some p) s <> s).
Proof.
  intros p s.
  unfold ResultCard.transactionIdText, ResultCard.copyTransactionId.
  split; [reflexivity |].
  destruct (ResultCard.transaction_id p) as [id |]; [| split; [reflexivity | discriminate]].
  destruct (JS.truthy_string id); split; try reflexivity; try discriminate.
  intros shown _. exists id. split; [reflexivity |]. split; [reflexivity |].
  intros E. apply (f_equal (fun st => List.length (ResultCard.timeouts st))) in E.
  cbn in E. rewrite length_app in E. cbn in E. lia.
Qed.

Lemma copy_acts_iff_row_is_rendered_witness :
  ResultCard.copyTransactionId (Some anonymous_prediction) ResultCard.initial
  = ResultCard.initial.
Proof.
  apply (proj1 (proj2 (copy_acts_iff_row_is_rendered anonymous_prediction
                         ResultCard.initial))).
  reflexivity.
Defined.

(** ** Form draft *)

Lemma get_app (o o' : JS.object) (key : string) :
  JS.get (o ++ o') key
  = match JS.get o key with
    | Some v => Some v
    | None => JS.get o' key
    end.
Proof.
  induction o as [| [k v] o IH]; cbn; [reflexivity |].
  destruct (String.eqb k key); [reflexivity | exact IH].
Qed.

Lemma get_set_same (o : JS.object) (key : string) (value : JS.number) :
  JS.get (JS.set o key value) key = Some value.
Proof.
  unfold JS.set. destruct (JS.get o key) as [v0 |] eqn:G.
  - induction o as [| [k v] o IH]; cbn in *; [discriminate |].
    destruct (String.eqb k key) eqn:E; cbn; rewrite E; [reflexivity | now apply IH].
  - destruct (JS.array_index key) as [n |].
    + destruct (insert_index_split o n key value) as (before & after & Ho & ->).
      subst o. rewrite get_app in G. rewrite get_app.
      destruct (JS.get before key); [discriminate |].
      cbn. now rewrite String.eqb_refl.
    + rewrite get_app, G. cbn. now rewrite String.eqb_refl.
Qed.

Lemma get_set_other (o : JS.object) (key other : string) (value : JS.number) :
  key <> other -> JS.get (JS.set o key value) other = JS.get o other.
Proof.
  intros Hne. apply String.eqb_neq in Hne.
  unfold JS.set. destruct (JS.get o key) as [v0 |].
  - induction o as [| [k v] o IH]; cbn; [reflexivity |].
    destruct (String.eqb k key) eqn:E; cbn.
    + apply String.eqb_eq in E. subst k. now rewrite Hne.
    + destruct (String.eqb k other); [reflexivity | exact IH].
  - destruct (JS.array_index key) as [n |].
    + destruct (insert_index_split o n key value) as (before & after & Ho & ->).
      subst o. rewrite !get_app. cbn. now rewrite Hne.
    + rewrite get_app. cbn. rewrite Hne. now destruct (JS.get o other).
Qed.

Lemma field_of_injective (i j : PredictionForm.Input) :
  PredictionForm.rendered i = true -> PredictionForm.rendered j = true ->
  PredictionForm.field_of i = PredictionForm.field_of j -> i = j.
Proof.
  assert (Hv : forall n, PredictionForm.rendered (PredictionForm.VInput n) = true ->
                         In n PredictionForm.vNumbers).
  { intros n H. unfold PredictionForm.rendered in H.
    apply existsb_exists in H. destruct H as [m [Hin Hm]].
    apply Nat.eqb_eq in Hm. now subst m. }
  assert (Hvv : forall n m, In n PredictionForm.vNumbers -> In m PredictionForm.vNumbers ->
                            PredictionForm.field_of (PredictionForm.VInput n)
                            = PredictionForm.field_of (PredictionForm.VInput m) ->
                            n = m).
  { intros n m Hn Hm.
    assert (All : List.forallb
                    (fun a => List.forallb
                                (fun b =>
                                   negb (String.eqb
                                           (PredictionForm.field_of (PredictionForm.VInput a))
                                           (PredictionForm.field_of (PredictionForm.VInput b)))
                                   || Nat.eqb a b)
                                PredictionForm.vNumbers)
                    PredictionForm.vNumbers = true) by (vm_compute; reflexivity).
    rewrite forallb_forall in All. specialize (All n Hn).
    rewrite forallb_forall in All. specialize (All m Hm).
    intros E. rewrite E, String.eqb_refl in All. cbn in All.
    now apply Nat.eqb_eq. }
  destruct i as [| | n], j as [| | m]; intros Hi Hj E;
    try reflexivity; try discriminate.
  - f_equal. apply Hvv; auto.
Qed.

(** X3. An edit changes the edited field and nothing else: afterwards the
    edited input holds the typed number (0 when the text does not parse or
    is 0), every other rendered input holds what it held before, and the
    draft still has its 30 fields. *)
Theorem edit_changes_only_its_field :
  forall (evs : list PredictionForm.Event) (i j : PredictionForm.Input)
         (raw : JS.number),
    Forall form_event_ok evs ->
    PredictionForm.rendered i = true ->
    PredictionForm.rendered j = true ->
    let s := PredictionForm.run evs in
    let s' := PredictionForm.step s (PredictionForm.Edit i raw) in
    PredictionForm.inputValue s' i = Some (JS.or raw (JS.of_Z 0))
    /\ (i <> j -> PredictionForm.inputValue s' j = PredictionForm.inputValue s j)
    /\ (exists v, PredictionForm.inputValue s j = Some v)
    /\ JS.keys (PredictionForm.formData s') = JS.keys PredictionForm.defaultValues.
Proof.
  intros evs i j raw Hevs Hi Hj s s'.
  destruct (form_inv_run evs Hevs) as (Hk & _ & _). fold s in Hk.
  unfold PredictionForm.inputValue. subst s'.
  cbn [PredictionForm.step PredictionForm.handleChange PredictionForm.formData].
  split; [apply get_set_same |].
  split.
  { intros Hne. apply get_set_other. intros E. apply Hne.
    now apply field_of_injective. }
  split.
  { pose proof (rendered_field_is_default j Hj) as Hin. rewrite <- Hk in Hin.
    clear - Hin. induction (PredictionForm.formData s) as [| [k v] o IH]; cbn in *.
    - contradiction.
    - destruct (String.eqb k (PredictionForm.field_of j)) eqn:E.
      + now exists v.
      + destruct Hin as [Hin | Hin]; [| now apply IH].
        subst k. now rewrite String.eqb_refl in E. }
  now apply filled_after_edit.
Qed.

Lemma edit_changes_only_its_field_witness :
  PredictionForm.inputValue
    (PredictionForm.step (PredictionForm.run [PredictionForm.Reset])
       (PredictionForm.Edit (PredictionForm.VInput 7) JS.NaN))
    (PredictionForm.VInput 7)
  = Some (JS.or JS.NaN (JS.of_Z 0)).
Proof.
  assert (H : Forall form_event_ok [PredictionForm.Reset]) by (repeat constructor).
  exact (proj1 (edit_changes_only_its_field [PredictionForm.Reset]
                  (PredictionForm.VInput 7) PredictionForm.AmountInput JS.NaN
                  H eq_refl eq_refl)).
Defined.

Lemma set_values_Forall (P : JS.number -> Prop) (o : JS.object) (key : string)
      (value : JS.number) :
  Forall P (JS.values o) -> P value -> Forall P (JS.values (JS.set o key value)).
Proof.
  intros Ho Hv. unfold JS.values, JS.set in *.
  destruct (JS.get o key) as [v0 |].
  - induction o as [| [k v] o IH]; cbn in *; [constructor |].
    inversion Ho; subst.
    destruct (String.eqb k key); cbn; constructor; auto.
  - destruct (JS.array_index key) as [n |].
    + destruct (insert_index_split o n key value) as (before & after & -> & ->).
      rewrite map_app in *. cbn. apply Forall_app in Ho. destruct Ho as [Hb Ha].
      apply Forall_app. split; [exact Hb | now constructor].
    + rewrite map_app. apply Forall_app. split; [exact Ho |].
      cbn. now constructor.
Qed.

Lemma or_zero_is_plain (raw : JS.number) : plain_number (JS.or raw (JS.of_Z 0)).
Proof.
  unfold plain_number, JS.or.
  destruct raw as [sg | sg | | sg m e]; cbn; split; discriminate.
Qed.

Lemma no_nan_step (s : PredictionForm.State) (ev : PredictionForm.Event) :
  Forall plain_number (JS.values (PredictionForm.formData s)) ->
  not_randomize ev ->
  Forall plain_number (JS.values (PredictionForm.formData (PredictionForm.step s ev))).
Proof.
  intros Hs Hev. destruct ev as [i raw | | rnd |]; cbn in *.
  - apply set_values_Forall; [exact Hs | apply or_zero_is_plain].
  - repeat constructor; discriminate.
  - contradiction.
  - exact Hs.
Qed.

(** X4. As long as randomize-all is not used, the draft handed to
    [onSubmit] never holds NaN or -0, whatever is typed into the inputs:
    text that does not parse is stored as 0. *)
Theorem submitted_draft_has_no_nan :
  forall evs : list PredictionForm.Event,
    Forall not_randomize evs ->
    Forall plain_number
      (JS.values (PredictionForm.handleSubmit (PredictionForm.run evs))).
Proof.
  intros evs Hevs. unfold PredictionForm.handleSubmit, PredictionForm.run.
  assert (H0 : Forall plain_number
                 (JS.values (PredictionForm.formData PredictionForm.initial))).
  { cbn. repeat constructor; discriminate. }
  revert H0. generalize PredictionForm.initial as s.
  induction Hevs as [| ev evs Hev Hevs IH]; intros s Hs; cbn.
  - exact Hs.
  - apply IH. now apply no_nan_step.
Qed.

Lemma submitted_draft_has_no_nan_witness :
  Forall plain_number
    (JS.values
       (PredictionForm.handleSubmit
          (PredictionForm.run
             [PredictionForm.Edit PredictionForm.TimeInput JS.NaN;
              PredictionForm.Edit PredictionForm.AmountInput (S754_zero true)]))).
Proof.
  apply submitted_draft_has_no_nan. repeat constructor.
Defined.

(** X5. Every body the client posts to [/predict] carries the 30 field
    names of [defaultValues], in its order: the draft submitted by the
    form after any events on the rendered inputs, and the records built
    by the two quick-test generators. *)
Theorem posted_records_have_the_30_fields :
  forall (evs : list PredictionForm.Event) (rnd : nat -> JS.number),
    Forall form_event_ok evs ->
    JS.keys (PredictionForm.handleSubmit (PredictionForm.run evs))
    = JS.keys PredictionForm.defaultValues
    /\ List.length (PredictionForm.handleSubmit (PredictionForm.run evs)) = 30%nat
    /\ JS.keys (App.generateSafeTransaction rnd) = JS.keys PredictionForm.defaultValues
    /\ JS.keys (App.generateFraudulentTransaction rnd)
       = JS.keys PredictionForm.defaultValues
    /\ NoDup (JS.keys PredictionForm.defaultValues).
Proof.
  intros evs rnd Hevs.
  destruct (form_inv_run evs Hevs) as (Hk & _ & _).
  unfold PredictionForm.handleSubmit.
  split; [exact Hk |].
  split.
  { rewrite <- (length_map fst). fold (JS.keys (PredictionForm.formData
                                                  (PredictionForm.run evs))).
    rewrite Hk. reflexivity. }
  split; [reflexivity |].
  split; [reflexivity |].
  assert (E : List.nodup string_dec (JS.keys PredictionForm.defaultValues)
              = JS.keys PredictionForm.defaultValues) by (vm_compute; reflexivity).
  rewrite <- E. apply NoDup_nodup.
Qed.

Lemma posted_records_have_the_30_fields_witness :
  List.length
    (PredictionForm.handleSubmit
       (PredictionForm.run [PredictionForm.Randomize always_half;
                            PredictionForm.Edit (PredictionForm.VInput 28) (JS.of_Z 3)]))
  = 30%nat.
Proof.
  assert (H : Forall form_event_ok
                [PredictionForm.Randomize always_half;
                 PredictionForm.Edit (PredictionForm.VInput 28) (JS.of_Z 3)])
    by (repeat constructor).
  exact (proj1 (proj2 (posted_records_have_the_30_fields _ always_half H))).
Defined.

Lemma filled_insert (before after : JS.object) (key : string) (value : JS.number) :
  PredictionForm.filled (before ++ (key, value) :: after)
  = (PredictionForm.filled (before ++ after)
     + (if JS.strict_neq value (JS.of_Z 0) then 1 else 0))%nat.
Proof.
  unfold PredictionForm.filled, JS.values.
  rewrite !map_app, !filter_app, !length_app. cbn [map filter snd].
  destruct (JS.strict_neq value (JS.of_Z 0)); cbn [List.length]; lia.
Qed.

(** X6. [handleChange] does not check its field name: a name that is not
    a property of the draft is added as a further property and nothing
    else changes. The new property is listed last, unless the name is an
    array index such as "1", which JavaScript lists before the other
    keys: on a draft with the 30 fields it then comes first. In both
    cases the percentage is computed from one more value over the same
    30; on a draft whose 30 fields are all non-zero this gives a
    percentage above 100. *)
Theorem handleChange_unknown_field_grows_draft :
  forall (s : PredictionForm.State) (field : string) (value : JS.number),
    ~ In field (JS.keys (PredictionForm.formData s)) ->
    let s' := PredictionForm.handleChange field value s in
    (exists before after,
        PredictionForm.formData s = before ++ after
        /\ PredictionForm.formData s' = before ++ (field, value) :: after)
    /\ (JS.array_index field = None ->
        PredictionForm.formData s' = PredictionForm.formData s ++ [(field, value)])
    /\ (JS.array_index field <> None ->
        JS.keys (PredictionForm.formData s) = JS.keys PredictionForm.defaultValues ->
        PredictionForm.formData s' = (field, value) :: PredictionForm.formData s)
    /\ PredictionForm.fillProgress s'
       = PredictionForm.percent
           (PredictionForm.filled (PredictionForm.formData s)
            + (if JS.strict_neq value (JS.of_Z 0) then 1 else 0))%nat
    /\ (JS.keys (PredictionForm.formData s) = JS.keys PredictionForm.defaultValues ->
        PredictionForm.filled (PredictionForm.formData s) = 30%nat ->
        JS.strict_neq value (JS.of_Z 0) = true ->
        JS.gt (PredictionForm.fillProgress s') (JS.of_Z 100) = true).
Proof.
  intros s field value Hn s'. subst s'.
  unfold PredictionForm.handleChange. cbn [PredictionForm.formData PredictionForm.fillProgress].
  destruct (set_absent_split _ _ value Hn) as (before & after & Ho & Hs & Hlast).
  assert (Hf : PredictionForm.filled (JS.set (PredictionForm.formData s) field value)
               = (PredictionForm.filled (PredictionForm.formData s)
                  + (if JS.strict_neq value (JS.of_Z 0) then 1 else 0))%nat).
  { rewrite Hs, Ho. apply filled_insert. }
  split; [now exists before, after |].
  split.
  { intros Hi. rewrite Hs, Ho, (Hlast Hi), app_nil_r. reflexivity. }
  split.
  { intros Hi Hk. unfold JS.set. rewrite (get_absent _ _ Hn).
    destruct (JS.array_index field) as [n |]; [| congruence].
    destruct (PredictionForm.formData s) as [| [k v] o]; [discriminate |].
    injection Hk as -> _. reflexivity. }
  split; [now rewrite Hf |].
  intros _ H30 Hv. rewrite Hf, H30, Hv. vm_compute. reflexivity.
Qed.

Lemma handleChange_unknown_field_grows_draft_witness :
  PredictionForm.formData
    (PredictionForm.handleChange "v29" (JS.of_Z 1) PredictionForm.initial)
  = PredictionForm.formData PredictionForm.initial ++ [("v29", JS.of_Z 1)]
  /\ PredictionForm.formData
       (PredictionForm.handleChange "1" (JS.of_Z 5) PredictionForm.initial)
     = ("1", JS.of_Z 5) :: PredictionForm.formData PredictionForm.initial.
Proof.
  split.
  - apply (handleChange_unknown_field_grows_draft PredictionForm.initial "v29" (JS.of_Z 1));
      [vm_compute; intuition discriminate | reflexivity].
  - apply (handleChange_unknown_field_grows_draft PredictionForm.initial "1" (JS.of_Z 5));
      [vm_compute; intuition discriminate | discriminate | reflexivity].
Defined.

(** ** Stats refresh and prediction handlers *)

Lemma fetchStats_run (be : App.Backend) (s : App.State) :
  App.fetchStats be s
  = (Eff.Ok tt,
     {| App.prediction := App.prediction s;
        App.isLoading := App.isLoading s;
        App.stats := refreshed_stats be (App.stats s);
        App.toasts := App.toasts s;
        App.console := App.console s ++ refresh_log be;
        App.setLoadingCalls := App.setLoadingCalls s |}).
Proof.
  unfold App.fetchStats, refreshed_stats, refresh_log, not_connected,
    Eff.try_catch, Eff.bind, Eff.await_fetch, Eff.when, Eff.await_json,
    Eff.member.
  destruct s as [p l st t c lc].
  destruct (App.get_stats be) as [e | r]; cbn.
  - reflexivity.
  - destruct (Eff.ok r); cbn; [| now rewrite app_nil_r].
    destruct (Eff.body r) as [err | | payload]; cbn;
      [reflexivity | reflexivity |].
    destruct (App.data payload); cbn; now rewrite app_nil_r.
Qed.

Lemma or_zero_plain (x : option JS.number) : plain_number (App.or_zero x).
Proof.
  destruct x as [n |]; cbn; [apply or_zero_is_plain | split; discriminate].
Qed.

(** X7. Refreshing the stats never throws and touches only the stats and
    the console. The stats are replaced only by a 2xx response whose JSON
    body has a [data] member; a rejected fetch, a non-2xx status, a body
    that is no JSON, is [null] or lacks [data] leaves them as they were.
    The console line is written exactly when the [try] block threw: the
    fetch was rejected, or [response.json()] rejected on a 2xx body, or
    the body was the JSON text [null], of which no [data] can be read. A non-2xx status and a
    JSON body other than [null] are silent. Stored stats are never NaN:
    a missing, zero or NaN member is stored as 0. *)
Theorem fetchStats_keeps_stats_on_failure :
  forall (be : App.Backend) (s : App.State),
    let res := App.fetchStats be s in
    let s' := snd res in
    fst res = Eff.Ok tt
    /\ App.prediction s' = App.prediction s
    /\ App.isLoading s' = App.isLoading s
    /\ App.toasts s' = App.toasts s
    /\ (forall e, App.get_stats be = Eff.Rejected e ->
          App.stats s' = App.stats s
          /\ App.console s'
             = App.console s ++ [App.ConsoleLog "Backend not connected, using mock stats"])
    /\ (forall r, App.get_stats be = Eff.Resolved r -> Eff.ok r = false ->
          App.stats s' = App.stats s /\ App.console s' = App.console s)
    /\ (forall r err, App.get_stats be = Eff.Resolved r -> Eff.ok r = true ->
          Eff.body r = Eff.NoJson err ->
          App.stats s' = App.stats s
          /\ App.console s'
             = App.console s ++ [App.ConsoleLog "Backend not connected, using mock stats"])
    /\ (forall r, App.get_stats be = Eff.Resolved r -> Eff.ok r = true ->
          Eff.body r = Eff.JsonNull ->
          App.stats s' = App.stats s
          /\ App.console s'
             = App.console s ++ [App.ConsoleLog "Backend not connected, using mock stats"])
    /\ (forall r payload, App.get_stats be = Eff.Resolved r -> Eff.ok r = true ->
          Eff.body r = Eff.JsonValue payload ->
          App.console s' = App.console s
          /\ App.stats s' = match App.data payload with
                            | Some d => normalised d
                            | None => App.stats s
                            end)
    /\ (App.console s' <> App.console s ->
        (exists e, App.get_stats be = Eff.Rejected e)
        \/ (exists r, App.get_stats be = Eff.Resolved r /\ Eff.ok r = true
                      /\ (Eff.body r = Eff.JsonNull
                          \/ exists err, Eff.body r = Eff.NoJson err)))
    /\ (plain_stats (App.stats s) -> plain_stats (App.stats s')).
Proof.
  intros be s res s'. subst s' res. rewrite fetchStats_run.
  cbn [fst snd App.prediction App.isLoading App.toasts App.stats App.console].
  unfold refreshed_stats, refresh_log, not_connected.
  repeat match goal with |- _ /\ _ => split end; try reflexivity.
  - intros e ->. split; reflexivity.
  - intros r -> ->. split; [reflexivity | apply app_nil_r].
  - intros r err -> -> ->. split; reflexivity.
  - intros r -> -> ->. split; reflexivity.
  - intros r payload -> -> ->. split; [apply app_nil_r | reflexivity].
  - intros Hneq.
    destruct (App.get_stats be) as [e | r]; [left; now exists e | right].
    exists r. split; [reflexivity |].
    destruct (Eff.ok r); [| now rewrite app_nil_r in Hneq].
    split; [reflexivity |].
    destruct (Eff.body r) as [err | | payload];
      [right; now exists err | now left | now rewrite app_nil_r in Hneq].
  - intros Hs.
    destruct (App.get_stats be) as [e | r]; [exact Hs |].
    destruct (Eff.ok r); [| exact Hs].
    destruct (Eff.body r) as [err | | payload]; [exact Hs | exact Hs |].
    destruct (App.data payload) as [d |]; [| exact Hs].
    unfold plain_stats, normalised. cbn.
    repeat split; apply or_zero_plain.
Qed.

Lemma fetchStats_keeps_stats_on_failure_witness :
  App.stats (snd (App.fetchStats backend_500 App.initial)) = App.stats App.initial.
Proof.
  exact (proj1 (proj1 (proj2 (proj2 (proj2 (proj2
           (fetchStats_keeps_stats_on_failure backend_500 App.initial)))))
           (Eff.TypeError "Failed to fetch") eq_refl)).
Defined.

Lemma handlePrediction_run (be : App.Backend) (fd : JS.object) (s : App.State) :
  Eff.exec (App.handlePrediction be fd) s
  = match failure_of (App.post_predict be fd), exchange_of (App.post_predict be fd) with
    | None, Succeeded result =>
        {| App.prediction := result;
           App.isLoading := false;
           App.stats := refreshed_stats be (App.stats s);
           App.toasts := App.toasts s ++ [App.ToastSuccess "Prediction completed!"];
           App.console := App.console s ++ refresh_log be;
           App.setLoadingCalls := App.setLoadingCalls s ++ [true; false] |}
    | Some e, _ =>
        {| App.prediction := App.prediction s;
           App.isLoading := false;
           App.stats := App.stats s;
           App.toasts := App.toasts s ++ [failure_toast];
           App.console := App.console s ++ [App.ConsoleError e];
           App.setLoadingCalls := App.setLoadingCalls s ++ [true; false] |}
    | None, Failed => s
    end.
Proof.
  unfold Eff.exec, App.handlePrediction, exchange_of, failure_of, Eff.try_finally,
    Eff.try_catch, Eff.bind, Eff.await_fetch, Eff.await_json, Eff.when.
  destruct s as [p0 l st t c lc].
  destruct (App.post_predict be fd) as [e | r]; cbn -[App.fetchStats].
  - now rewrite <- app_assoc.
  - destruct (Eff.ok r); cbn -[App.fetchStats].
    + destruct (Eff.body r) as [err | | p]; cbn -[App.fetchStats].
      * now rewrite <- app_assoc.
      * rewrite fetchStats_run. cbn. now rewrite <- app_assoc.
      * rewrite fetchStats_run. cbn. now rewrite <- app_assoc.
    + now rewrite <- app_assoc.
Qed.

Lemma handleQuickTest_run (be : App.Backend) (rnd : nat -> JS.number)
      (type : App.TestType) (s : App.State) :
  let f := App.post_predict be (testData rnd type) in
  Eff.exec (App.handleQuickTest be rnd type) s
  = match failure_of f, exchange_of f with
    | None, Succeeded result =>
        {| App.prediction := result;
           App.isLoading := false;
           App.stats := refreshed_stats be (App.stats s);
           App.toasts :=
             App.toasts s
             ++ [App.ToastSuccess
                   ((match type with
                     | App.TestFraud => "Fraudulent"
                     | App.TestSafe => "Safe"
                     end) ++ " transaction test completed!")%string];
           App.console := App.console s ++ refresh_log be;
           App.setLoadingCalls := App.setLoadingCalls s ++ [true; false] |}
    | Some e, _ =>
        {| App.prediction := App.prediction s;
           App.isLoading := false;
           App.stats := App.stats s;
           App.toasts := App.toasts s ++ [failure_toast];
           App.console := App.console s;
           App.setLoadingCalls := App.setLoadingCalls s ++ [true; false] |}
    | None, Failed => s
    end.
Proof.
  cbv zeta.
  unfold Eff.exec, App.handleQuickTest, testData, exchange_of, failure_of,
    Eff.try_finally, Eff.try_catch, Eff.bind, Eff.await_fetch, Eff.await_json, Eff.when.
  destruct s as [p0 l st t c lc].
  destruct (App.post_predict be _) as [e | r]; cbn -[App.fetchStats].
  - now rewrite <- app_assoc.
  - destruct (Eff.ok r); cbn -[App.fetchStats].
    + destruct (Eff.body r) as [err | | p]; cbn -[App.fetchStats].
      * now rewrite <- app_assoc.
      * rewrite fetchStats_run. cbn. now rewrite <- app_assoc.
      * rewrite fetchStats_run. cbn. now rewrite <- app_assoc.
    + now rewrite <- app_assoc.
Qed.

(** X8. [handlePrediction] refreshes the stats exactly when the
    prediction succeeded: then stats and console end as a call of
    [fetchStats] from the initial state leaves them. When it failed the
    stats are untouched and the console receives the error that ended the
    exchange: the rejection of the fetch, "Prediction failed" for a
    non-2xx status, the error [response.json()] rejected with for a body
    that is no JSON. *)
Theorem handlePrediction_refreshes_stats_on_success :
  forall (be : App.Backend) (fd : JS.object) (s : App.State),
    let s' := Eff.exec (App.handlePrediction be fd) s in
    (forall p, exchange_of (App.post_predict be fd) = Succeeded p ->
       App.stats s' = App.stats (Eff.exec (App.fetchStats be) s)
       /\ App.console s' = App.console (Eff.exec (App.fetchStats be) s))
    /\ (exchange_of (App.post_predict be fd) = Failed ->
        App.stats s' = App.stats s
        /\ exists e, failure_of (App.post_predict be fd) = Some e
                     /\ App.console s' = App.console s ++ [App.ConsoleError e])
    /\ (forall e, App.post_predict be fd = Eff.Rejected e ->
          App.console s' = App.console s ++ [App.ConsoleError e])
    /\ (forall r, App.post_predict be fd = Eff.Resolved r -> Eff.ok r = false ->
          App.console s'
          = App.console s ++ [App.ConsoleError (Eff.Error "Prediction failed")]).
Proof.
  intros be fd s s'. subst s'. rewrite handlePrediction_run.
  unfold Eff.exec. rewrite fetchStats_run. cbn [snd App.stats App.console].
  unfold failure_of, exchange_of.
  destruct (App.post_predict be fd) as [e | r].
  - repeat split; try discriminate.
    + exists e. split; reflexivity.
    + intros e' [= ->]. reflexivity.
  - destruct (Eff.ok r) eqn:Hok.
    + destruct (Eff.body r) as [err | | p].
      * repeat split; try discriminate.
        -- eexists. split; reflexivity.
        -- intros r' [= <-] H. congruence.
      * repeat split; try discriminate.
        intros r' [= <-] H. congruence.
      * repeat split; try discriminate.
        intros r' [= <-] H. congruence.
    + repeat split; try discriminate.
      * eexists. split; reflexivity.
Qed.

Lemma handlePrediction_refreshes_stats_on_success_witness :
  App.console (Eff.exec (App.handlePrediction backend_500 []) App.initial)
  = App.console App.initial ++ [App.ConsoleError (Eff.Error "Prediction failed")].
Proof.
  exact (proj2 (proj2 (proj2
           (handlePrediction_refreshes_stats_on_success backend_500 [] App.initial)))
           _ eq_refl eq_refl).
Defined.

(** X9. A quick test is a prediction on the generated record: it ends
    with the same stored prediction, loading flag, stats and
    [setIsLoading] calls as [handlePrediction] on that record. The two
    differ only in what they report: the success toast names the kind of
    test, and on failure the quick test writes nothing to the console. *)
Theorem handleQuickTest_agrees_with_handlePrediction :
  forall (be : App.Backend) (rnd : nat -> JS.number) (type : App.TestType)
         (s : App.State),
    let q := Eff.exec (App.handleQuickTest be rnd type) s in
    let h := Eff.exec (App.handlePrediction be (testData rnd type)) s in
    App.prediction q = App.prediction h
    /\ App.isLoading q = App.isLoading h
    /\ App.stats q = App.stats h
    /\ App.setLoadingCalls q = App.setLoadingCalls h
    /\ (exchange_of (App.post_predict be (testData rnd type)) = Failed ->
        App.toasts q = App.toasts h /\ App.console q = App.console s)
    /\ (forall p, exchange_of (App.post_predict be (testData rnd type)) = Succeeded p ->
          App.console q = App.console h
          /\ List.length (App.toasts q) = List.length (App.toasts h)).
Proof.
  intros be rnd type s q h. subst q h.
  rewrite handleQuickTest_run, handlePrediction_run. cbv zeta.
  unfold failure_of, exchange_of.
  destruct (App.post_predict be (testData rnd type)) as [e | r].
  - repeat split; try reflexivity; discriminate.
  - destruct (Eff.ok r); [destruct (Eff.body r) as [err | | p] |];
      repeat split; try reflexivity; try discriminate;
      cbn; now rewrite !length_app.
Qed.

(** ** History: status filter and search *)

Lemma filter_length_split {A : Type} (f g : A -> bool) (l : list A) :
  (forall x, f x && g x = false) ->
  (List.length (List.filter f l) + List.length (List.filter g l)
   = List.length (List.filter (fun x => f x || g x) l))%nat.
Proof.
  intros Hd. induction l as [| x l IH]; cbn; [reflexivity |].
  specialize (Hd x). destruct (f x), (g x); cbn in *; try discriminate; lia.
Qed.

(** X10. For any search string the "fraud" and "safe" filters split what
    "all" shows: no row is in both results, every row of "all" is in one
    of them, and the two counts add up to the count of "all". Applying a
    filter to its own result changes nothing. *)
Theorem fraud_and_safe_split_all (lower : string -> string) :
  forall (q : string) (txs : list TransactionHistory.Transaction),
    let all := TransactionHistory.filterTransactions lower TransactionHistory.FilterAll q txs in
    let fraud := TransactionHistory.filterTransactions lower TransactionHistory.FilterFraud q txs in
    let safe := TransactionHistory.filterTransactions lower TransactionHistory.FilterSafe q txs in
    (List.length fraud + List.length safe = List.length all)%nat
    /\ (forall tx, In tx all <-> In tx fraud \/ In tx safe)
    /\ (forall tx, ~ (In tx fraud /\ In tx safe))
    /\ (forall f, TransactionHistory.filterTransactions lower f q
                    (TransactionHistory.filterTransactions lower f q txs)
                  = TransactionHistory.filterTransactions lower f q txs).
Proof.
  intros q txs all fraud safe. subst all fraud safe.
  unfold TransactionHistory.filterTransactions.
  split; [| split; [| split]].
  - rewrite filter_length_split.
    + f_equal. apply filter_ext. intros tx.
      unfold TransactionHistory.matchesFilter. cbn.
      destruct (TransactionHistory.prediction tx),
        (TransactionHistory.matchesSearch lower q tx); reflexivity.
    + intros tx. unfold TransactionHistory.matchesFilter. cbn.
      destruct (TransactionHistory.prediction tx),
        (TransactionHistory.matchesSearch lower q tx); reflexivity.
  - intros tx. rewrite !filter_In.
    unfold TransactionHistory.matchesFilter. cbn.
    destruct (TransactionHistory.prediction tx),
      (TransactionHistory.matchesSearch lower q tx); cbn; intuition discriminate.
  - intros tx. rewrite !filter_In.
    unfold TransactionHistory.matchesFilter. cbn.
    destruct (TransactionHistory.prediction tx); cbn; intuition discriminate.
  - intros f. rewrite filter_twice. apply filter_ext. intros tx.
    now destruct (TransactionHistory.matchesFilter f tx
                  && TransactionHistory.matchesSearch lower q tx).
Qed.

Lemma string_app_assoc (a b c : string) :
  ((a ++ b) ++ c)%string = (a ++ b ++ c)%string.
Proof.
  induction a as [| x a IH]; cbn; [reflexivity | now rewrite IH].
Qed.

Lemma occurs_in_shorter (s q x : string) :
  occurs_in s (q ++ x) \/ occurs_in s (x ++ q) -> occurs_in s q.
Proof.
  unfold occurs_in. intros [(pre & suf & ->) | (pre & suf & ->)].
  - exists pre, (x ++ suf)%string. now rewrite string_app_assoc.
  - exists (pre ++ x)%string, suf. now rewrite !string_app_assoc.
Qed.

(** A row that matches a longer ASCII query matches the shorter one. *)
Lemma matchesSearch_shorter (lower : string -> string) (q x : string)
      (tx : TransactionHistory.Transaction) :
  JS.is_ascii q = true -> JS.is_ascii x = true ->
  TransactionHistory.matchesSearch lower (q ++ x) tx = true
  \/ TransactionHistory.matchesSearch lower (x ++ q) tx = true ->
  TransactionHistory.matchesSearch lower q tx = true.
Proof.
  intros Hq Hx H.
  assert (Hqx : JS.is_ascii (q ++ x) = true) by (now rewrite is_ascii_app, Hq, Hx).
  assert (Hxq : JS.is_ascii (x ++ q) = true) by (now rewrite is_ascii_app, Hq, Hx).
  rewrite !matchesSearch_matches in *. unfold id_matches in *.
  rewrite (toLowerCase_ascii lower _ Hq).
  rewrite (toLowerCase_ascii lower _ Hqx), (toLowerCase_ascii lower _ Hxq),
    !fold_ascii_app in H.
  destruct H as [[E | (id & Hid & H)] | [E | (id & Hid & H)]].
  - left. destruct q; [reflexivity | discriminate].
  - right. exists id. split; [exact Hid |].
    apply (occurs_in_shorter _ _ (JS.fold_ascii x)). now left.
  - left. destruct q; [reflexivity |]. destruct x; discriminate.
  - right. exists id. split; [exact Hid |].
    apply (occurs_in_shorter _ _ (JS.fold_ascii x)). now right.
Qed.

(** X11. For search strings of ASCII characters the search depends on
    the query only up to the case of its letters: two queries that differ
    in the case of letters only select the same rows, whatever the ids.
    Typing more ASCII characters before or after such a query never adds
    a row. *)
Theorem search_ignores_case_and_narrows :
  forall (lower : string -> string) (f : TransactionHistory.Filter)
         (txs : list TransactionHistory.Transaction),
    (forall q1 q2,
        JS.is_ascii q1 = true ->
        same_ignoring_case q1 q2 ->
        TransactionHistory.filterTransactions lower f q1 txs
        = TransactionHistory.filterTransactions lower f q2 txs)
    /\ (forall q x tx,
           JS.is_ascii q = true -> JS.is_ascii x = true ->
           In tx (TransactionHistory.filterTransactions lower f (q ++ x) txs)
           \/ In tx (TransactionHistory.filterTransactions lower f (x ++ q) txs) ->
           In tx (TransactionHistory.filterTransactions lower f q txs))
    /\ TransactionHistory.filterTransactions lower f "TXN_a" txs
       = TransactionHistory.filterTransactions lower f "txn_A" txs.
Proof.
  intros lower f txs.
  assert (Hsame : forall q1 q2,
             JS.is_ascii q1 = true -> same_ignoring_case q1 q2 ->
             TransactionHistory.filterTransactions lower f q1 txs
             = TransactionHistory.filterTransactions lower f q2 txs).
  { intros q1 q2 H1 Hs.
    pose proof (same_ignoring_case_ascii q1 q2 Hs H1) as H2.
    unfold TransactionHistory.filterTransactions.
    apply filter_ext. intros tx. f_equal.
    unfold TransactionHistory.matchesSearch.
    rewrite (toLowerCase_ascii lower q1 H1), (toLowerCase_ascii lower q2 H2).
    apply fold_ascii_same in Hs. rewrite Hs.
    f_equal. destruct q1, q2; cbn in Hs; try reflexivity; discriminate. }
  split; [exact Hsame |]. split.
  - intros q x tx Hq Hx H.
    unfold TransactionHistory.filterTransactions in *.
    rewrite !filter_In, !andb_true_iff in *.
    destruct H as [(Hin & Hf & Hs) | (Hin & Hf & Hs)];
      (split; [exact Hin |]); (split; [exact Hf |]);
      apply (matchesSearch_shorter lower q x tx Hq Hx); auto.
  - apply Hsame; [reflexivity |].
    apply fold_ascii_same. reflexivity.
Qed.

Lemma search_ignores_case_and_narrows_witness :
  TransactionHistory.filterTransactions no_unicode TransactionHistory.FilterAll
    "ABC" [tagged_row "txn_xabcx" true; tagged_row "txn_abd" false]
  = TransactionHistory.filterTransactions no_unicode TransactionHistory.FilterAll
      "abc" [tagged_row "txn_xabcx" true; tagged_row "txn_abd" false].
Proof.
  apply (proj1 (search_ignores_case_and_narrows no_unicode
                  TransactionHistory.FilterAll
                  [tagged_row "txn_xabcx" true; tagged_row "txn_abd" false])).
  - reflexivity.
  - repeat constructor; right; left; vm_compute; lia.
Defined.

(** ** History: pages *)

Lemma page_is_chunk {A : Type} (l : list A) (k : nat) :
  TransactionHistory.page l (Z.of_nat k + 1)
  = List.firstn 10 (List.skipn (10 * k) l).
Proof.
  rewrite page_unfold by lia.
  destruct (Nat.le_gt_cases (List.length l) (10 * k)) as [Hle | Hgt].
  - rewrite !skipn_all2 by lia. now rewrite !firstn_nil.
  - replace (Z.to_nat (Z.min ((Z.of_nat k + 1 - 1) * 10) (Z.of_nat (List.length l))))
      with (10 * k)%nat by lia.
    destruct (Nat.le_gt_cases (10 * k + 10) (List.length l)) as [Hfull | Hpart].
    + f_equal. lia.
    + rewrite (firstn_all2 (n := 10)) by (rewrite length_skipn; lia).
      apply firstn_all2. rewrite length_skipn. lia.
Qed.

Lemma chunks_concat {A : Type} (n : nat) (l : list A) :
  (List.length l <= 10 * n)%nat ->
  List.concat (List.map (fun k => List.firstn 10 (List.skipn (10 * k) l)) (List.seq 0 n))
  = l.
Proof.
  revert l. induction n as [| n IH]; intros l Hl.
  - destruct l; [reflexivity | cbn in Hl; lia].
  - rewrite <- cons_seq, <- seq_shift. cbn [List.map List.concat].
    rewrite map_map, Nat.mul_0_r. cbn [List.skipn].
    rewrite (map_ext _ (fun k => List.firstn 10 (List.skipn (10 * k) (List.skipn 10 l)))).
    + rewrite IH by (rewrite length_skipn; lia). apply firstn_skipn.
    + intros k. f_equal. rewrite skipn_skipn. f_equal. lia.
Qed.

(** X12. The pages cover the list: pages 1 to the page count, one after
    the other, are the filtered list itself, so no row is lost or shown
    twice by the pagination. *)
Theorem pages_concatenate_to_the_list :
  forall (A : Type) (l : list A),
    List.concat
      (List.map (fun k => TransactionHistory.page l (Z.of_nat k + 1))
         (List.seq 0 (Z.to_nat (TransactionHistory.pageCount l))))
    = l.
Proof.
  intros A l.
  rewrite (map_ext _ (fun k => List.firstn 10 (List.skipn (10 * k) l)))
    by (intros k; apply page_is_chunk).
  apply chunks_concat.
  pose proof (ceil_div_bounds (Z.of_nat (List.length l))) as H.
  unfold TransactionHistory.pageCount, TransactionHistory.itemsPerPage. lia.
Qed.

Lemma paginationShown_iff (lower : string -> string) (s : TransactionHistory.State) :
  TransactionHistory.paginationShown lower s = true
  <-> (TransactionHistory.loading s
       && (List.length (TransactionHistory.transactions s) =? 0)%nat = false
       /\ TransactionHistory.paginatedTransactions lower s <> []
       /\ 1 < TransactionHistory.totalPages lower s).
Proof.
  unfold TransactionHistory.paginationShown, TransactionHistory.render.
  destruct (TransactionHistory.loading s
            && (List.length (TransactionHistory.transactions s) =? 0)%nat).
  - split; [discriminate | intros [H _]; discriminate].
  - destruct (TransactionHistory.paginatedTransactions lower s) as [| tx rows] eqn:E; cbn.
    + split; [discriminate | intros (_ & H & _); now elim H].
    + rewrite Z.ltb_lt. split; [intros H | intros (_ & _ & H); exact H].
      repeat split; [discriminate | exact H].
Qed.

(** X13. While the pagination bar is on screen, the summary "Showing a to
    b of n" agrees with the table: a is at least 1, b is at most n, the
    table has exactly b - a + 1 rows, and its first row is row a of the
    filtered list. *)
Theorem showing_summary_matches_rows (lower : string -> string) :
  forall s : TransactionHistory.State,
    TransactionHistory.Reachable lower s ->
    TransactionHistory.paginationShown lower s = true ->
    1 <= TransactionHistory.showingFrom s <= TransactionHistory.showingTo lower s
    /\ TransactionHistory.showingTo lower s <= TransactionHistory.showingTotal lower s
    /\ Z.of_nat (List.length (TransactionHistory.paginatedTransactions lower s))
       = TransactionHistory.showingTo lower s - TransactionHistory.showingFrom s + 1
    /\ List.nth_error (TransactionHistory.paginatedTransactions lower s) 0
       = List.nth_error (TransactionHistory.filteredTransactions lower s)
           (Z.to_nat (TransactionHistory.showingFrom s - 1)).
Proof.
  intros s Hreach Hshown.
  pose proof (reachable_page_positive lower s Hreach) as Hpos.
  destruct (shown_page_in_range lower s Hshown Hpos) as [Hle Ht].
  unfold TransactionHistory.showingFrom, TransactionHistory.showingTo,
    TransactionHistory.showingTotal, TransactionHistory.paginatedTransactions,
    TransactionHistory.totalPages, TransactionHistory.itemsPerPage in *.
  set (l := TransactionHistory.filteredTransactions lower s) in *.
  set (p := TransactionHistory.currentPage s) in *.
  pose proof (ceil_div_bounds (Z.of_nat (List.length l))) as Hn.
  fold TransactionHistory.itemsPerPage in Hn.
  unfold TransactionHistory.pageCount, TransactionHistory.itemsPerPage in *.
  rewrite page_length by lia.
  repeat split; try lia.
  rewrite (page_nth_error l p 0) by lia.
  f_equal. lia.
Qed.

Lemma showing_summary_matches_rows_witness :
  Z.of_nat (List.length (TransactionHistory.paginatedTransactions no_unicode
                           (history_on_page_3 no_unicode)))
  = TransactionHistory.showingTo no_unicode (history_on_page_3 no_unicode)
    - TransactionHistory.showingFrom (history_on_page_3 no_unicode) + 1.
Proof.
  assert (H : TransactionHistory.paginationShown no_unicode (history_on_page_3 no_unicode) = true)
    by (vm_compute; reflexivity).
  exact (proj1 (proj2 (proj2
           (showing_summary_matches_rows no_unicode (history_on_page_3 no_unicode)
              (history_on_page_3_reachable no_unicode) H)))).
Defined.

Lemma history_shrunk_reachable (lower : string -> string) :
  TransactionHistory.Reachable lower (history_shrunk lower).
Proof.
  apply (TransactionHistory.ReachStep lower (history_on_page_3 lower)
           (TransactionHistory.Fetch stub_runtime recent_five)).
  - exact (history_on_page_3_reachable lower).
  - constructor.
Qed.

(** X14. A page index above the page count is a dead end for the paging
    controls: the table is empty, the view shows "No Transactions Found"
    even though the filtered list has rows, the pagination bar is not
    rendered, and no transition can change the index. Such a state is
    reached when a refresh returns fewer rows while a later page is
    open. *)
Theorem page_beyond_count_is_stuck (lower : string -> string) :
  (forall s : TransactionHistory.State,
      TransactionHistory.totalPages lower s < TransactionHistory.currentPage s ->
      TransactionHistory.paginatedTransactions lower s = []
      /\ TransactionHistory.previousEnabled lower s = false
      /\ TransactionHistory.nextEnabled lower s = false
      /\ (TransactionHistory.filteredTransactions lower s <> [] ->
          TransactionHistory.render lower s = TransactionHistory.NoTransactionsFound)
      /\ (forall a s', TransactionHistory.Step lower s a s' ->
            TransactionHistory.currentPage s' = TransactionHistory.currentPage s))
  /\ TransactionHistory.Reachable lower (history_shrunk lower)
  /\ TransactionHistory.filteredTransactions lower (history_shrunk lower) <> []
  /\ TransactionHistory.totalPages lower (history_shrunk lower)
     < TransactionHistory.currentPage (history_shrunk lower).
Proof.
  split.
  - intros s Hp.
    assert (Hnil : TransactionHistory.paginatedTransactions lower s = [])
      by (now apply page_beyond_count_empty).
    assert (Hshown : TransactionHistory.paginationShown lower s = false).
    { destruct (TransactionHistory.paginationShown lower s) eqn:E; [| reflexivity].
      apply (paginationShown_iff lower) in E. tauto. }
    assert (Hprev : TransactionHistory.previousEnabled lower s = false)
      by (unfold TransactionHistory.previousEnabled; now rewrite Hshown).
    assert (Hnext : TransactionHistory.nextEnabled lower s = false)
      by (unfold TransactionHistory.nextEnabled; now rewrite Hshown).
    repeat match goal with |- _ /\ _ => split end; try assumption.
    + intros Hne. unfold TransactionHistory.render. rewrite Hnil.
      destruct (TransactionHistory.transactions s) as [| tx txs] eqn:E.
      * exfalso. apply Hne. unfold TransactionHistory.filteredTransactions,
          TransactionHistory.filterTransactions. now rewrite E.
      * cbn. now rewrite andb_false_r.
    + intros a s' Hstep.
      destruct (Z.eq_dec (TransactionHistory.currentPage s')
                  (TransactionHistory.currentPage s)) as [E | E]; [exact E |].
      destruct (step_keeps_page_unless_paging lower s s' a Hstep E) as [-> | ->];
        inversion Hstep; congruence.
  - split; [exact (history_shrunk_reachable lower) |].
    split; vm_compute; [discriminate | reflexivity].
Qed.

Lemma page_beyond_count_is_stuck_witness :
  TransactionHistory.paginatedTransactions no_unicode (history_shrunk no_unicode) = [].
Proof.
  apply (proj1 (page_beyond_count_is_stuck no_unicode) (history_shrunk no_unicode)).
  vm_compute. reflexivity.
Defined.

(** X15. Paging goes back and forth: from a reachable state where "next"
    can be clicked, clicking it leaves "previous" clickable and clicking
    that returns to the very state one started from; likewise "previous"
    then "next". *)
Theorem next_then_previous_returns (lower : string -> string) :
  forall s : TransactionHistory.State,
    TransactionHistory.Reachable lower s ->
    (TransactionHistory.nextEnabled lower s = true ->
     TransactionHistory.currentPage (TransactionHistory.onNext lower s)
     = TransactionHistory.currentPage s + 1
     /\ TransactionHistory.previousEnabled lower (TransactionHistory.onNext lower s) = true
     /\ TransactionHistory.onPrevious (TransactionHistory.onNext lower s) = s)
    /\ (TransactionHistory.previousEnabled lower s = true ->
        TransactionHistory.currentPage (TransactionHistory.onPrevious s)
        = TransactionHistory.currentPage s - 1
        /\ TransactionHistory.nextEnabled lower (TransactionHistory.onPrevious s) = true
        /\ TransactionHistory.onNext lower (TransactionHistory.onPrevious s) = s).
Proof.
  intros s Hreach.
  pose proof (reachable_page_positive lower s Hreach) as Hpos.
  assert (Hmove : forall q,
             TransactionHistory.paginationShown lower s = true ->
             1 <= q <= TransactionHistory.totalPages lower s ->
             TransactionHistory.paginationShown lower
               (TransactionHistory.setCurrentPage (fun _ => q) s) = true).
  { intros q Hshown Hq.
    apply (paginationShown_iff lower) in Hshown. destruct Hshown as (Hsp & _ & Ht).
    apply (paginationShown_iff lower). split; [exact Hsp |]. split; [| exact Ht].
    unfold TransactionHistory.paginatedTransactions.
    change (TransactionHistory.filteredTransactions lower
              (TransactionHistory.setCurrentPage (fun _ => q) s))
      with (TransactionHistory.filteredTransactions lower s).
    cbn [TransactionHistory.currentPage TransactionHistory.setCurrentPage].
    intros Hnil. apply (f_equal (fun r => Z.of_nat (List.length r))) in Hnil.
    rewrite page_length in Hnil by lia. cbn in Hnil.
    pose proof (ceil_div_bounds
                  (Z.of_nat (List.length (TransactionHistory.filteredTransactions lower s)))) as Hn.
    unfold TransactionHistory.totalPages, TransactionHistory.pageCount,
      TransactionHistory.itemsPerPage in *.
    lia. }
  split.
  - intros Hnext. apply andb_true_iff in Hnext. destruct Hnext as [Hshown Hne].
    apply negb_true_iff, Z.eqb_neq in Hne.
    destruct (shown_page_in_range lower s Hshown Hpos) as [Hle Ht].
    assert (E : TransactionHistory.onNext lower s
                = TransactionHistory.setCurrentPage
                    (fun _ => TransactionHistory.currentPage s + 1) s).
    { unfold TransactionHistory.onNext, TransactionHistory.setCurrentPage.
      f_equal. lia. }
    rewrite E. split; [reflexivity |]. split.
    + unfold TransactionHistory.previousEnabled.
      rewrite Hmove by (auto; lia). cbn.
      apply negb_true_iff, Z.eqb_neq. lia.
    + destruct s as [txs l f q p c]. unfold TransactionHistory.onPrevious,
        TransactionHistory.setCurrentPage. cbn in *. f_equal. lia.
  - intros Hprev. apply andb_true_iff in Hprev. destruct Hprev as [Hshown Hne].
    apply negb_true_iff, Z.eqb_neq in Hne.
    destruct (shown_page_in_range lower s Hshown Hpos) as [Hle Ht].
    assert (E : TransactionHistory.onPrevious s
                = TransactionHistory.setCurrentPage
                    (fun _ => TransactionHistory.currentPage s - 1) s).
    { unfold TransactionHistory.onPrevious, TransactionHistory.setCurrentPage.
      f_equal. lia. }
    rewrite E. split; [reflexivity |]. split.
    + unfold TransactionHistory.nextEnabled.
      rewrite Hmove by (auto; lia).
      change (TransactionHistory.totalPages lower
                (TransactionHistory.setCurrentPage
                   (fun _ => TransactionHistory.currentPage s - 1) s))
        with (TransactionHistory.totalPages lower s).
      cbn. apply negb_true_iff, Z.eqb_neq. lia.
    + unfold TransactionHistory.onNext.
      change (TransactionHistory.totalPages lower
                (TransactionHistory.setCurrentPage
                   (fun _ => TransactionHistory.currentPage s - 1) s))
        with (TransactionHistory.totalPages lower s).
      destruct s as [txs l f q p c]. unfold TransactionHistory.setCurrentPage.
      cbn in *. f_equal. lia.
Qed.

Lemma next_then_previous_returns_witness :
  TransactionHistory.onPrevious (TransactionHistory.onNext no_unicode history_loaded)
  = history_loaded.
Proof.
  assert (R : TransactionHistory.Reachable no_unicode history_loaded).
  { apply (TransactionHistory.ReachStep no_unicode TransactionHistory.initial
             (TransactionHistory.Fetch stub_runtime recent_unavailable));
      constructor. }
  assert (N : TransactionHistory.nextEnabled no_unicode history_loaded = true)
    by (vm_compute; reflexivity).
  exact (proj2 (proj2 (proj1 (next_then_previous_returns no_unicode history_loaded R) N))).
Defined.

(** ** History: fetching and mock rows *)

Lemma fetchTransactions_exec (rt : TransactionHistory.Runtime)
      (recent : Eff.FetchResult TransactionHistory.RecentJson)
      (s : TransactionHistory.State) :
  TransactionHistory.fetchTransactions rt recent s
  = (Eff.Ok tt,
     {| TransactionHistory.transactions := fetched_rows rt recent;
        TransactionHistory.loading := false;
        TransactionHistory.filter := TransactionHistory.filter s;
        TransactionHistory.searchQuery := TransactionHistory.searchQuery s;
        TransactionHistory.currentPage := TransactionHistory.currentPage s;
        TransactionHistory.console := TransactionHistory.console s ++ fetch_log recent |}).
Proof.
  unfold TransactionHistory.fetchTransactions, fetch_log, fetched_rows,
    Eff.try_finally, Eff.try_catch, Eff.bind, Eff.await_fetch, Eff.await_json,
    Eff.member, Eff.modify.
  destruct s as [txs l f q p c].
  destruct recent as [e | r]; cbn -[TransactionHistory.generateMockTransactions].
  - reflexivity.
  - destruct (Eff.ok r); cbn -[TransactionHistory.generateMockTransactions].
    + destruct (Eff.body r); cbn -[TransactionHistory.generateMockTransactions];
        [reflexivity | reflexivity | now rewrite app_nil_r].
    + now rewrite app_nil_r.
Qed.

(** X16. A fetch of the history with a 2xx status and a JSON body other
    than [null] shows the rows of its [data] member, and the empty list
    when the member is missing, and writes nothing to the console. A 2xx
    status with a body on which [response.json()] rejects, or with the
    JSON body [null], of which no [data] can be read, installs the mock
    rows like a failed fetch. "Using mock data" is written exactly when
    the [try] block threw: the fetch was rejected, or the 2xx body was no
    JSON or was [null]; a non-2xx status installs the mock rows silently. No fetch
    changes the filter, the search string or the page index, and every
    fetch ends with the loading flag false. *)
Theorem fetchTransactions_outcomes :
  forall (rt : TransactionHistory.Runtime)
         (recent : Eff.FetchResult TransactionHistory.RecentJson)
         (s : TransactionHistory.State),
    let s' := Eff.exec (TransactionHistory.fetchTransactions rt recent) s in
    TransactionHistory.loading s' = false
    /\ TransactionHistory.filter s' = TransactionHistory.filter s
    /\ TransactionHistory.searchQuery s' = TransactionHistory.searchQuery s
    /\ TransactionHistory.currentPage s' = TransactionHistory.currentPage s
    /\ (forall r payload, recent = Eff.Resolved r -> Eff.ok r = true ->
          Eff.body r = Eff.JsonValue payload ->
          TransactionHistory.console s' = TransactionHistory.console s
          /\ TransactionHistory.transactions s'
             = match TransactionHistory.data payload with
               | Some rows => rows
               | None => []
               end)
    /\ (forall r err, recent = Eff.Resolved r -> Eff.ok r = true ->
          Eff.body r = Eff.NoJson err ->
          TransactionHistory.transactions s'
          = TransactionHistory.generateMockTransactions rt
          /\ TransactionHistory.console s'
             = TransactionHistory.console s ++ ["Using mock data"])
    /\ (forall r, recent = Eff.Resolved r -> Eff.ok r = true ->
          Eff.body r = Eff.JsonNull ->
          TransactionHistory.transactions s'
          = TransactionHistory.generateMockTransactions rt
          /\ TransactionHistory.console s'
             = TransactionHistory.console s ++ ["Using mock data"])
    /\ (forall r, recent = Eff.Resolved r -> Eff.ok r = false ->
          TransactionHistory.transactions s'
          = TransactionHistory.generateMockTransactions rt
          /\ TransactionHistory.console s' = TransactionHistory.console s)
    /\ (forall e, recent = Eff.Rejected e ->
          TransactionHistory.transactions s'
          = TransactionHistory.generateMockTransactions rt
          /\ TransactionHistory.console s'
             = TransactionHistory.console s ++ ["Using mock data"]).
Proof.
  intros rt recent s s'. subst s'. unfold Eff.exec.
  rewrite fetchTransactions_exec.
  unfold fetched_rows, fetch_log.
  cbn -[TransactionHistory.generateMockTransactions].
  repeat match goal with |- _ /\ _ => split end; try reflexivity.
  - intros r payload -> Hok Hb. rewrite Hok, Hb.
    split; [apply app_nil_r | reflexivity].
  - intros r err -> Hok Hb. rewrite Hok, Hb. split; reflexivity.
  - intros r -> Hok Hb. rewrite Hok, Hb. split; reflexivity.
  - intros r -> Hok. rewrite Hok. split; [reflexivity | apply app_nil_r].
  - intros e ->. split; reflexivity.
Qed.

Lemma fetchTransactions_outcomes_witness :
  TransactionHistory.console
    (Eff.exec (TransactionHistory.fetchTransactions stub_runtime recent_unavailable)
       TransactionHistory.initial)
  = TransactionHistory.console TransactionHistory.initial.
Proof.
  exact (proj2 (proj1 (proj2 (proj2 (proj2 (proj2 (proj2 (proj2 (proj2
           (fetchTransactions_outcomes stub_runtime recent_unavailable
              TransactionHistory.initial))))))))
           _ eq_refl eq_refl)).
Defined.

Lemma string_drop_length (n : nat) (s : string) :
  String.length (JS.string_drop n s) = (String.length s - n)%nat.
Proof.
  revert n. induction s as [| c s IH]; intros [| n]; cbn; try reflexivity.
  apply IH.
Qed.

(** X17. Whatever the random draws and formatters, the 25 mock rows have
    pairwise distinct [_id]s, so the row keys of the table are distinct,
    and each id is "txn_" followed by at most 16 characters, so the id
    column, which cuts at 20 characters, shows every mock id whole. *)
Theorem mock_rows_have_distinct_keys_and_short_ids :
  forall rt : TransactionHistory.Runtime,
    NoDup (List.map TransactionHistory._id
             (TransactionHistory.generateMockTransactions rt))
    /\ Forall
         (fun tx =>
            exists rest,
              TransactionHistory.transaction_id tx = Some ("txn_" ++ rest)%string
              /\ (String.length rest <= 16)%nat
              /\ TransactionHistory.idCell tx = ("txn_" ++ rest ++ "...")%string)
         (TransactionHistory.generateMockTransactions rt).
Proof.
  intros rt. split.
  - assert (E : List.map TransactionHistory._id
                  (TransactionHistory.generateMockTransactions rt)
                = List.map (fun i => ("mock_" ++ JS.digits (N.of_nat i))%string)
                    (List.seq 0 25)).
    { unfold TransactionHistory.generateMockTransactions.
      rewrite map_map. reflexivity. }
    rewrite E.
    assert (N : List.nodup string_dec
                  (List.map (fun i => ("mock_" ++ JS.digits (N.of_nat i))%string)
                     (List.seq 0 25))
                = List.map (fun i => ("mock_" ++ JS.digits (N.of_nat i))%string)
                    (List.seq 0 25)) by (vm_compute; reflexivity).
    rewrite <- N. apply NoDup_nodup.
  - apply Forall_forall. intros tx Hin.
    unfold TransactionHistory.generateMockTransactions in Hin.
    apply in_map_iff in Hin. destruct Hin as [i [<- _]].
    unfold TransactionHistory.idCell, TransactionHistory.mockTransaction.
    cbn [TransactionHistory.transaction_id].
    remember (JS.string_take 16 _) as rest eqn:Hrest.
    assert (Hlen : (String.length rest <= 16)%nat).
    { subst rest. rewrite string_take_length. lia. }
    clear Hrest. exists rest. split; [reflexivity |]. split; [exact Hlen |].
    rewrite string_take_all.
    + cbn. reflexivity.
    + cbn. lia.
Qed.

(** ** Dashboard *)

(** X18. Whatever the stats, no count on the dashboard is 0 or NaN: each
    of the three numeric cards and each pie slice shows either the stat,
    when it is neither 0 nor NaN, or its baked-in number. *)
Theorem dashboard_counts_are_never_zero :
  forall (toStr : JS.number -> string) (st : App.Stats),
    Forall (fun slice => JS.truthy (AnalyticsDashboard.value slice) = true)
      (AnalyticsDashboard.pieData st)
    /\ Forall
         (fun card =>
            match AnalyticsDashboard.card_value card with
            | AnalyticsDashboard.NumberValue n => JS.truthy n = true
            | AnalyticsDashboard.TextValue t => t <> ""
            end)
         (AnalyticsDashboard.statCards toStr st)
    /\ List.map AnalyticsDashboard.title (AnalyticsDashboard.statCards toStr st)
       = ["Total Predictions"; "Fraud Detected"; "Safe Transactions"; "Fraud Rate"].
Proof.
  intros toStr st.
  assert (T : forall a b, JS.truthy b = true -> JS.truthy (JS.or a b) = true).
  { intros a b Hb. unfold JS.or. destruct (JS.truthy a) eqn:E; assumption. }
  unfold AnalyticsDashboard.pieData, AnalyticsDashboard.statCards.
  split; [| split; [| reflexivity]].
  - repeat constructor; cbn; apply T; reflexivity.
  - repeat constructor; cbn; try (apply T; reflexivity).
    intros E. destruct (JS.toFixed1 toStr _); discriminate E.
Qed.

(** ** The application over time *)

Lemma refreshed_stats_plain (be : App.Backend) (st : App.Stats) :
  plain_stats st -> plain_stats (refreshed_stats be st).
Proof.
  intros Hs. unfold refreshed_stats.
  destruct (App.get_stats be) as [e | r]; [exact Hs |].
  destruct (Eff.ok r); [| exact Hs].
  destruct (Eff.body r) as [err | | payload]; [exact Hs | exact Hs |].
  destruct (App.data payload) as [d |]; [| exact Hs].
  unfold plain_stats, normalised. cbn. repeat split; apply or_zero_plain.
Qed.

(** What one event does to the quantities followed below. *)
Lemma handle_step (ev : App.Event) (s : App.State) :
  let s' := Eff.exec (App.handle ev) s in
  let k := if is_request ev then 1%nat else 0%nat in
  (App.isLoading s = false -> App.isLoading s' = false)
  /\ App.setLoadingCalls s'
     = App.setLoadingCalls s ++ List.concat (List.repeat [true; false] k)
  /\ List.length (App.toasts s') = (List.length (App.toasts s) + k)%nat
  /\ (plain_stats (App.stats s) -> plain_stats (App.stats s')).
Proof.
  destruct ev as [be | be fd | be rnd type]; cbv zeta; cbn [App.handle is_request].
  - unfold Eff.exec. rewrite fetchStats_run. cbn.
    rewrite app_nil_r, Nat.add_0_r.
    repeat match goal with |- _ /\ _ => split end; auto.
    apply refreshed_stats_plain.
  - rewrite handlePrediction_run. unfold failure_of, exchange_of.
    destruct (App.post_predict be fd) as [e | r];
      [| destruct (Eff.ok r); [destruct (Eff.body r) |]];
      cbn; rewrite ?length_app; cbn;
      repeat match goal with |- _ /\ _ => split end; auto;
      apply refreshed_stats_plain.
  - rewrite handleQuickTest_run. cbv zeta. unfold failure_of, exchange_of.
    destruct (App.post_predict be (testData rnd type)) as [e | r];
      [| destruct (Eff.ok r); [destruct (Eff.body r) |]];
      cbn; rewrite ?length_app; cbn;
      repeat match goal with |- _ /\ _ => split end; auto;
      apply refreshed_stats_plain.
Qed.

(** X19. After any sequence of mounts, form submissions and quick tests
    the loading flag is false again, [setIsLoading] has been called with
    true and then false once per prediction request and never otherwise,
    exactly one notification has been produced per request, and no stat
    is NaN. *)
Theorem app_settles_after_every_request :
  forall evs : list App.Event,
    let s := App.run evs in
    App.isLoading s = false
    /\ App.setLoadingCalls s = List.concat (List.repeat [true; false] (requests evs))
    /\ List.length (App.toasts s) = requests evs
    /\ plain_stats (App.stats s).
Proof.
  intros evs. cbv zeta. unfold App.run.
  assert (G : forall (s0 : App.State),
             App.isLoading s0 = false -> plain_stats (App.stats s0) ->
             let s := List.fold_left (fun s ev => Eff.exec (App.handle ev) s) evs s0 in
             App.isLoading s = false
             /\ App.setLoadingCalls s
                = App.setLoadingCalls s0
                  ++ List.concat (List.repeat [true; false] (requests evs))
             /\ List.length (App.toasts s)
                = (List.length (App.toasts s0) + requests evs)%nat
             /\ plain_stats (App.stats s)).
  { induction evs as [| ev evs IH]; intros s0 Hl Hp; cbn [List.fold_left].
    - unfold requests. cbn. rewrite app_nil_r, Nat.add_0_r. auto.
    - destruct (handle_step ev s0) as (H1 & H2 & H3 & H4).
      destruct (IH (Eff.exec (App.handle ev) s0) (H1 Hl) (H4 Hp)) as (I1 & I2 & I3 & I4).
      split; [exact I1 |]. split; [| split; [| exact I4]].
      + rewrite I2, H2, <- app_assoc. f_equal.
        unfold requests. cbn [List.filter].
        destruct (is_request ev); cbn; reflexivity.
      + rewrite I3, H3. unfold requests. cbn [List.filter].
        destruct (is_request ev); cbn; lia. }
  apply (G App.initial); [reflexivity |].
  unfold plain_stats. cbn. repeat split; discriminate.
Qed.

(** ** History: what the table shows *)

Lemma firstn_incl {A : Type} (n : nat) (l : list A) : incl (List.firstn n l) l.
Proof.
  revert n. induction l as [| x l IH]; intros [| n]; cbn; intros y Hy;
    try contradiction.
  destruct Hy as [-> | Hy]; [now left | right; now apply (IH n)].
Qed.

Lemma skipn_incl {A : Type} (n : nat) (l : list A) : incl (List.skipn n l) l.
Proof.
  revert n. induction l as [| x l IH]; intros [| n]; cbn; intros y Hy;
    try assumption; try contradiction.
  right. now apply (IH n).
Qed.

(** X20. In every reachable state of the history view the page index is
    at least 1, and whenever the table is on screen it has between 1 and
    10 rows, each of them a fetched row that has the selected status and
    matches the search: the search string is empty or the row's id in
    lower case contains it in lower case, which for an id and a search
    string of ASCII characters means that the id contains the search
    string up to the case of letters. The pagination bar accompanies the
    table exactly when more than 10 rows pass the filter. *)
Theorem table_rows_pass_the_filter (lower : string -> string) :
  forall s : TransactionHistory.State,
    TransactionHistory.Reachable lower s ->
    1 <= TransactionHistory.currentPage s
    /\ (forall rows bar,
           TransactionHistory.render lower s = TransactionHistory.Table rows bar ->
           rows = TransactionHistory.paginatedTransactions lower s
           /\ (1 <= List.length rows <= 10)%nat
           /\ (forall tx, In tx rows ->
                 In tx (TransactionHistory.transactions s)
                 /\ status_matches (TransactionHistory.filter s) tx
                 /\ (TransactionHistory.searchQuery s = ""
                     \/ id_matches lower (TransactionHistory.searchQuery s) tx)
                 /\ (JS.is_ascii (TransactionHistory.searchQuery s) = true ->
                     ascii_id tx ->
                     TransactionHistory.searchQuery s = ""
                     \/ id_contains (TransactionHistory.searchQuery s) tx))
           /\ (bar = true
               <-> (10 < List.length (TransactionHistory.filteredTransactions lower s))%nat)).
Proof.
  intros s Hreach.
  pose proof (reachable_page_positive lower s Hreach) as Hpos.
  split; [exact Hpos |].
  intros rows bar Hrender.
  unfold TransactionHistory.render in Hrender.
  destruct (TransactionHistory.loading s
            && (List.length (TransactionHistory.transactions s) =? 0)%nat);
    [discriminate |].
  destruct (Nat.eqb_spec (List.length (TransactionHistory.paginatedTransactions lower s)) 0)
    as [E | E]; [discriminate |].
  injection Hrender as <- <-.
  split; [reflexivity |].
  assert (Hlen : Z.of_nat (List.length (TransactionHistory.paginatedTransactions lower s))
                 = Z.max 0 (Z.min 10
                              (Z.of_nat (List.length (TransactionHistory.filteredTransactions lower s))
                               - (TransactionHistory.currentPage s - 1) * 10)))
    by (apply page_length; exact Hpos).
  split; [lia |].
  split.
  - intros tx Hin.
    assert (Hf : In tx (TransactionHistory.filteredTransactions lower s)).
    { unfold TransactionHistory.paginatedTransactions in Hin.
      rewrite page_unfold in Hin by exact Hpos.
      apply firstn_incl, skipn_incl in Hin. exact Hin. }
    unfold TransactionHistory.filteredTransactions,
      TransactionHistory.filterTransactions in Hf.
    rewrite filter_In, andb_true_iff, matchesFilter_status, matchesSearch_matches in Hf.
    destruct Hf as (Hin' & Hst & Hs).
    repeat match goal with |- _ /\ _ => split end; try assumption.
    intros Hq Htx. destruct Hs as [Hs | Hs]; [now left | right].
    now apply (id_matches_ascii lower _ tx Hq Htx).
  - rewrite Z.ltb_lt.
    pose proof (ceil_div_bounds
                  (Z.of_nat (List.length (TransactionHistory.filteredTransactions lower s)))) as Hn.
    unfold TransactionHistory.totalPages, TransactionHistory.pageCount,
      TransactionHistory.itemsPerPage.
    lia.
Qed.

Lemma table_rows_pass_the_filter_witness :
  1 <= TransactionHistory.currentPage (history_on_page_3 no_unicode).
Proof.
  exact (proj1 (table_rows_pass_the_filter no_unicode (history_on_page_3 no_unicode)
                  (history_on_page_3_reachable no_unicode))).
Defined.
